(** * CodeMaster Pro: the SQL tutor's query guard and result display

    A shallow embedding of
    - [SQLEngine.validate_sql_query], [execute_query], [get_table_schema]
      and [get_sql_tutorials]               (src/database/sql_engine.py)
    - the methods of [SQLTutorWidget] that load tutorials and examples, run
      a query and display rows or a table schema  (src/gui/sql_tutor.py)
    together with the Python built-ins these methods call.

    A Python [str] is modelled as the list of its code points, so that
    [len], slicing, padding, case mapping and trimming count and classify
    characters as Python does, on any text. *)

From Stdlib Require Import ZArith NArith Ascii DecimalString Strings.Byte.
From stdpp Require Import base strings list gmap.

(** ** Unicode data

    The character tables of CPython 3.11 (Unicode 14.0.0), by code point:
    what [str.isspace], [str.upper], [str.lower] and [float] consult. *)
Module Unicode.
Local Open Scope N_scope.

(** The code points for which [str.isspace] holds. *)
Definition whitespace : list N :=
  [
   9; 10; 11; 12; 13; 28; 29; 30; 31; 32; 133; 160; 5760; 8192; 8193; 8194;
   8195; 8196; 8197; 8198; 8199; 8200; 8201; 8202; 8232; 8233; 8239; 8287;
   12288
  ].

(** The code points above 127 that [str.upper] changes, each with its
    upper-case form, in increasing order. *)
Definition upper_table : list (N * list N) :=
  [
   (181, [924]); (223, [83; 83]); (224, [192]); (225, [193]); (226, [194]);
   (227, [195]); (228, [196]); (229, [197]); (230, [198]); (231, [199]);
   (232, [200]); (233, [201]); (234, [202]); (235, [203]); (236, [204]);
   (237, [205]); (238, [206]); (239, [207]); (240, [208]); (241, [209]);
   (242, [210]); (243, [211]); (244, [212]); (245, [213]); (246, [214]);
   (248, [216]); (249, [217]); (250, [218]); (251, [219]); (252, [220]);
   (253, [221]); (254, [222]); (255, [376]); (257, [256]); (259, [258]);
   (261, [260]); (263, [262]); (265, [264]); (267, [266]); (269, [268]);
   (271, [270]); (273, [272]); (275, [274]); (277, [276]); (279, [278]);
   (281, [280]); (283, [282]); (285, [284]); (287, [286]); (289, [288]);
   (291, [290]); (293, [292]); (295, [294]); (297, [296]); (299, [298]);
   (301, [300]); (303, [302]); (305, [73]); (307, [306]); (309, [308]);
   (311, [310]); (314, [313]); (316, [315]); (318, [317]); (320, [319]);
   (322, [321]); (324, [323]); (326, [325]); (328, [327]); (329, [700; 78]);
   (331, [330]); (333, [332]); (335, [334]); (337, [336]); (339, [338]);
   (341, [340]); (343, [342]); (345, [344]); (347, [346]); (349, [348]);
   (351, [350]); (353, [352]); (355, [354]); (357, [356]); (359, [358]);
   (361, [360]); (363, [362]); (365, [364]); (367, [366]); (369, [368]);
   (371, [370]); (373, [372]); (375, [374]); (378, [377]); (380, [379]);
   (382, [381]); (383, [83]); (384, [579]); (387, [386]); (389, [388]);
   (392, [391]); (396, [395]); (402, [401]); (405, [502]); (409, [408]);
   (410, [573]); (414, [544]); (417, [416]); (419, [418]); (421, [420]);
   (424, [423]); (429, [428]); (432, [431]); (436, [435]); (438, [437]);
   (441, [440]); (445, [444]); (447, [503]); (453, [452]); (454, [452]);
   (456, [455]); (457, [455]); (459, [458]); (460, [458]); (462, [461]);
   (464, [463]); (466, [465]); (468, [467]); (470, [469]); (472, [471]);
   (474, [473]); (476, [475]); (477, [398]); (479, [478]); (481, [480]);
   (483, [482]); (485, [484]); (487, [486]); (489, [488]); (491, [490]);
   (493, [492]); (495, [494]); (496, [74; 780]); (498, [497]); (499, [497]);
   (501, [500]); (505, [504]); (507, [506]); (509, [508]); (511, [510]);
   (513, [512]); (515, [514]); (517, [516]); (519, [518]); (521, [520]);
   (523, [522]); (525, [524]); (527, [526]); (529, [528]); (531, [530]);
   (533, [532]); (535, [534]); (537, [536]); (539, [538]); (541, [540]);
   (543, [542]); (547, [546]); (549, [548]); (551, [550]); (553, [552]);
   (555, [554]); (557, [556]); (559, [558]); (561, [560]); (563, [562]);
   (572, [571]); (575, [11390]); (576, [11391]); (578, [577]); (583, [582]);
   (585, [584]); (587, [586]); (589, [588]); (591, [590]); (592, [11375]);
   (593, [11373]); (594, [11376]); (595, [385]); (596, [390]); (598, [393]);
   (599, [394]); (601, [399]); (603, [400]); (604, [42923]); (608, [403]);
   (609, [42924]); (611, [404]); (613, [42893]); (614, [42922]);
   (616, [407]); (617, [406]); (618, [42926]); (619, [11362]);
   (620, [42925]); (623, [412]); (625, [11374]); (626, [413]); (629, [415]);
   (637, [11364]); (640, [422]); (642, [42949]); (643, [425]);
   (647, [42929]); (648, [430]); (649, [580]); (650, [433]); (651, [434]);
   (652, [581]); (658, [439]); (669, [42930]); (670, [42928]); (837, [921]);
   (881, [880]); (883, [882]); (887, [886]); (891, [1021]); (892, [1022]);
   (893, [1023]); (912, [921; 776; 769]); (940, [902]); (941, [904]);
   (942, [905]); (943, [906]); (944, [933; 776; 769]); (945, [913]);
   (946, [914]); (947, [915]); (948, [916]); (949, [917]); (950, [918]);
   (951, [919]); (952, [920]); (953, [921]); (954, [922]); (955, [923]);
   (956, [924]); (957, [925]); (958, [926]); (959, [927]); (960, [928]);
   (961, [929]); (962, [931]); (963, [931]); (964, [932]); (965, [933]);
   (966, [934]); (967, [935]); (968, [936]); (969, [937]); (970, [938]);
   (971, [939]); (972, [908]); (973, [910]); (974, [911]); (976, [914]);
   (977, [920]); (981, [934]); (982, [928]); (983, [975]); (985, [984]);
   (987, [986]); (989, [988]); (991, [990]); (993, [992]); (995, [994]);
   (997, [996]); (999, [998]); (1001, [1000]); (1003, [1002]);
   (1005, [1004]); (1007, [1006]); (1008, [922]); (1009, [929]);
   (1010, [1017]); (1011, [895]); (1013, [917]); (1016, [1015]);
   (1019, [1018]); (1072, [1040]); (1073, [1041]); (1074, [1042]);
   (1075, [1043]); (1076, [1044]); (1077, [1045]); (1078, [1046]);
   (1079, [1047]); (1080, [1048]); (1081, [1049]); (1082, [1050]);
   (1083, [1051]); (1084, [1052]); (1085, [1053]); (1086, [1054]);
   (1087, [1055]); (1088, [1056]); (1089, [1057]); (1090, [1058]);
   (1091, [1059]); (1092, [1060]); (1093, [1061]); (1094, [1062]);
   (1095, [1063]); (1096, [1064]); (1097, [1065]); (1098, [1066]);
   (1099, [1067]); (1100, [1068]); (1101, [1069]); (1102, [1070]);
   (1103, [1071]); (1104, [1024]); (1105, [1025]); (1106, [1026]);
   (1107, [1027]); (1108, [1028]); (1109, [1029]); (1110, [1030]);
   (1111, [1031]); (1112, [1032]); (1113, [1033]); (1114, [1034]);
   (1115, [1035]); (1116, [1036]); (1117, [1037]); (1118, [1038]);
   (1119, [1039]); (1121, [1120]); (1123, [1122]); (1125, [1124]);
   (1127, [1126]); (1129, [1128]); (1131, [1130]); (1133, [1132]);
   (1135, [1134]); (1137, [1136]); (1139, [1138]); (1141, [1140]);
   (1143, [1142]); (1145, [1144]); (1147, [1146]); (1149, [1148]);
   (1151, [1150]); (1153, [1152]); (1163, [1162]); (1165, [1164]);
   (1167, [1166]); (1169, [1168]); (1171, [1170]); (1173, [1172]);
   (1175, [1174]); (1177, [1176]); (1179, [1178]); (1181, [1180]);
   (1183, [1182]); (1185, [1184]); (1187, [1186]); (1189, [1188]);
   (1191, [1190]); (1193, [1192]); (1195, [1194]); (1197, [1196]);
   (1199, [1198]); (1201, [1200]); (1203, [1202]); (1205, [1204]);
   (1207, [1206]); (1209, [1208]); (1211, [1210]); (1213, [1212]);
   (1215, [1214]); (1218, [1217]); (1220, [1219]); (1222, [1221]);
   (1224, [1223]); (1226, [1225]); (1228, [1227]); (1230, [1229]);
   (1231, [1216]); (1233, [1232]); (1235, [1234]); (1237, [1236]);
   (1239, [1238]); (1241, [1240]); (1243, [1242]); (1245, [1244]);
   (1247, [1246]); (1249, [1248]); (1251, [1250]); (1253, [1252]);
   (1255, [1254]); (1257, [1256]); (1259, [1258]); (1261, [1260]);
   (1263, [1262]); (1265, [1264]); (1267, [1266]); (1269, [1268]);
   (1271, [1270]); (1273, [1272]); (1275, [1274]); (1277, [1276]);
   (1279, [1278]); (1281, [1280]); (1283, [1282]); (1285, [1284]);
   (1287, [1286]); (1289, [1288]); (1291, [1290]); (1293, [1292]);
   (1295, [1294]); (1297, [1296]); (1299, [1298]); (1301, [1300]);
   (1303, [1302]); (1305, [1304]); (1307, [1306]); (1309, [1308]);
   (1311, [1310]); (1313, [1312]); (1315, [1314]); (1317, [1316]);
   (1319, [1318]); (1321, [1320]); (1323, [1322]); (1325, [1324]);
   (1327, [1326]); (1377, [1329]); (1378, [1330]); (1379, [1331]);
   (1380, [1332]); (1381, [1333]); (1382, [1334]); (1383, [1335]);
   (1384, [1336]); (1385, [1337]); (1386, [1338]); (1387, [1339]);
   (1388, [1340]); (1389, [1341]); (1390, [1342]); (1391, [1343]);
   (1392, [1344]); (1393, [1345]); (1394, [1346]); (1395, [1347]);
   (1396, [1348]); (1397, [1349]); (1398, [1350]); (1399, [1351]);
   (1400, [1352]); (1401, [1353]); (1402, [1354]); (1403, [1355]);
   (1404, [1356]); (1405, [1357]); (1406, [1358]); (1407, [1359]);
   (1408, [1360]); (1409, [1361]); (1410, [1362]); (1411, [1363]);
   (1412, [1364]); (1413, [1365]); (1414, [1366]); (1415, [1333; 1362]);
   (4304, [7312]); (4305, [7313]); (4306, [7314]); (4307, [7315]);
   (4308, [7316]); (4309, [7317]); (4310, [7318]); (4311, [7319]);
   (4312, [7320]); (4313, [7321]); (4314, [7322]); (4315, [7323]);
   (4316, [7324]); (4317, [7325]); (4318, [7326]); (4319, [7327]);
   (4320, [7328]); (4321, [7329]); (4322, [7330]); (4323, [7331]);
   (4324, [7332]); (4325, [7333]); (4326, [7334]); (4327, [7335]);
   (4328, [7336]); (4329, [7337]); (4330, [7338]); (4331, [7339]);
   (4332, [7340]); (4333, [7341]); (4334, [7342]); (4335, [7343]);
   (4336, [7344]); (4337, [7345]); (4338, [7346]); (4339, [7347]);
   (4340, [7348]); (4341, [7349]); (4342, [7350]); (4343, [7351]);
   (4344, [7352]); (4345, [7353]); (4346, [7354]); (4349, [7357]);
   (4350, [7358]); (4351, [7359]); (5112, [5104]); (5113, [5105]);
   (5114, [5106]); (5115, [5107]); (5116, [5108]); (5117, [5109]);
   (7296, [1042]); (7297, [1044]); (7298, [1054]); (7299, [1057]);
   (7300, [1058]); (7301, [1058]); (7302, [1066]); (7303, [1122]);
   (7304, [42570]); (7545, [42877]); (7549, [11363]); (7566, [42950]);
   (7681, [7680]); (7683, [7682]); (7685, [7684]); (7687, [7686]);
   (7689, [7688]); (7691, [7690]); (7693, [7692]); (7695, [7694]);
   (7697, [7696]); (7699, [7698]); (7701, [7700]); (7703, [7702]);
   (7705, [7704]); (7707, [7706]); (7709, [7708]); (7711, [7710]);
   (7713, [7712]); (7715, [7714]); (7717, [7716]); (7719, [7718]);
   (7721, [7720]); (7723, [7722]); (7725, [7724]); (7727, [7726]);
   (7729, [7728]); (7731, [7730]); (7733, [7732]); (7735, [7734]);
   (7737, [7736]); (7739, [7738]); (7741, [7740]); (7743, [7742]);
   (7745, [7744]); (7747, [7746]); (7749, [7748]); (7751, [7750]);
   (7753, [7752]); (7755, [7754]); (7757, [7756]); (7759, [7758]);
   (7761, [7760]); (7763, [7762]); (7765, [7764]); (7767, [7766]);
   (7769, [7768]); (7771, [7770]); (7773, [7772]); (7775, [7774]);
   (7777, [7776]); (7779, [7778]); (7781, [7780]); (7783, [7782]);
   (7785, [7784]); (7787, [7786]); (7789, [7788]); (7791, [7790]);
   (7793, [7792]); (7795, [7794]); (7797, [7796]); (7799, [7798]);
   (7801, [7800]); (7803, [7802]); (7805, [7804]); (7807, [7806]);
   (7809, [7808]); (7811, [7810]); (7813, [7812]); (7815, [7814]);
   (7817, [7816]); (7819, [7818]); (7821, [7820]); (7823, [7822]);
   (7825, [7824]); (7827, [7826]); (7829, [7828]); (7830, [72; 817]);
   (7831, [84; 776]); (7832, [87; 778]); (7833, [89; 778]);
   (7834, [65; 702]); (7835, [7776]); (7841, [7840]); (7843, [7842]);
   (7845, [7844]); (7847, [7846]); (7849, [7848]); (7851, [7850]);
   (7853, [7852]); (7855, [7854]); (7857, [7856]); (7859, [7858]);
   (7861, [7860]); (7863, [7862]); (7865, [7864]); (7867, [7866]);
   (7869, [7868]); (7871, [7870]); (7873, [7872]); (7875, [7874]);
   (7877, [7876]); (7879, [7878]); (7881, [7880]); (7883, [7882]);
   (7885, [7884]); (7887, [7886]); (7889, [7888]); (7891, [7890]);
   (7893, [7892]); (7895, [7894]); (7897, [7896]); (7899, [7898]);
   (7901, [7900]); (7903, [7902]); (7905, [7904]); (7907, [7906]);
   (7909, [7908]); (7911, [7910]); (7913, [7912]); (7915, [7914]);
   (7917, [7916]); (7919, [7918]); (7921, [7920]); (7923, [7922]);
   (7925, [7924]); (7927, [7926]); (7929, [7928]); (7931, [7930]);
   (7933, [7932]); (7935, [7934]); (7936, [7944]); (7937, [7945]);
   (7938, [7946]); (7939, [7947]); (7940, [7948]); (7941, [7949]);
   (7942, [7950]); (7943, [7951]); (7952, [7960]); (7953, [7961]);
   (7954, [7962]); (7955, [7963]); (7956, [7964]); (7957, [7965]);
   (7968, [7976]); (7969, [7977]); (7970, [7978]); (7971, [7979]);
   (7972, [7980]); (7973, [7981]); (7974, [7982]); (7975, [7983]);
   (7984, [7992]); (7985, [7993]); (7986, [7994]); (7987, [7995]);
   (7988, [7996]); (7989, [7997]); (7990, [7998]); (7991, [7999]);
   (8000, [8008]); (8001, [8009]); (8002, [8010]); (8003, [8011]);
   (8004, [8012]); (8005, [8013]); (8016, [933; 787]); (8017, [8025]);
   (8018, [933; 787; 768]); (8019, [8027]); (8020, [933; 787; 769]);
   (8021, [8029]); (8022, [933; 787; 834]); (8023, [8031]); (8032, [8040]);
   (8033, [8041]); (8034, [8042]); (8035, [8043]); (8036, [8044]);
   (8037, [8045]); (8038, [8046]); (8039, [8047]); (8048, [8122]);
   (8049, [8123]); (8050, [8136]); (8051, [8137]); (8052, [8138]);
   (8053, [8139]); (8054, [8154]); (8055, [8155]); (8056, [8184]);
   (8057, [8185]); (8058, [8170]); (8059, [8171]); (8060, [8186]);
   (8061, [8187]); (8064, [7944; 921]); (8065, [7945; 921]);
   (8066, [7946; 921]); (8067, [7947; 921]); (8068, [7948; 921]);
   (8069, [7949; 921]); (8070, [7950; 921]); (8071, [7951; 921]);
   (8072, [7944; 921]); (8073, [7945; 921]); (8074, [7946; 921]);
   (8075, [7947; 921]); (8076, [7948; 921]); (8077, [7949; 921]);
   (8078, [7950; 921]); (8079, [7951; 921]); (8080, [7976; 921]);
   (8081, [7977; 921]); (8082, [7978; 921]); (8083, [7979; 921]);
   (8084, [7980; 921]); (8085, [7981; 921]); (8086, [7982; 921]);
   (8087, [7983; 921]); (8088, [7976; 921]); (8089, [7977; 921]);
   (8090, [7978; 921]); (8091, [7979; 921]); (8092, [7980; 921]);
   (8093, [7981; 921]); (8094, [7982; 921]); (8095, [7983; 921]);
   (8096, [8040; 921]); (8097, [8041; 921]); (8098, [8042; 921]);
   (8099, [8043; 921]); (8100, [8044; 921]); (8101, [8045; 921]);
   (8102, [8046; 921]); (8103, [8047; 921]); (8104, [8040; 921]);
   (8105, [8041; 921]); (8106, [8042; 921]); (8107, [8043; 921]);
   (8108, [8044; 921]); (8109, [8045; 921]); (8110, [8046; 921]);
   (8111, [8047; 921]); (8112, [8120]); (8113, [8121]); (8114, [8122; 921]);
   (8115, [913; 921]); (8116, [902; 921]); (8118, [913; 834]);
   (8119, [913; 834; 921]); (8124, [913; 921]); (8126, [921]);
   (8130, [8138; 921]); (8131, [919; 921]); (8132, [905; 921]);
   (8134, [919; 834]); (8135, [919; 834; 921]); (8140, [919; 921]);
   (8144, [8152]); (8145, [8153]); (8146, [921; 776; 768]);
   (8147, [921; 776; 769]); (8150, [921; 834]); (8151, [921; 776; 834]);
   (8160, [8168]); (8161, [8169]); (8162, [933; 776; 768]);
   (8163, [933; 776; 769]); (8164, [929; 787]); (8165, [8172]);
   (8166, [933; 834]); (8167, [933; 776; 834]); (8178, [8186; 921]);
   (8179, [937; 921]); (8180, [911; 921]); (8182, [937; 834]);
   (8183, [937; 834; 921]); (8188, [937; 921]); (8526, [8498]);
   (8560, [8544]); (8561, [8545]); (8562, [8546]); (8563, [8547]);
   (8564, [8548]); (8565, [8549]); (8566, [8550]); (8567, [8551]);
   (8568, [8552]); (8569, [8553]); (8570, [8554]); (8571, [8555]);
   (8572, [8556]); (8573, [8557]); (8574, [8558]); (8575, [8559]);
   (8580, [8579]); (9424, [9398]); (9425, [9399]); (9426, [9400]);
   (9427, [9401]); (9428, [9402]); (9429, [9403]); (9430, [9404]);
   (9431, [9405]); (9432, [9406]); (9433, [9407]); (9434, [9408]);
   (9435, [9409]); (9436, [9410]); (9437, [9411]); (9438, [9412]);
   (9439, [9413]); (9440, [9414]); (9441, [9415]); (9442, [9416]);
   (9443, [9417]); (9444, [9418]); (9445, [9419]); (9446, [9420]);
   (9447, [9421]); (9448, [9422]); (9449, [9423]); (11312, [11264]);
   (11313, [11265]); (11314, [11266]); (11315, [11267]); (11316, [11268]);
   (11317, [11269]); (11318, [11270]); (11319, [11271]); (11320, [11272]);
   (11321, [11273]); (11322, [11274]); (11323, [11275]); (11324, [11276]);
   (11325, [11277]); (11326, [11278]); (11327, [11279]); (11328, [11280]);
   (11329, [11281]); (11330, [11282]); (11331, [11283]); (11332, [11284]);
   (11333, [11285]); (11334, [11286]); (11335, [11287]); (11336, [11288]);
   (11337, [11289]); (11338, [11290]); (11339, [11291]); (11340, [11292]);
   (11341, [11293]); (11342, [11294]); (11343, [11295]); (11344, [11296]);
   (11345, [11297]); (11346, [11298]); (11347, [11299]); (11348, [11300]);
   (11349, [11301]); (11350, [11302]); (11351, [11303]); (11352, [11304]);
   (11353, [11305]); (11354, [11306]); (11355, [11307]); (11356, [11308]);
   (11357, [11309]); (11358, [11310]); (11359, [11311]); (11361, [11360]);
   (11365, [570]); (11366, [574]); (11368, [11367]); (11370, [11369]);
   (11372, [11371]); (11379, [11378]); (11382, [11381]); (11393, [11392]);
   (11395, [11394]); (11397, [11396]); (11399, [11398]); (11401, [11400]);
   (11403, [11402]); (11405, [11404]); (11407, [11406]); (11409, [11408]);
   (11411, [11410]); (11413, [11412]); (11415, [11414]); (11417, [11416]);
   (11419, [11418]); (11421, [11420]); (11423, [11422]); (11425, [11424]);
   (11427, [11426]); (11429, [11428]); (11431, [11430]); (11433, [11432]);
   (11435, [11434]); (11437, [11436]); (11439, [11438]); (11441, [11440]);
   (11443, [11442]); (11445, [11444]); (11447, [11446]); (11449, [11448]);
   (11451, [11450]); (11453, [11452]); (11455, [11454]); (11457, [11456]);
   (11459, [11458]); (11461, [11460]); (11463, [11462]); (11465, [11464]);
   (11467, [11466]); (11469, [11468]); (11471, [11470]); (11473, [11472]);
   (11475, [11474]); (11477, [11476]); (11479, [11478]); (11481, [11480]);
   (11483, [11482]); (11485, [11484]); (11487, [11486]); (11489, [11488]);
   (11491, [11490]); (11500, [11499]); (11502, [11501]); (11507, [11506]);
   (11520, [4256]); (11521, [4257]); (11522, [4258]); (11523, [4259]);
   (11524, [4260]); (11525, [4261]); (11526, [4262]); (11527, [4263]);
   (11528, [4264]); (11529, [4265]); (11530, [4266]); (11531, [4267]);
   (11532, [4268]); (11533, [4269]); (11534, [4270]); (11535, [4271]);
   (11536, [4272]); (11537, [4273]); (11538, [4274]); (11539, [4275]);
   (11540, [4276]); (11541, [4277]); (11542, [4278]); (11543, [4279]);
   (11544, [4280]); (11545, [4281]); (11546, [4282]); (11547, [4283]);
   (11548, [4284]); (11549, [4285]); (11550, [4286]); (11551, [4287]);
   (11552, [4288]); (11553, [4289]); (11554, [4290]); (11555, [4291]);
   (11556, [4292]); (11557, [4293]); (11559, [4295]); (11565, [4301]);
   (42561, [42560]); (42563, [42562]); (42565, [42564]); (42567, [42566]);
   (42569, [42568]); (42571, [42570]); (42573, [42572]); (42575, [42574]);
   (42577, [42576]); (42579, [42578]); (42581, [42580]); (42583, [42582]);
   (42585, [42584]); (42587, [42586]); (42589, [42588]); (42591, [42590]);
   (42593, [42592]); (42595, [42594]); (42597, [42596]); (42599, [42598]);
   (42601, [42600]); (42603, [42602]); (42605, [42604]); (42625, [42624]);
   (42627, [42626]); (42629, [42628]); (42631, [42630]); (42633, [42632]);
   (42635, [42634]); (42637, [42636]); (42639, [42638]); (42641, [42640]);
   (42643, [42642]); (42645, [42644]); (42647, [42646]); (42649, [42648]);
   (42651, [42650]); (42787, [42786]); (42789, [42788]); (42791, [42790]);
   (42793, [42792]); (42795, [42794]); (42797, [42796]); (42799, [42798]);
   (42803, [42802]); (42805, [42804]); (42807, [42806]); (42809, [42808]);
   (42811, [42810]); (42813, [42812]); (42815, [42814]); (42817, [42816]);
   (42819, [42818]); (42821, [42820]); (42823, [42822]); (42825, [42824]);
   (42827, [42826]); (42829, [42828]); (42831, [42830]); (42833, [42832]);
   (42835, [42834]); (42837, [42836]); (42839, [42838]); (42841, [42840]);
   (42843, [42842]); (42845, [42844]); (42847, [42846]); (42849, [42848]);
   (42851, [42850]); (42853, [42852]); (42855, [42854]); (42857, [42856]);
   (42859, [42858]); (42861, [42860]); (42863, [42862]); (42874, [42873]);
   (42876, [42875]); (42879, [42878]); (42881, [42880]); (42883, [42882]);
   (42885, [42884]); (42887, [42886]); (42892, [42891]); (42897, [42896]);
   (42899, [42898]); (42900, [42948]); (42903, [42902]); (42905, [42904]);
   (42907, [42906]); (42909, [42908]); (42911, [42910]); (42913, [42912]);
   (42915, [42914]); (42917, [42916]); (42919, [42918]); (42921, [42920]);
   (42933, [42932]); (42935, [42934]); (42937, [42936]); (42939, [42938]);
   (42941, [42940]); (42943, [42942]); (42945, [42944]); (42947, [42946]);
   (42952, [42951]); (42954, [42953]); (42961, [42960]); (42967, [42966]);
   (42969, [42968]); (42998, [42997]); (43859, [42931]); (43888, [5024]);
   (43889, [5025]); (43890, [5026]); (43891, [5027]); (43892, [5028]);
   (43893, [5029]); (43894, [5030]); (43895, [5031]); (43896, [5032]);
   (43897, [5033]); (43898, [5034]); (43899, [5035]); (43900, [5036]);
   (43901, [5037]); (43902, [5038]); (43903, [5039]); (43904, [5040]);
   (43905, [5041]); (43906, [5042]); (43907, [5043]); (43908, [5044]);
   (43909, [5045]); (43910, [5046]); (43911, [5047]); (43912, [5048]);
   (43913, [5049]); (43914, [5050]); (43915, [5051]); (43916, [5052]);
   (43917, [5053]); (43918, [5054]); (43919, [5055]); (43920, [5056]);
   (43921, [5057]); (43922, [5058]); (43923, [5059]); (43924, [5060]);
   (43925, [5061]); (43926, [5062]); (43927, [5063]); (43928, [5064]);
   (43929, [5065]); (43930, [5066]); (43931, [5067]); (43932, [5068]);
   (43933, [5069]); (43934, [5070]); (43935, [5071]); (43936, [5072]);
   (43937, [5073]); (43938, [5074]); (43939, [5075]); (43940, [5076]);
   (43941, [5077]); (43942, [5078]); (43943, [5079]); (43944, [5080]);
   (43945, [5081]); (43946, [5082]); (43947, [5083]); (43948, [5084]);
   (43949, [5085]); (43950, [5086]); (43951, [5087]); (43952, [5088]);
   (43953, [5089]); (43954, [5090]); (43955, [5091]); (43956, [5092]);
   (43957, [5093]); (43958, [5094]); (43959, [5095]); (43960, [5096]);
   (43961, [5097]); (43962, [5098]); (43963, [5099]); (43964, [5100]);
   (43965, [5101]); (43966, [5102]); (43967, [5103]); (64256, [70; 70]);
   (64257, [70; 73]); (64258, [70; 76]); (64259, [70; 70; 73]);
   (64260, [70; 70; 76]); (64261, [83; 84]); (64262, [83; 84]);
   (64275, [1348; 1350]); (64276, [1348; 1333]); (64277, [1348; 1339]);
   (64278, [1358; 1350]); (64279, [1348; 1341]); (65345, [65313]);
   (65346, [65314]); (65347, [65315]); (65348, [65316]); (65349, [65317]);
   (65350, [65318]); (65351, [65319]); (65352, [65320]); (65353, [65321]);
   (65354, [65322]); (65355, [65323]); (65356, [65324]); (65357, [65325]);
   (65358, [65326]); (65359, [65327]); (65360, [65328]); (65361, [65329]);
   (65362, [65330]); (65363, [65331]); (65364, [65332]); (65365, [65333]);
   (65366, [65334]); (65367, [65335]); (65368, [65336]); (65369, [65337]);
   (65370, [65338]); (66600, [66560]); (66601, [66561]); (66602, [66562]);
   (66603, [66563]); (66604, [66564]); (66605, [66565]); (66606, [66566]);
   (66607, [66567]); (66608, [66568]); (66609, [66569]); (66610, [66570]);
   (66611, [66571]); (66612, [66572]); (66613, [66573]); (66614, [66574]);
   (66615, [66575]); (66616, [66576]); (66617, [66577]); (66618, [66578]);
   (66619, [66579]); (66620, [66580]); (66621, [66581]); (66622, [66582]);
   (66623, [66583]); (66624, [66584]); (66625, [66585]); (66626, [66586]);
   (66627, [66587]); (66628, [66588]); (66629, [66589]); (66630, [66590]);
   (66631, [66591]); (66632, [66592]); (66633, [66593]); (66634, [66594]);
   (66635, [66595]); (66636, [66596]); (66637, [66597]); (66638, [66598]);
   (66639, [66599]); (66776, [66736]); (66777, [66737]); (66778, [66738]);
   (66779, [66739]); (66780, [66740]); (66781, [66741]); (66782, [66742]);
   (66783, [66743]); (66784, [66744]); (66785, [66745]); (66786, [66746]);
   (66787, [66747]); (66788, [66748]); (66789, [66749]); (66790, [66750]);
   (66791, [66751]); (66792, [66752]); (66793, [66753]); (66794, [66754]);
   (66795, [66755]); (66796, [66756]); (66797, [66757]); (66798, [66758]);
   (66799, [66759]); (66800, [66760]); (66801, [66761]); (66802, [66762]);
   (66803, [66763]); (66804, [66764]); (66805, [66765]); (66806, [66766]);
   (66807, [66767]); (66808, [66768]); (66809, [66769]); (66810, [66770]);
   (66811, [66771]); (66967, [66928]); (66968, [66929]); (66969, [66930]);
   (66970, [66931]); (66971, [66932]); (66972, [66933]); (66973, [66934]);
   (66974, [66935]); (66975, [66936]); (66976, [66937]); (66977, [66938]);
   (66979, [66940]); (66980, [66941]); (66981, [66942]); (66982, [66943]);
   (66983, [66944]); (66984, [66945]); (66985, [66946]); (66986, [66947]);
   (66987, [66948]); (66988, [66949]); (66989, [66950]); (66990, [66951]);
   (66991, [66952]); (66992, [66953]); (66993, [66954]); (66995, [66956]);
   (66996, [66957]); (66997, [66958]); (66998, [66959]); (66999, [66960]);
   (67000, [66961]); (67001, [66962]); (67003, [66964]); (67004, [66965]);
   (68800, [68736]); (68801, [68737]); (68802, [68738]); (68803, [68739]);
   (68804, [68740]); (68805, [68741]); (68806, [68742]); (68807, [68743]);
   (68808, [68744]); (68809, [68745]); (68810, [68746]); (68811, [68747]);
   (68812, [68748]); (68813, [68749]); (68814, [68750]); (68815, [68751]);
   (68816, [68752]); (68817, [68753]); (68818, [68754]); (68819, [68755]);
   (68820, [68756]); (68821, [68757]); (68822, [68758]); (68823, [68759]);
   (68824, [68760]); (68825, [68761]); (68826, [68762]); (68827, [68763]);
   (68828, [68764]); (68829, [68765]); (68830, [68766]); (68831, [68767]);
   (68832, [68768]); (68833, [68769]); (68834, [68770]); (68835, [68771]);
   (68836, [68772]); (68837, [68773]); (68838, [68774]); (68839, [68775]);
   (68840, [68776]); (68841, [68777]); (68842, [68778]); (68843, [68779]);
   (68844, [68780]); (68845, [68781]); (68846, [68782]); (68847, [68783]);
   (68848, [68784]); (68849, [68785]); (68850, [68786]); (71872, [71840]);
   (71873, [71841]); (71874, [71842]); (71875, [71843]); (71876, [71844]);
   (71877, [71845]); (71878, [71846]); (71879, [71847]); (71880, [71848]);
   (71881, [71849]); (71882, [71850]); (71883, [71851]); (71884, [71852]);
   (71885, [71853]); (71886, [71854]); (71887, [71855]); (71888, [71856]);
   (71889, [71857]); (71890, [71858]); (71891, [71859]); (71892, [71860]);
   (71893, [71861]); (71894, [71862]); (71895, [71863]); (71896, [71864]);
   (71897, [71865]); (71898, [71866]); (71899, [71867]); (71900, [71868]);
   (71901, [71869]); (71902, [71870]); (71903, [71871]); (93792, [93760]);
   (93793, [93761]); (93794, [93762]); (93795, [93763]); (93796, [93764]);
   (93797, [93765]); (93798, [93766]); (93799, [93767]); (93800, [93768]);
   (93801, [93769]); (93802, [93770]); (93803, [93771]); (93804, [93772]);
   (93805, [93773]); (93806, [93774]); (93807, [93775]); (93808, [93776]);
   (93809, [93777]); (93810, [93778]); (93811, [93779]); (93812, [93780]);
   (93813, [93781]); (93814, [93782]); (93815, [93783]); (93816, [93784]);
   (93817, [93785]); (93818, [93786]); (93819, [93787]); (93820, [93788]);
   (93821, [93789]); (93822, [93790]); (93823, [93791]); (125218, [125184]);
   (125219, [125185]); (125220, [125186]); (125221, [125187]);
   (125222, [125188]); (125223, [125189]); (125224, [125190]);
   (125225, [125191]); (125226, [125192]); (125227, [125193]);
   (125228, [125194]); (125229, [125195]); (125230, [125196]);
   (125231, [125197]); (125232, [125198]); (125233, [125199]);
   (125234, [125200]); (125235, [125201]); (125236, [125202]);
   (125237, [125203]); (125238, [125204]); (125239, [125205]);
   (125240, [125206]); (125241, [125207]); (125242, [125208]);
   (125243, [125209]); (125244, [125210]); (125245, [125211]);
   (125246, [125212]); (125247, [125213]); (125248, [125214]);
   (125249, [125215]); (125250, [125216]); (125251, [125217])
  ].

(** The code points above 127, the capital sigma apart, that [str.lower]
    changes, each with its lower-case form, in increasing order. *)
Definition lower_table : list (N * list N) :=
  [
   (192, [224]); (193, [225]); (194, [226]); (195, [227]); (196, [228]);
   (197, [229]); (198, [230]); (199, [231]); (200, [232]); (201, [233]);
   (202, [234]); (203, [235]); (204, [236]); (205, [237]); (206, [238]);
   (207, [239]); (208, [240]); (209, [241]); (210, [242]); (211, [243]);
   (212, [244]); (213, [245]); (214, [246]); (216, [248]); (217, [249]);
   (218, [250]); (219, [251]); (220, [252]); (221, [253]); (222, [254]);
   (256, [257]); (258, [259]); (260, [261]); (262, [263]); (264, [265]);
   (266, [267]); (268, [269]); (270, [271]); (272, [273]); (274, [275]);
   (276, [277]); (278, [279]); (280, [281]); (282, [283]); (284, [285]);
   (286, [287]); (288, [289]); (290, [291]); (292, [293]); (294, [295]);
   (296, [297]); (298, [299]); (300, [301]); (302, [303]); (304, [105; 775]);
   (306, [307]); (308, [309]); (310, [311]); (313, [314]); (315, [316]);
   (317, [318]); (319, [320]); (321, [322]); (323, [324]); (325, [326]);
   (327, [328]); (330, [331]); (332, [333]); (334, [335]); (336, [337]);
   (338, [339]); (340, [341]); (342, [343]); (344, [345]); (346, [347]);
   (348, [349]); (350, [351]); (352, [353]); (354, [355]); (356, [357]);
   (358, [359]); (360, [361]); (362, [363]); (364, [365]); (366, [367]);
   (368, [369]); (370, [371]); (372, [373]); (374, [375]); (376, [255]);
   (377, [378]); (379, [380]); (381, [382]); (385, [595]); (386, [387]);
   (388, [389]); (390, [596]); (391, [392]); (393, [598]); (394, [599]);
   (395, [396]); (398, [477]); (399, [601]); (400, [603]); (401, [402]);
   (403, [608]); (404, [611]); (406, [617]); (407, [616]); (408, [409]);
   (412, [623]); (413, [626]); (415, [629]); (416, [417]); (418, [419]);
   (420, [421]); (422, [640]); (423, [424]); (425, [643]); (428, [429]);
   (430, [648]); (431, [432]); (433, [650]); (434, [651]); (435, [436]);
   (437, [438]); (439, [658]); (440, [441]); (444, [445]); (452, [454]);
   (453, [454]); (455, [457]); (456, [457]); (458, [460]); (459, [460]);
   (461, [462]); (463, [464]); (465, [466]); (467, [468]); (469, [470]);
   (471, [472]); (473, [474]); (475, [476]); (478, [479]); (480, [481]);
   (482, [483]); (484, [485]); (486, [487]); (488, [489]); (490, [491]);
   (492, [493]); (494, [495]); (497, [499]); (498, [499]); (500, [501]);
   (502, [405]); (503, [447]); (504, [505]); (506, [507]); (508, [509]);
   (510, [511]); (512, [513]); (514, [515]); (516, [517]); (518, [519]);
   (520, [521]); (522, [523]); (524, [525]); (526, [527]); (528, [529]);
   (530, [531]); (532, [533]); (534, [535]); (536, [537]); (538, [539]);
   (540, [541]); (542, [543]); (544, [414]); (546, [547]); (548, [549]);
   (550, [551]); (552, [553]); (554, [555]); (556, [557]); (558, [559]);
   (560, [561]); (562, [563]); (570, [11365]); (571, [572]); (573, [410]);
   (574, [11366]); (577, [578]); (579, [384]); (580, [649]); (581, [652]);
   (582, [583]); (584, [585]); (586, [587]); (588, [589]); (590, [591]);
   (880, [881]); (882, [883]); (886, [887]); (895, [1011]); (902, [940]);
   (904, [941]); (905, [942]); (906, [943]); (908, [972]); (910, [973]);
   (911, [974]); (913, [945]); (914, [946]); (915, [947]); (916, [948]);
   (917, [949]); (918, [950]); (919, [951]); (920, [952]); (921, [953]);
   (922, [954]); (923, [955]); (924, [956]); (925, [957]); (926, [958]);
   (927, [959]); (928, [960]); (929, [961]); (932, [964]); (933, [965]);
   (934, [966]); (935, [967]); (936, [968]); (937, [969]); (938, [970]);
   (939, [971]); (975, [983]); (984, [985]); (986, [987]); (988, [989]);
   (990, [991]); (992, [993]); (994, [995]); (996, [997]); (998, [999]);
   (1000, [1001]); (1002, [1003]); (1004, [1005]); (1006, [1007]);
   (1012, [952]); (1015, [1016]); (1017, [1010]); (1018, [1019]);
   (1021, [891]); (1022, [892]); (1023, [893]); (1024, [1104]);
   (1025, [1105]); (1026, [1106]); (1027, [1107]); (1028, [1108]);
   (1029, [1109]); (1030, [1110]); (1031, [1111]); (1032, [1112]);
   (1033, [1113]); (1034, [1114]); (1035, [1115]); (1036, [1116]);
   (1037, [1117]); (1038, [1118]); (1039, [1119]); (1040, [1072]);
   (1041, [1073]); (1042, [1074]); (1043, [1075]); (1044, [1076]);
   (1045, [1077]); (1046, [1078]); (1047, [1079]); (1048, [1080]);
   (1049, [1081]); (1050, [1082]); (1051, [1083]); (1052, [1084]);
   (1053, [1085]); (1054, [1086]); (1055, [1087]); (1056, [1088]);
   (1057, [1089]); (1058, [1090]); (1059, [1091]); (1060, [1092]);
   (1061, [1093]); (1062, [1094]); (1063, [1095]); (1064, [1096]);
   (1065, [1097]); (1066, [1098]); (1067, [1099]); (1068, [1100]);
   (1069, [1101]); (1070, [1102]); (1071, [1103]); (1120, [1121]);
   (1122, [1123]); (1124, [1125]); (1126, [1127]); (1128, [1129]);
   (1130, [1131]); (1132, [1133]); (1134, [1135]); (1136, [1137]);
   (1138, [1139]); (1140, [1141]); (1142, [1143]); (1144, [1145]);
   (1146, [1147]); (1148, [1149]); (1150, [1151]); (1152, [1153]);
   (1162, [1163]); (1164, [1165]); (1166, [1167]); (1168, [1169]);
   (1170, [1171]); (1172, [1173]); (1174, [1175]); (1176, [1177]);
   (1178, [1179]); (1180, [1181]); (1182, [1183]); (1184, [1185]);
   (1186, [1187]); (1188, [1189]); (1190, [1191]); (1192, [1193]);
   (1194, [1195]); (1196, [1197]); (1198, [1199]); (1200, [1201]);
   (1202, [1203]); (1204, [1205]); (1206, [1207]); (1208, [1209]);
   (1210, [1211]); (1212, [1213]); (1214, [1215]); (1216, [1231]);
   (1217, [1218]); (1219, [1220]); (1221, [1222]); (1223, [1224]);
   (1225, [1226]); (1227, [1228]); (1229, [1230]); (1232, [1233]);
   (1234, [1235]); (1236, [1237]); (1238, [1239]); (1240, [1241]);
   (1242, [1243]); (1244, [1245]); (1246, [1247]); (1248, [1249]);
   (1250, [1251]); (1252, [1253]); (1254, [1255]); (1256, [1257]);
   (1258, [1259]); (1260, [1261]); (1262, [1263]); (1264, [1265]);
   (1266, [1267]); (1268, [1269]); (1270, [1271]); (1272, [1273]);
   (1274, [1275]); (1276, [1277]); (1278, [1279]); (1280, [1281]);
   (1282, [1283]); (1284, [1285]); (1286, [1287]); (1288, [1289]);
   (1290, [1291]); (1292, [1293]); (1294, [1295]); (1296, [1297]);
   (1298, [1299]); (1300, [1301]); (1302, [1303]); (1304, [1305]);
   (1306, [1307]); (1308, [1309]); (1310, [1311]); (1312, [1313]);
   (1314, [1315]); (1316, [1317]); (1318, [1319]); (1320, [1321]);
   (1322, [1323]); (1324, [1325]); (1326, [1327]); (1329, [1377]);
   (1330, [1378]); (1331, [1379]); (1332, [1380]); (1333, [1381]);
   (1334, [1382]); (1335, [1383]); (1336, [1384]); (1337, [1385]);
   (1338, [1386]); (1339, [1387]); (1340, [1388]); (1341, [1389]);
   (1342, [1390]); (1343, [1391]); (1344, [1392]); (1345, [1393]);
   (1346, [1394]); (1347, [1395]); (1348, [1396]); (1349, [1397]);
   (1350, [1398]); (1351, [1399]); (1352, [1400]); (1353, [1401]);
   (1354, [1402]); (1355, [1403]); (1356, [1404]); (1357, [1405]);
   (1358, [1406]); (1359, [1407]); (1360, [1408]); (1361, [1409]);
   (1362, [1410]); (1363, [1411]); (1364, [1412]); (1365, [1413]);
   (1366, [1414]); (4256, [11520]); (4257, [11521]); (4258, [11522]);
   (4259, [11523]); (4260, [11524]); (4261, [11525]); (4262, [11526]);
   (4263, [11527]); (4264, [11528]); (4265, [11529]); (4266, [11530]);
   (4267, [11531]); (4268, [11532]); (4269, [11533]); (4270, [11534]);
   (4271, [11535]); (4272, [11536]); (4273, [11537]); (4274, [11538]);
   (4275, [11539]); (4276, [11540]); (4277, [11541]); (4278, [11542]);
   (4279, [11543]); (4280, [11544]); (4281, [11545]); (4282, [11546]);
   (4283, [11547]); (4284, [11548]); (4285, [11549]); (4286, [11550]);
   (4287, [11551]); (4288, [11552]); (4289, [11553]); (4290, [11554]);
   (4291, [11555]); (4292, [11556]); (4293, [11557]); (4295, [11559]);
   (4301, [11565]); (5024, [43888]); (5025, [43889]); (5026, [43890]);
   (5027, [43891]); (5028, [43892]); (5029, [43893]); (5030, [43894]);
   (5031, [43895]); (5032, [43896]); (5033, [43897]); (5034, [43898]);
   (5035, [43899]); (5036, [43900]); (5037, [43901]); (5038, [43902]);
   (5039, [43903]); (5040, [43904]); (5041, [43905]); (5042, [43906]);
   (5043, [43907]); (5044, [43908]); (5045, [43909]); (5046, [43910]);
   (5047, [43911]); (5048, [43912]); (5049, [43913]); (5050, [43914]);
   (5051, [43915]); (5052, [43916]); (5053, [43917]); (5054, [43918]);
   (5055, [43919]); (5056, [43920]); (5057, [43921]); (5058, [43922]);
   (5059, [43923]); (5060, [43924]); (5061, [43925]); (5062, [43926]);
   (5063, [43927]); (5064, [43928]); (5065, [43929]); (5066, [43930]);
   (5067, [43931]); (5068, [43932]); (5069, [43933]); (5070, [43934]);
   (5071, [43935]); (5072, [43936]); (5073, [43937]); (5074, [43938]);
   (5075, [43939]); (5076, [43940]); (5077, [43941]); (5078, [43942]);
   (5079, [43943]); (5080, [43944]); (5081, [43945]); (5082, [43946]);
   (5083, [43947]); (5084, [43948]); (5085, [43949]); (5086, [43950]);
   (5087, [43951]); (5088, [43952]); (5089, [43953]); (5090, [43954]);
   (5091, [43955]); (5092, [43956]); (5093, [43957]); (5094, [43958]);
   (5095, [43959]); (5096, [43960]); (5097, [43961]); (5098, [43962]);
   (5099, [43963]); (5100, [43964]); (5101, [43965]); (5102, [43966]);
   (5103, [43967]); (5104, [5112]); (5105, [5113]); (5106, [5114]);
   (5107, [5115]); (5108, [5116]); (5109, [5117]); (7312, [4304]);
   (7313, [4305]); (7314, [4306]); (7315, [4307]); (7316, [4308]);
   (7317, [4309]); (7318, [4310]); (7319, [4311]); (7320, [4312]);
   (7321, [4313]); (7322, [4314]); (7323, [4315]); (7324, [4316]);
   (7325, [4317]); (7326, [4318]); (7327, [4319]); (7328, [4320]);
   (7329, [4321]); (7330, [4322]); (7331, [4323]); (7332, [4324]);
   (7333, [4325]); (7334, [4326]); (7335, [4327]); (7336, [4328]);
   (7337, [4329]); (7338, [4330]); (7339, [4331]); (7340, [4332]);
   (7341, [4333]); (7342, [4334]); (7343, [4335]); (7344, [4336]);
   (7345, [4337]); (7346, [4338]); (7347, [4339]); (7348, [4340]);
   (7349, [4341]); (7350, [4342]); (7351, [4343]); (7352, [4344]);
   (7353, [4345]); (7354, [4346]); (7357, [4349]); (7358, [4350]);
   (7359, [4351]); (7680, [7681]); (7682, [7683]); (7684, [7685]);
   (7686, [7687]); (7688, [7689]); (7690, [7691]); (7692, [7693]);
   (7694, [7695]); (7696, [7697]); (7698, [7699]); (7700, [7701]);
   (7702, [7703]); (7704, [7705]); (7706, [7707]); (7708, [7709]);
   (7710, [7711]); (7712, [7713]); (7714, [7715]); (7716, [7717]);
   (7718, [7719]); (7720, [7721]); (7722, [7723]); (7724, [7725]);
   (7726, [7727]); (7728, [7729]); (7730, [7731]); (7732, [7733]);
   (7734, [7735]); (7736, [7737]); (7738, [7739]); (7740, [7741]);
   (7742, [7743]); (7744, [7745]); (7746, [7747]); (7748, [7749]);
   (7750, [7751]); (7752, [7753]); (7754, [7755]); (7756, [7757]);
   (7758, [7759]); (7760, [7761]); (7762, [7763]); (7764, [7765]);
   (7766, [7767]); (7768, [7769]); (7770, [7771]); (7772, [7773]);
   (7774, [7775]); (7776, [7777]); (7778, [7779]); (7780, [7781]);
   (7782, [7783]); (7784, [7785]); (7786, [7787]); (7788, [7789]);
   (7790, [7791]); (7792, [7793]); (7794, [7795]); (7796, [7797]);
   (7798, [7799]); (7800, [7801]); (7802, [7803]); (7804, [7805]);
   (7806, [7807]); (7808, [7809]); (7810, [7811]); (7812, [7813]);
   (7814, [7815]); (7816, [7817]); (7818, [7819]); (7820, [7821]);
   (7822, [7823]); (7824, [7825]); (7826, [7827]); (7828, [7829]);
   (7838, [223]); (7840, [7841]); (7842, [7843]); (7844, [7845]);
   (7846, [7847]); (7848, [7849]); (7850, [7851]); (7852, [7853]);
   (7854, [7855]); (7856, [7857]); (7858, [7859]); (7860, [7861]);
   (7862, [7863]); (7864, [7865]); (7866, [7867]); (7868, [7869]);
   (7870, [7871]); (7872, [7873]); (7874, [7875]); (7876, [7877]);
   (7878, [7879]); (7880, [7881]); (7882, [7883]); (7884, [7885]);
   (7886, [7887]); (7888, [7889]); (7890, [7891]); (7892, [7893]);
   (7894, [7895]); (7896, [7897]); (7898, [7899]); (7900, [7901]);
   (7902, [7903]); (7904, [7905]); (7906, [7907]); (7908, [7909]);
   (7910, [7911]); (7912, [7913]); (7914, [7915]); (7916, [7917]);
   (7918, [7919]); (7920, [7921]); (7922, [7923]); (7924, [7925]);
   (7926, [7927]); (7928, [7929]); (7930, [7931]); (7932, [7933]);
   (7934, [7935]); (7944, [7936]); (7945, [7937]); (7946, [7938]);
   (7947, [7939]); (7948, [7940]); (7949, [7941]); (7950, [7942]);
   (7951, [7943]); (7960, [7952]); (7961, [7953]); (7962, [7954]);
   (7963, [7955]); (7964, [7956]); (7965, [7957]); (7976, [7968]);
   (7977, [7969]); (7978, [7970]); (7979, [7971]); (7980, [7972]);
   (7981, [7973]); (7982, [7974]); (7983, [7975]); (7992, [7984]);
   (7993, [7985]); (7994, [7986]); (7995, [7987]); (7996, [7988]);
   (7997, [7989]); (7998, [7990]); (7999, [7991]); (8008, [8000]);
   (8009, [8001]); (8010, [8002]); (8011, [8003]); (8012, [8004]);
   (8013, [8005]); (8025, [8017]); (8027, [8019]); (8029, [8021]);
   (8031, [8023]); (8040, [8032]); (8041, [8033]); (8042, [8034]);
   (8043, [8035]); (8044, [8036]); (8045, [8037]); (8046, [8038]);
   (8047, [8039]); (8072, [8064]); (8073, [8065]); (8074, [8066]);
   (8075, [8067]); (8076, [8068]); (8077, [8069]); (8078, [8070]);
   (8079, [8071]); (8088, [8080]); (8089, [8081]); (8090, [8082]);
   (8091, [8083]); (8092, [8084]); (8093, [8085]); (8094, [8086]);
   (8095, [8087]); (8104, [8096]); (8105, [8097]); (8106, [8098]);
   (8107, [8099]); (8108, [8100]); (8109, [8101]); (8110, [8102]);
   (8111, [8103]); (8120, [8112]); (8121, [8113]); (8122, [8048]);
   (8123, [8049]); (8124, [8115]); (8136, [8050]); (8137, [8051]);
   (8138, [8052]); (8139, [8053]); (8140, [8131]); (8152, [8144]);
   (8153, [8145]); (8154, [8054]); (8155, [8055]); (8168, [8160]);
   (8169, [8161]); (8170, [8058]); (8171, [8059]); (8172, [8165]);
   (8184, [8056]); (8185, [8057]); (8186, [8060]); (8187, [8061]);
   (8188, [8179]); (8486, [969]); (8490, [107]); (8491, [229]);
   (8498, [8526]); (8544, [8560]); (8545, [8561]); (8546, [8562]);
   (8547, [8563]); (8548, [8564]); (8549, [8565]); (8550, [8566]);
   (8551, [8567]); (8552, [8568]); (8553, [8569]); (8554, [8570]);
   (8555, [8571]); (8556, [8572]); (8557, [8573]); (8558, [8574]);
   (8559, [8575]); (8579, [8580]); (9398, [9424]); (9399, [9425]);
   (9400, [9426]); (9401, [9427]); (9402, [9428]); (9403, [9429]);
   (9404, [9430]); (9405, [9431]); (9406, [9432]); (9407, [9433]);
   (9408, [9434]); (9409, [9435]); (9410, [9436]); (9411, [9437]);
   (9412, [9438]); (9413, [9439]); (9414, [9440]); (9415, [9441]);
   (9416, [9442]); (9417, [9443]); (9418, [9444]); (9419, [9445]);
   (9420, [9446]); (9421, [9447]); (9422, [9448]); (9423, [9449]);
   (11264, [11312]); (11265, [11313]); (11266, [11314]); (11267, [11315]);
   (11268, [11316]); (11269, [11317]); (11270, [11318]); (11271, [11319]);
   (11272, [11320]); (11273, [11321]); (11274, [11322]); (11275, [11323]);
   (11276, [11324]); (11277, [11325]); (11278, [11326]); (11279, [11327]);
   (11280, [11328]); (11281, [11329]); (11282, [11330]); (11283, [11331]);
   (11284, [11332]); (11285, [11333]); (11286, [11334]); (11287, [11335]);
   (11288, [11336]); (11289, [11337]); (11290, [11338]); (11291, [11339]);
   (11292, [11340]); (11293, [11341]); (11294, [11342]); (11295, [11343]);
   (11296, [11344]); (11297, [11345]); (11298, [11346]); (11299, [11347]);
   (11300, [11348]); (11301, [11349]); (11302, [11350]); (11303, [11351]);
   (11304, [11352]); (11305, [11353]); (11306, [11354]); (11307, [11355]);
   (11308, [11356]); (11309, [11357]); (11310, [11358]); (11311, [11359]);
   (11360, [11361]); (11362, [619]); (11363, [7549]); (11364, [637]);
   (11367, [11368]); (11369, [11370]); (11371, [11372]); (11373, [593]);
   (11374, [625]); (11375, [592]); (11376, [594]); (11378, [11379]);
   (11381, [11382]); (11390, [575]); (11391, [576]); (11392, [11393]);
   (11394, [11395]); (11396, [11397]); (11398, [11399]); (11400, [11401]);
   (11402, [11403]); (11404, [11405]); (11406, [11407]); (11408, [11409]);
   (11410, [11411]); (11412, [11413]); (11414, [11415]); (11416, [11417]);
   (11418, [11419]); (11420, [11421]); (11422, [11423]); (11424, [11425]);
   (11426, [11427]); (11428, [11429]); (11430, [11431]); (11432, [11433]);
   (11434, [11435]); (11436, [11437]); (11438, [11439]); (11440, [11441]);
   (11442, [11443]); (11444, [11445]); (11446, [11447]); (11448, [11449]);
   (11450, [11451]); (11452, [11453]); (11454, [11455]); (11456, [11457]);
   (11458, [11459]); (11460, [11461]); (11462, [11463]); (11464, [11465]);
   (11466, [11467]); (11468, [11469]); (11470, [11471]); (11472, [11473]);
   (11474, [11475]); (11476, [11477]); (11478, [11479]); (11480, [11481]);
   (11482, [11483]); (11484, [11485]); (11486, [11487]); (11488, [11489]);
   (11490, [11491]); (11499, [11500]); (11501, [11502]); (11506, [11507]);
   (42560, [42561]); (42562, [42563]); (42564, [42565]); (42566, [42567]);
   (42568, [42569]); (42570, [42571]); (42572, [42573]); (42574, [42575]);
   (42576, [42577]); (42578, [42579]); (42580, [42581]); (42582, [42583]);
   (42584, [42585]); (42586, [42587]); (42588, [42589]); (42590, [42591]);
   (42592, [42593]); (42594, [42595]); (42596, [42597]); (42598, [42599]);
   (42600, [42601]); (42602, [42603]); (42604, [42605]); (42624, [42625]);
   (42626, [42627]); (42628, [42629]); (42630, [42631]); (42632, [42633]);
   (42634, [42635]); (42636, [42637]); (42638, [42639]); (42640, [42641]);
   (42642, [42643]); (42644, [42645]); (42646, [42647]); (42648, [42649]);
   (42650, [42651]); (42786, [42787]); (42788, [42789]); (42790, [42791]);
   (42792, [42793]); (42794, [42795]); (42796, [42797]); (42798, [42799]);
   (42802, [42803]); (42804, [42805]); (42806, [42807]); (42808, [42809]);
   (42810, [42811]); (42812, [42813]); (42814, [42815]); (42816, [42817]);
   (42818, [42819]); (42820, [42821]); (42822, [42823]); (42824, [42825]);
   (42826, [42827]); (42828, [42829]); (42830, [42831]); (42832, [42833]);
   (42834, [42835]); (42836, [42837]); (42838, [42839]); (42840, [42841]);
   (42842, [42843]); (42844, [42845]); (42846, [42847]); (42848, [42849]);
   (42850, [42851]); (42852, [42853]); (42854, [42855]); (42856, [42857]);
   (42858, [42859]); (42860, [42861]); (42862, [42863]); (42873, [42874]);
   (42875, [42876]); (42877, [7545]); (42878, [42879]); (42880, [42881]);
   (42882, [42883]); (42884, [42885]); (42886, [42887]); (42891, [42892]);
   (42893, [613]); (42896, [42897]); (42898, [42899]); (42902, [42903]);
   (42904, [42905]); (42906, [42907]); (42908, [42909]); (42910, [42911]);
   (42912, [42913]); (42914, [42915]); (42916, [42917]); (42918, [42919]);
   (42920, [42921]); (42922, [614]); (42923, [604]); (42924, [609]);
   (42925, [620]); (42926, [618]); (42928, [670]); (42929, [647]);
   (42930, [669]); (42931, [43859]); (42932, [42933]); (42934, [42935]);
   (42936, [42937]); (42938, [42939]); (42940, [42941]); (42942, [42943]);
   (42944, [42945]); (42946, [42947]); (42948, [42900]); (42949, [642]);
   (42950, [7566]); (42951, [42952]); (42953, [42954]); (42960, [42961]);
   (42966, [42967]); (42968, [42969]); (42997, [42998]); (65313, [65345]);
   (65314, [65346]); (65315, [65347]); (65316, [65348]); (65317, [65349]);
   (65318, [65350]); (65319, [65351]); (65320, [65352]); (65321, [65353]);
   (65322, [65354]); (65323, [65355]); (65324, [65356]); (65325, [65357]);
   (65326, [65358]); (65327, [65359]); (65328, [65360]); (65329, [65361]);
   (65330, [65362]); (65331, [65363]); (65332, [65364]); (65333, [65365]);
   (65334, [65366]); (65335, [65367]); (65336, [65368]); (65337, [65369]);
   (65338, [65370]); (66560, [66600]); (66561, [66601]); (66562, [66602]);
   (66563, [66603]); (66564, [66604]); (66565, [66605]); (66566, [66606]);
   (66567, [66607]); (66568, [66608]); (66569, [66609]); (66570, [66610]);
   (66571, [66611]); (66572, [66612]); (66573, [66613]); (66574, [66614]);
   (66575, [66615]); (66576, [66616]); (66577, [66617]); (66578, [66618]);
   (66579, [66619]); (66580, [66620]); (66581, [66621]); (66582, [66622]);
   (66583, [66623]); (66584, [66624]); (66585, [66625]); (66586, [66626]);
   (66587, [66627]); (66588, [66628]); (66589, [66629]); (66590, [66630]);
   (66591, [66631]); (66592, [66632]); (66593, [66633]); (66594, [66634]);
   (66595, [66635]); (66596, [66636]); (66597, [66637]); (66598, [66638]);
   (66599, [66639]); (66736, [66776]); (66737, [66777]); (66738, [66778]);
   (66739, [66779]); (66740, [66780]); (66741, [66781]); (66742, [66782]);
   (66743, [66783]); (66744, [66784]); (66745, [66785]); (66746, [66786]);
   (66747, [66787]); (66748, [66788]); (66749, [66789]); (66750, [66790]);
   (66751, [66791]); (66752, [66792]); (66753, [66793]); (66754, [66794]);
   (66755, [66795]); (66756, [66796]); (66757, [66797]); (66758, [66798]);
   (66759, [66799]); (66760, [66800]); (66761, [66801]); (66762, [66802]);
   (66763, [66803]); (66764, [66804]); (66765, [66805]); (66766, [66806]);
   (66767, [66807]); (66768, [66808]); (66769, [66809]); (66770, [66810]);
   (66771, [66811]); (66928, [66967]); (66929, [66968]); (66930, [66969]);
   (66931, [66970]); (66932, [66971]); (66933, [66972]); (66934, [66973]);
   (66935, [66974]); (66936, [66975]); (66937, [66976]); (66938, [66977]);
   (66940, [66979]); (66941, [66980]); (66942, [66981]); (66943, [66982]);
   (66944, [66983]); (66945, [66984]); (66946, [66985]); (66947, [66986]);
   (66948, [66987]); (66949, [66988]); (66950, [66989]); (66951, [66990]);
   (66952, [66991]); (66953, [66992]); (66954, [66993]); (66956, [66995]);
   (66957, [66996]); (66958, [66997]); (66959, [66998]); (66960, [66999]);
   (66961, [67000]); (66962, [67001]); (66964, [67003]); (66965, [67004]);
   (68736, [68800]); (68737, [68801]); (68738, [68802]); (68739, [68803]);
   (68740, [68804]); (68741, [68805]); (68742, [68806]); (68743, [68807]);
   (68744, [68808]); (68745, [68809]); (68746, [68810]); (68747, [68811]);
   (68748, [68812]); (68749, [68813]); (68750, [68814]); (68751, [68815]);
   (68752, [68816]); (68753, [68817]); (68754, [68818]); (68755, [68819]);
   (68756, [68820]); (68757, [68821]); (68758, [68822]); (68759, [68823]);
   (68760, [68824]); (68761, [68825]); (68762, [68826]); (68763, [68827]);
   (68764, [68828]); (68765, [68829]); (68766, [68830]); (68767, [68831]);
   (68768, [68832]); (68769, [68833]); (68770, [68834]); (68771, [68835]);
   (68772, [68836]); (68773, [68837]); (68774, [68838]); (68775, [68839]);
   (68776, [68840]); (68777, [68841]); (68778, [68842]); (68779, [68843]);
   (68780, [68844]); (68781, [68845]); (68782, [68846]); (68783, [68847]);
   (68784, [68848]); (68785, [68849]); (68786, [68850]); (71840, [71872]);
   (71841, [71873]); (71842, [71874]); (71843, [71875]); (71844, [71876]);
   (71845, [71877]); (71846, [71878]); (71847, [71879]); (71848, [71880]);
   (71849, [71881]); (71850, [71882]); (71851, [71883]); (71852, [71884]);
   (71853, [71885]); (71854, [71886]); (71855, [71887]); (71856, [71888]);
   (71857, [71889]); (71858, [71890]); (71859, [71891]); (71860, [71892]);
   (71861, [71893]); (71862, [71894]); (71863, [71895]); (71864, [71896]);
   (71865, [71897]); (71866, [71898]); (71867, [71899]); (71868, [71900]);
   (71869, [71901]); (71870, [71902]); (71871, [71903]); (93760, [93792]);
   (93761, [93793]); (93762, [93794]); (93763, [93795]); (93764, [93796]);
   (93765, [93797]); (93766, [93798]); (93767, [93799]); (93768, [93800]);
   (93769, [93801]); (93770, [93802]); (93771, [93803]); (93772, [93804]);
   (93773, [93805]); (93774, [93806]); (93775, [93807]); (93776, [93808]);
   (93777, [93809]); (93778, [93810]); (93779, [93811]); (93780, [93812]);
   (93781, [93813]); (93782, [93814]); (93783, [93815]); (93784, [93816]);
   (93785, [93817]); (93786, [93818]); (93787, [93819]); (93788, [93820]);
   (93789, [93821]); (93790, [93822]); (93791, [93823]); (125184, [125218]);
   (125185, [125219]); (125186, [125220]); (125187, [125221]);
   (125188, [125222]); (125189, [125223]); (125190, [125224]);
   (125191, [125225]); (125192, [125226]); (125193, [125227]);
   (125194, [125228]); (125195, [125229]); (125196, [125230]);
   (125197, [125231]); (125198, [125232]); (125199, [125233]);
   (125200, [125234]); (125201, [125235]); (125202, [125236]);
   (125203, [125237]); (125204, [125238]); (125205, [125239]);
   (125206, [125240]); (125207, [125241]); (125208, [125242]);
   (125209, [125243]); (125210, [125244]); (125211, [125245]);
   (125212, [125246]); (125213, [125247]); (125214, [125248]);
   (125215, [125249]); (125216, [125250]); (125217, [125251])
  ].

(** The ranges of the cased code points (lower-case, upper-case or title-case). *)
Definition cased_ranges : list (N * N) :=
  [
   (65, 90); (97, 122); (170, 170); (181, 181); (186, 186); (192, 214);
   (216, 246); (248, 442); (444, 447); (452, 659); (661, 696); (704, 705);
   (736, 740); (837, 837); (880, 883); (886, 887); (890, 893); (895, 895);
   (902, 902); (904, 906); (908, 908); (910, 929); (931, 1013); (1015, 1153);
   (1162, 1327); (1329, 1366); (1376, 1416); (4256, 4293); (4295, 4295);
   (4301, 4301); (4304, 4346); (4349, 4351); (5024, 5109); (5112, 5117);
   (7296, 7304); (7312, 7354); (7357, 7359); (7424, 7615); (7680, 7957);
   (7960, 7965); (7968, 8005); (8008, 8013); (8016, 8023); (8025, 8025);
   (8027, 8027); (8029, 8029); (8031, 8061); (8064, 8116); (8118, 8124);
   (8126, 8126); (8130, 8132); (8134, 8140); (8144, 8147); (8150, 8155);
   (8160, 8172); (8178, 8180); (8182, 8188); (8305, 8305); (8319, 8319);
   (8336, 8348); (8450, 8450); (8455, 8455); (8458, 8467); (8469, 8469);
   (8473, 8477); (8484, 8484); (8486, 8486); (8488, 8488); (8490, 8493);
   (8495, 8500); (8505, 8505); (8508, 8511); (8517, 8521); (8526, 8526);
   (8544, 8575); (8579, 8580); (9398, 9449); (11264, 11492); (11499, 11502);
   (11506, 11507); (11520, 11557); (11559, 11559); (11565, 11565);
   (42560, 42605); (42624, 42653); (42786, 42887); (42891, 42894);
   (42896, 42954); (42960, 42961); (42963, 42963); (42965, 42969);
   (42997, 42998); (43000, 43002); (43824, 43866); (43868, 43880);
   (43888, 43967); (64256, 64262); (64275, 64279); (65313, 65338);
   (65345, 65370); (66560, 66639); (66736, 66771); (66776, 66811);
   (66928, 66938); (66940, 66954); (66956, 66962); (66964, 66965);
   (66967, 66977); (66979, 66993); (66995, 67001); (67003, 67004);
   (67456, 67456); (67459, 67461); (67463, 67504); (67506, 67514);
   (68736, 68786); (68800, 68850); (71840, 71903); (93760, 93823);
   (119808, 119892); (119894, 119964); (119966, 119967); (119970, 119970);
   (119973, 119974); (119977, 119980); (119982, 119993); (119995, 119995);
   (119997, 120003); (120005, 120069); (120071, 120074); (120077, 120084);
   (120086, 120092); (120094, 120121); (120123, 120126); (120128, 120132);
   (120134, 120134); (120138, 120144); (120146, 120485); (120488, 120512);
   (120514, 120538); (120540, 120570); (120572, 120596); (120598, 120628);
   (120630, 120654); (120656, 120686); (120688, 120712); (120714, 120744);
   (120746, 120770); (120772, 120779); (122624, 122633); (122635, 122654);
   (125184, 125251); (127280, 127305); (127312, 127337); (127344, 127369)
  ].

(** The ranges of the case-ignorable code points. *)
Definition case_ignorable_ranges : list (N * N) :=
  [
   (39, 39); (46, 46); (58, 58); (94, 94); (96, 96); (168, 168); (173, 173);
   (175, 175); (180, 180); (183, 184); (688, 879); (884, 885); (890, 890);
   (900, 901); (903, 903); (1155, 1161); (1369, 1369); (1375, 1375);
   (1425, 1469); (1471, 1471); (1473, 1474); (1476, 1477); (1479, 1479);
   (1524, 1524); (1536, 1541); (1552, 1562); (1564, 1564); (1600, 1600);
   (1611, 1631); (1648, 1648); (1750, 1757); (1759, 1768); (1770, 1773);
   (1807, 1807); (1809, 1809); (1840, 1866); (1958, 1968); (2027, 2037);
   (2042, 2042); (2045, 2045); (2070, 2093); (2137, 2139); (2184, 2184);
   (2192, 2193); (2200, 2207); (2249, 2306); (2362, 2362); (2364, 2364);
   (2369, 2376); (2381, 2381); (2385, 2391); (2402, 2403); (2417, 2417);
   (2433, 2433); (2492, 2492); (2497, 2500); (2509, 2509); (2530, 2531);
   (2558, 2558); (2561, 2562); (2620, 2620); (2625, 2626); (2631, 2632);
   (2635, 2637); (2641, 2641); (2672, 2673); (2677, 2677); (2689, 2690);
   (2748, 2748); (2753, 2757); (2759, 2760); (2765, 2765); (2786, 2787);
   (2810, 2815); (2817, 2817); (2876, 2876); (2879, 2879); (2881, 2884);
   (2893, 2893); (2901, 2902); (2914, 2915); (2946, 2946); (3008, 3008);
   (3021, 3021); (3072, 3072); (3076, 3076); (3132, 3132); (3134, 3136);
   (3142, 3144); (3146, 3149); (3157, 3158); (3170, 3171); (3201, 3201);
   (3260, 3260); (3263, 3263); (3270, 3270); (3276, 3277); (3298, 3299);
   (3328, 3329); (3387, 3388); (3393, 3396); (3405, 3405); (3426, 3427);
   (3457, 3457); (3530, 3530); (3538, 3540); (3542, 3542); (3633, 3633);
   (3636, 3642); (3654, 3662); (3761, 3761); (3764, 3772); (3782, 3782);
   (3784, 3789); (3864, 3865); (3893, 3893); (3895, 3895); (3897, 3897);
   (3953, 3966); (3968, 3972); (3974, 3975); (3981, 3991); (3993, 4028);
   (4038, 4038); (4141, 4144); (4146, 4151); (4153, 4154); (4157, 4158);
   (4184, 4185); (4190, 4192); (4209, 4212); (4226, 4226); (4229, 4230);
   (4237, 4237); (4253, 4253); (4348, 4348); (4957, 4959); (5906, 5908);
   (5938, 5939); (5970, 5971); (6002, 6003); (6068, 6069); (6071, 6077);
   (6086, 6086); (6089, 6099); (6103, 6103); (6109, 6109); (6155, 6159);
   (6211, 6211); (6277, 6278); (6313, 6313); (6432, 6434); (6439, 6440);
   (6450, 6450); (6457, 6459); (6679, 6680); (6683, 6683); (6742, 6742);
   (6744, 6750); (6752, 6752); (6754, 6754); (6757, 6764); (6771, 6780);
   (6783, 6783); (6823, 6823); (6832, 6862); (6912, 6915); (6964, 6964);
   (6966, 6970); (6972, 6972); (6978, 6978); (7019, 7027); (7040, 7041);
   (7074, 7077); (7080, 7081); (7083, 7085); (7142, 7142); (7144, 7145);
   (7149, 7149); (7151, 7153); (7212, 7219); (7222, 7223); (7288, 7293);
   (7376, 7378); (7380, 7392); (7394, 7400); (7405, 7405); (7412, 7412);
   (7416, 7417); (7468, 7530); (7544, 7544); (7579, 7679); (8125, 8125);
   (8127, 8129); (8141, 8143); (8157, 8159); (8173, 8175); (8189, 8190);
   (8203, 8207); (8216, 8217); (8228, 8228); (8231, 8231); (8234, 8238);
   (8288, 8292); (8294, 8303); (8305, 8305); (8319, 8319); (8336, 8348);
   (8400, 8432); (11388, 11389); (11503, 11505); (11631, 11631);
   (11647, 11647); (11744, 11775); (11823, 11823); (12293, 12293);
   (12330, 12333); (12337, 12341); (12347, 12347); (12441, 12446);
   (12540, 12542); (40981, 40981); (42232, 42237); (42508, 42508);
   (42607, 42610); (42612, 42621); (42623, 42623); (42652, 42655);
   (42736, 42737); (42752, 42785); (42864, 42864); (42888, 42890);
   (42994, 42996); (43000, 43001); (43010, 43010); (43014, 43014);
   (43019, 43019); (43045, 43046); (43052, 43052); (43204, 43205);
   (43232, 43249); (43263, 43263); (43302, 43309); (43335, 43345);
   (43392, 43394); (43443, 43443); (43446, 43449); (43452, 43453);
   (43471, 43471); (43493, 43494); (43561, 43566); (43569, 43570);
   (43573, 43574); (43587, 43587); (43596, 43596); (43632, 43632);
   (43644, 43644); (43696, 43696); (43698, 43700); (43703, 43704);
   (43710, 43711); (43713, 43713); (43741, 43741); (43756, 43757);
   (43763, 43764); (43766, 43766); (43867, 43871); (43881, 43883);
   (44005, 44005); (44008, 44008); (44013, 44013); (64286, 64286);
   (64434, 64450); (65024, 65039); (65043, 65043); (65056, 65071);
   (65106, 65106); (65109, 65109); (65279, 65279); (65287, 65287);
   (65294, 65294); (65306, 65306); (65342, 65342); (65344, 65344);
   (65392, 65392); (65438, 65439); (65507, 65507); (65529, 65531);
   (66045, 66045); (66272, 66272); (66422, 66426); (67456, 67461);
   (67463, 67504); (67506, 67514); (68097, 68099); (68101, 68102);
   (68108, 68111); (68152, 68154); (68159, 68159); (68325, 68326);
   (68900, 68903); (69291, 69292); (69446, 69456); (69506, 69509);
   (69633, 69633); (69688, 69702); (69744, 69744); (69747, 69748);
   (69759, 69761); (69811, 69814); (69817, 69818); (69821, 69821);
   (69826, 69826); (69837, 69837); (69888, 69890); (69927, 69931);
   (69933, 69940); (70003, 70003); (70016, 70017); (70070, 70078);
   (70089, 70092); (70095, 70095); (70191, 70193); (70196, 70196);
   (70198, 70199); (70206, 70206); (70367, 70367); (70371, 70378);
   (70400, 70401); (70459, 70460); (70464, 70464); (70502, 70508);
   (70512, 70516); (70712, 70719); (70722, 70724); (70726, 70726);
   (70750, 70750); (70835, 70840); (70842, 70842); (70847, 70848);
   (70850, 70851); (71090, 71093); (71100, 71101); (71103, 71104);
   (71132, 71133); (71219, 71226); (71229, 71229); (71231, 71232);
   (71339, 71339); (71341, 71341); (71344, 71349); (71351, 71351);
   (71453, 71455); (71458, 71461); (71463, 71467); (71727, 71735);
   (71737, 71738); (71995, 71996); (71998, 71998); (72003, 72003);
   (72148, 72151); (72154, 72155); (72160, 72160); (72193, 72202);
   (72243, 72248); (72251, 72254); (72263, 72263); (72273, 72278);
   (72281, 72283); (72330, 72342); (72344, 72345); (72752, 72758);
   (72760, 72765); (72767, 72767); (72850, 72871); (72874, 72880);
   (72882, 72883); (72885, 72886); (73009, 73014); (73018, 73018);
   (73020, 73021); (73023, 73029); (73031, 73031); (73104, 73105);
   (73109, 73109); (73111, 73111); (73459, 73460); (78896, 78904);
   (92912, 92916); (92976, 92982); (92992, 92995); (94031, 94031);
   (94095, 94111); (94176, 94177); (94179, 94180); (110576, 110579);
   (110581, 110587); (110589, 110590); (113821, 113822); (113824, 113827);
   (118528, 118573); (118576, 118598); (119143, 119145); (119155, 119170);
   (119173, 119179); (119210, 119213); (119362, 119364); (121344, 121398);
   (121403, 121452); (121461, 121461); (121476, 121476); (121499, 121503);
   (121505, 121519); (122880, 122886); (122888, 122904); (122907, 122913);
   (122915, 122916); (122918, 122922); (123184, 123197); (123566, 123566);
   (123628, 123631); (125136, 125142); (125252, 125259); (127995, 127999);
   (917505, 917505); (917536, 917631); (917760, 917999)
  ].

(** The code points of the decimal digit zero of every script; the nine
    code points after each are its digits 1 to 9. *)
Definition decimal_zeros : list N :=
  [
   48; 1632; 1776; 1984; 2406; 2534; 2662; 2790; 2918; 3046; 3174; 3302;
   3430; 3558; 3664; 3792; 3872; 4160; 4240; 6112; 6160; 6470; 6608; 6784;
   6800; 6992; 7088; 7232; 7248; 42528; 43216; 43264; 43472; 43504; 43600;
   44016; 65296; 66720; 68912; 69734; 69872; 69942; 70096; 70384; 70736;
   70864; 71248; 71360; 71472; 71904; 72016; 72784; 73040; 73120; 92768;
   92864; 93008; 120782; 120792; 120802; 120812; 120822; 123200; 123632;
   125264; 130032
  ].

End Unicode.
(** ** Python built-ins *)
Module Py.
Local Open Scope N_scope.

(** A [str]: its code points in order. *)
Definition str : Type := list N.

(** *** String literals

    A literal between double quotes stands for the code points of its
    UTF-8 text. *)

Inductive code_points : Type :=
| cp_nil
| cp_cons (c : N) (s : code_points).

Definition byte_code (b : byte) : N := N.of_nat (Byte.to_nat b).

Fixpoint utf8_decode (bs : list byte) : code_points :=
  match bs with
  | [] => cp_nil
  | b0 :: r =>
      let n0 := byte_code b0 in
      if n0 <? 128 then cp_cons n0 (utf8_decode r)
      else if n0 <? 224 then
        match r with
        | b1 :: r1 =>
            cp_cons ((n0 - 192) * 64 + (byte_code b1 - 128)) (utf8_decode r1)
        | _ => cp_nil
        end
      else if n0 <? 240 then
        match r with
        | b1 :: b2 :: r2 =>
            cp_cons (((n0 - 224) * 64 + (byte_code b1 - 128)) * 64
                     + (byte_code b2 - 128)) (utf8_decode r2)
        | _ => cp_nil
        end
      else
        match r with
        | b1 :: b2 :: b3 :: r3 =>
            cp_cons ((((n0 - 240) * 64 + (byte_code b1 - 128)) * 64
                      + (byte_code b2 - 128)) * 64
                     + (byte_code b3 - 128)) (utf8_decode r3)
        | _ => cp_nil
        end
  end.

Definition utf8_bytes (ns : list N) : option (list byte) :=
  foldr (λ n acc, b ← Byte.of_N n; bs ← acc; Some (b :: bs)) (Some []) ns.

Definition utf8_encode_one (n : N) : option (list byte) :=
  if n <? 128 then utf8_bytes [n]
  else if n <? 2048 then utf8_bytes [192 + n / 64; 128 + n mod 64]
  else if n <? 65536 then
    utf8_bytes [224 + n / 4096; 128 + (n / 64) mod 64; 128 + n mod 64]
  else
    utf8_bytes [240 + n / 262144; 128 + (n / 4096) mod 64;
                128 + (n / 64) mod 64; 128 + n mod 64].

Fixpoint utf8_encode (s : code_points) : option (list byte) :=
  match s with
  | cp_nil => Some []
  | cp_cons c r =>
      a ← utf8_encode_one c; b ← utf8_encode r; Some (a ++ b)
  end.

Declare Scope str_scope.
Delimit Scope str_scope with str.
#[warnings="-via-type-remapping,-via-type-mismatch"]
String Notation str utf8_decode utf8_encode
  (via code_points mapping [[nil] => cp_nil, [cons] => cp_cons]) : str_scope.
Global Open Scope str_scope.

(** *** Characters *)

Definition between (lo hi c : N) : bool := (lo <=? c) && (c <=? hi).

(** [str.isspace] on one character *)
Definition isspace (c : N) : bool := bool_decide (c ∈ Unicode.whitespace).

(** C's [isspace] in the "C" locale, used by the number parser. *)
Definition c_isspace (c : N) : bool := between 9 13 c || (c =? 32).

Definition isdigit (c : N) : bool := between 48 57 c.

(** The entry of a table sorted by code point. *)
Fixpoint lookup_sorted {A} (c : N) (table : list (N * A)) : option A :=
  match table with
  | [] => None
  | (k, v) :: rest =>
      if c =? k then Some v
      else if c <? k then None
      else lookup_sorted c rest
  end.

(** The upper-case form of one character; it can be several characters. *)
Definition upper_char (c : N) : str :=
  if between 97 122 c then [c - 32]
  else if c <? 128 then [c]
  else default [c] (lookup_sorted c Unicode.upper_table).

(** [s.upper()] *)
Fixpoint upper (s : str) : str :=
  match s with
  | [] => []
  | c :: s' => upper_char c ++ upper s'
  end.

Definition in_ranges (c : N) (ranges : list (N * N)) : bool :=
  existsb (λ r, between (fst r) (snd r) c) ranges.

Definition is_cased (c : N) : bool := in_ranges c Unicode.cased_ranges.

Definition is_case_ignorable (c : N) : bool :=
  in_ranges c Unicode.case_ignorable_ranges.

(** The first character of [s] that is not case-ignorable. *)
Fixpoint first_not_ignorable (s : str) : option N :=
  match s with
  | [] => None
  | c :: s' => if is_case_ignorable c then first_not_ignorable s' else Some c
  end.

(** Whether a capital sigma stands at the end of a word; [before] holds
    the characters before it, nearest first, [after] those after it. *)
Definition final_sigma (before after : str) : bool :=
  match first_not_ignorable before with
  | None => false
  | Some b =>
      is_cased b &&
      match first_not_ignorable after with
      | None => true
      | Some a => negb (is_cased a)
      end
  end.

Definition lower_char (c : N) : str :=
  if between 65 90 c then [c + 32]
  else if c <? 128 then [c]
  else default [c] (lookup_sorted c Unicode.lower_table).

Fixpoint lower_from (before : str) (s : str) : str :=
  match s with
  | [] => []
  | c :: s' =>
      (if c =? 931
       then [if final_sigma before s' then 962 else 963]
       else lower_char c)
      ++ lower_from (c :: before) s'
  end.

(** [s.lower()] *)
Definition lower (s : str) : str := lower_from [] s.

(** [len(s)] *)
Definition len (s : str) : nat := length s.

Fixpoint lstrip_with (sp : N → bool) (s : str) : str :=
  match s with
  | [] => []
  | c :: s' => if sp c then lstrip_with sp s' else s
  end.

Fixpoint rstrip_with (sp : N → bool) (s : str) : str :=
  match s with
  | [] => []
  | c :: s' =>
      match rstrip_with sp s' with
      | [] => if sp c then [] else [c]
      | r => c :: r
      end
  end.

(** [s.lstrip()], [s.rstrip()] and [s.strip()] *)
Definition lstrip : str → str := lstrip_with isspace.
Definition rstrip : str → str := rstrip_with isspace.
Definition strip (s : str) : str := rstrip (lstrip s).

(** [s.startswith(p)] *)
Fixpoint startswith (p s : str) : bool :=
  match p, s with
  | [], _ => true
  | _ :: _, [] => false
  | a :: p', b :: s' => (a =? b) && startswith p' s'
  end.

(** [k in s] *)
Fixpoint contains (k s : str) : bool :=
  startswith k s ||
  match s with
  | [] => false
  | _ :: s' => contains k s'
  end.

(** [s.endswith(p)] *)
Fixpoint endswith (p s : str) : bool :=
  bool_decide (s = p) ||
  match s with
  | [] => false
  | _ :: s' => endswith p s'
  end.

(** [sep.join(parts)] *)
Fixpoint join (sep : str) (parts : list str) : str :=
  match parts with
  | [] => []
  | [p] => p
  | p :: ps => p ++ sep ++ join sep ps
  end.

(** [s * n] *)
Fixpoint times (s : str) (n : nat) : str :=
  match n with
  | O => []
  | S n' => s ++ times s n'
  end.

(** [f"{s:<{w}}"]: left-justify in a field of at least [w] characters.
    A text longer than [w] is left as it is. *)
Definition ljust (s : str) (w : nat) : str := s ++ times " " (w - len s).

(** The character codes of a text of 8-bit characters. *)
Fixpoint char_codes (s : string) : str :=
  match s with
  | EmptyString => []
  | String c s' => N_of_ascii c :: char_codes s'
  end.

(** [str(n)] for an [int] *)
Definition str_of_Z (n : Z) : str :=
  char_codes (NilEmpty.string_of_int (Z.to_int n)).
Definition str_of_nat (n : nat) : str := str_of_Z (Z.of_nat n).

Definition nl : str := [10].

(** *** Values of a result row

    The rows shown by the tutor are the dictionaries that
    [SQLEngine.execute_query] builds from [sqlite3] rows, so a cell
    holds [None], an [int] (an SQLite INTEGER, 64 bits, signed), a
    [float], a [str] or a [bytes] object. A [float] is carried by the
    text [str()] prints for it, the only thing the display reads; a
    [bytes] object is a sequence of 8-bit characters. *)

Definition in_int64 (n : Z) : bool :=
  ((- 2 ^ 63 <=? n) && (n <? 2 ^ 63))%Z.

Record int64 : Type := Int64 {
  int64_val : Z;
  int64_range : in_int64 int64_val = true
}.

Inductive value : Type :=
| VNone
| VInt (n : int64)
| VFloat (repr : str)
| VStr (s : str)
| VBytes (b : string).

Definition dquote : N := 34.
Definition squote : N := 39.
Definition backslash : N := 92.

Definition hex_digit (n : N) : N := if n <? 10 then 48 + n else 87 + n.

Definition escape_byte (quote c : N) : str :=
  if (c =? quote) || (c =? backslash) then [backslash; c]
  else if c =? 9 then [backslash; 116]
  else if c =? 10 then [backslash; 110]
  else if c =? 13 then [backslash; 114]
  else if (c <? 32) || (127 <=? c)
  then [backslash; 120; hex_digit (c / 16); hex_digit (c mod 16)]
  else [c].

Fixpoint escape_bytes (quote : N) (b : str) : str :=
  match b with
  | [] => []
  | c :: b' => escape_byte quote c ++ escape_bytes quote b'
  end.

(** [repr(b)] for a [bytes] object, which is also its [str()] *)
Definition bytes_repr (b : string) : str :=
  let bs := char_codes b in
  let quote := if bool_decide (squote ∈ bs) && negb (bool_decide (dquote ∈ bs))
               then dquote else squote in
  [98; quote] ++ escape_bytes quote bs ++ [quote].

(** [str(v)] *)
Definition py_str (v : value) : str :=
  match v with
  | VNone => "None"
  | VInt n => str_of_Z (int64_val n)
  | VFloat repr => repr
  | VStr s => s
  | VBytes b => bytes_repr b
  end.

(** *** Exceptions *)

Inductive exn : Type := ValueError | TypeError | KeyError | IndexError.

Inductive result (A : Type) : Type :=
| Ok (a : A)
| Raise (e : exn).
Global Arguments Ok {A} a.
Global Arguments Raise {A} e.

(** *** The text accepted by [float()]

    In a [str], a character above U+007E is first replaced: a space
    character by a blank, a decimal digit of any script by its ASCII
    digit, anything else by a question mark, which ends the text. Then
    blanks are dropped at both ends, an underscore may stand between two
    digits, and what is left is a signed decimal literal with an optional
    exponent, or one of [inf], [infinity], [nan] in any letter case. *)

(** The value of a decimal digit of any script. *)
Definition decimal_value (c : N) : option N :=
  (λ z, c - z) <$> find (λ z, between z (z + 9) c) Unicode.decimal_zeros.

Fixpoint to_ascii (s : str) : str :=
  match s with
  | [] => []
  | c :: s' =>
      if c <? 127 then c :: to_ascii s'
      else if isspace c then 32 :: to_ascii s'
      else match decimal_value c with
           | Some d => (48 + d) :: to_ascii s'
           | None => [63]
           end
  end.

Fixpoint drop_underscores (prev : N) (s : str) : option str :=
  match s with
  | [] => if prev =? 95 then None else Some []
  | c :: s' =>
      if c =? 95
      then (if isdigit prev then drop_underscores c s' else None)
      else if (prev =? 95) && negb (isdigit c) then None
      else (c ::.) <$> drop_underscores c s'
  end.

Definition drop_sign (s : str) : str :=
  match s with
  | c :: s' => if (c =? 43) || (c =? 45) then s' else s
  | [] => []
  end.

Fixpoint skip_digits (s : str) : nat * str :=
  match s with
  | c :: s' =>
      if isdigit c then let '(n, r) := skip_digits s' in (S n, r) else (O, s)
  | [] => (O, [])
  end.

(** C's [tolower] on one character *)
Definition c_tolower (c : N) : N := if between 65 90 c then c + 32 else c.

Definition is_inf_or_nan (s : str) : bool :=
  bool_decide (map c_tolower s ∈ ["inf"; "infinity"; "nan"]).

Definition is_decimal (s : str) : bool :=
  let '(n1, r1) := skip_digits s in
  let '(n2, r2) := match r1 with
                   | 46 :: r => skip_digits r
                   | _ => (O, r1)
                   end in
  if Nat.eqb (n1 + n2) 0 then false
  else match r2 with
       | [] => true
       | c :: r =>
           if (c =? 101) || (c =? 69)
           then let '(n3, r3) := skip_digits (drop_sign r) in
                Nat.ltb 0 n3 && bool_decide (r3 = [])
           else false
       end.

(** The number parser, on the characters of a [bytes] object or of a
    [str] after [to_ascii]. *)
Definition float_ascii (s : str) : bool :=
  match drop_underscores 0 (rstrip_with c_isspace (lstrip_with c_isspace s)) with
  | None => false
  | Some t => let u := drop_sign t in is_inf_or_nan u || is_decimal u
  end.

Definition float_literal (s : str) : bool := float_ascii (to_ascii s).

(** [float(v)]; the number itself is not used by the caller, only whether
    the conversion succeeds. An [int] of 64 bits always converts. *)
Definition py_float (v : value) : result unit :=
  match v with
  | VNone => Raise TypeError
  | VInt _ => Ok tt
  | VFloat _ => Ok tt
  | VStr s => if float_literal s then Ok tt else Raise ValueError
  | VBytes b => if float_ascii (char_codes b) then Ok tt else Raise ValueError
  end.

(** [max(xs)] of a sequence of lengths; the empty sequence raises. *)
Definition py_max (xs : list nat) : result nat :=
  match xs with
  | [] => Raise ValueError
  | x :: xs' => Ok (foldl Nat.max x xs')
  end.

(** *** Dictionaries with string keys, in insertion order *)

Definition dict (V : Type) : Type := list (str * V).

Definition keys {V} (d : dict V) : list str := d.*1.

(** [d.get(k, default)] *)
Fixpoint get {V} (d : dict V) (k : str) (default : V) : V :=
  match d with
  | [] => default
  | (k', v) :: d' => if bool_decide (k' = k) then v else get d' k default
  end.

End Py.


(** ** src/database/sql_engine.py *)
Module SqlEngine.
Import Py.

Definition dangerous_keywords : list str :=
  ["DROP"; "DELETE"; "UPDATE"; "INSERT"; "ALTER"; "CREATE"; "TRUNCATE"].

(** The [for keyword in dangerous_keywords] loop: [Some r] when the loop
    body returns [r], [None] when the loop runs to its end. *)
Fixpoint check_keywords (keywords : list str) (query_upper : str)
  : option (bool * str) :=
  match keywords with
  | [] => None
  | keyword :: rest =>
      if contains keyword query_upper
      then Some (false, "Query contains dangerous keyword: " ++ keyword)
      else check_keywords rest query_upper
  end.

Definition validate_sql_query (query : str) : bool * str :=
  let query := strip query in
  let query_upper := upper query in
  match check_keywords dangerous_keywords query_upper with
  | Some r => r
  | None =>
      if negb (startswith "SELECT" query_upper)
      then (false, "Only SELECT queries are allowed in learning mode")
      else if negb (endswith ";" (rstrip query))
      then (false, "Query should end with a semicolon (;)")
      else (true, "Query validation passed")
  end.

End SqlEngine.



(** ** src/gui/sql_tutor.py *)
Module SqlTutor.
Import Py.

(** The [results_text] widget holds the pieces of text inserted at its
    end, oldest first; what the user reads is their concatenation. *)
Definition textbox : Type := list str.

(** A method body: it reads and updates the widget and either returns or
    raises. *)
Definition M (A : Type) : Type := textbox -> result A * textbox.

Definition ret {A} (a : A) : M A := fun w => (Ok a, w).

Definition bind {A B} (c : M A) (k : A -> M B) : M B :=
  fun w => match c w with
           | (Ok a, w') => k a w'
           | (Raise e, w') => (Raise e, w')
           end.

Notation "x <- c ;; k" := (bind c (fun x => k))
  (at level 100, c at next level, right associativity).
Notation "c ;; k" := (bind c (fun _ => k))
  (at level 100, right associativity).

(** A built-in that returns or raises without touching the widget. *)
Definition lift {A} (r : result A) : M A := fun w => (r, w).

(** [self.results_text.delete("1.0", "end")] *)
Definition delete_all : M unit := fun _ => (Ok tt, []).

(** [self.results_text.insert("end", s)] *)
Definition insert_end (s : str) : M unit := fun w => (Ok tt, w ++ [s]).

(** [try: body  except (ValueError, TypeError): handler] *)
Definition try_except {A} (body handler : M A) : M A :=
  fun w => match body w with
           | (Raise ValueError, w') | (Raise TypeError, w') => handler w'
           | r => r
           end.

(** [xs[0]] *)
Definition first {A} (xs : list A) : M A :=
  match xs with
  | x :: _ => ret x
  | [] => lift (Raise IndexError)
  end.

(** [d[k]] for a dictionary keyed by column name *)
Definition getitem (d : gmap str nat) (k : str) : M nat :=
  match d !! k with
  | Some v => ret v
  | None => lift (Raise KeyError)
  end.

(** [for x in xs: body(x)] *)
Fixpoint for_each {A} (xs : list A) (body : A -> M unit) : M unit :=
  match xs with
  | [] => ret tt
  | x :: xs' => body x ;; for_each xs' body
  end.

(** A loop that updates one local variable, starting from [acc]. *)
Fixpoint for_fold {A S} (xs : list A) (acc : S) (body : S -> A -> M S) : M S :=
  match xs with
  | [] => ret acc
  | x :: xs' => acc' <- body acc x ;; for_fold xs' acc' body
  end.

(** The items of a generator expression [f(x) for x in xs], in order. *)
Fixpoint gen {A B} (f : A -> M B) (xs : list A) : M (list B) :=
  match xs with
  | [] => ret []
  | x :: xs' => y <- f x ;; ys <- gen f xs' ;; ret (y :: ys)
  end.

Definition row : Type := dict value.

(** The [# Calculate column widths] loop of [display_query_results]. *)
Definition column_widths (results : list row) (columns : list str)
  : M (gmap str nat) :=
  for_fold columns ∅ (fun col_widths col =>
    longest <- lift (py_max (map (fun r => len (py_str (get r col (VStr ""))))
                                 (take 10 results))) ;;
    let col_widths := <[col := Nat.max (len col) longest]> col_widths in
    w <- getitem col_widths col ;;
    ret (<[col := Nat.min w 20]> col_widths)).

(** [" | ".join(f"{col:<{col_widths[col]}}" for col in columns)] *)
Definition header_text (col_widths : gmap str nat) (columns : list str)
  : M str :=
  cells <- gen (fun col => w <- getitem col_widths col ;; ret (ljust col w))
               columns ;;
  ret (join " | " cells).

(** [" | ".join(f"{str(row.get(col, '')):<{col_widths[col]}}" for col in columns)] *)
Definition row_text (col_widths : gmap str nat) (columns : list str)
    (r : row) : M str :=
  cells <- gen (fun col => w <- getitem col_widths col ;;
                           ret (ljust (py_str (get r col (VStr ""))) w))
               columns ;;
  ret (join " | " cells).

(** The [# Check for numeric columns] loop of [add_result_analysis]. *)
Definition numeric_columns (results : list row) (columns : list str)
  : M (list str) :=
  for_fold columns [] (fun numeric_cols col =>
    try_except
      (r0 <- first results ;;
       lift (py_float (get r0 col (VStr ""))) ;;
       ret (numeric_cols ++ [col]))
      (ret numeric_cols)).

(** [[col for col in columns if 'date' in col.lower() or 'time' in col.lower()]] *)
Definition date_columns (columns : list str) : list str :=
  filter (fun col => contains "date" (lower col) || contains "time" (lower col) = true)
         columns.

Definition add_result_analysis (results : list row) (columns : list str)
  : M unit :=
  insert_end (nl ++ times "=" 50 ++ nl) ;;
  insert_end ("📈 Result Analysis:" ++ nl ++ nl) ;;
  insert_end ("• Total rows: " ++ str_of_nat (length results) ++ nl) ;;
  insert_end ("• Columns: " ++ str_of_nat (length columns) ++ nl) ;;
  insert_end ("• Column names: " ++ join ", " columns ++ nl ++ nl) ;;
  match results with
  | [] => ret tt
  | _ :: _ =>
      insert_end ("💡 Learning Notes:" ++ nl) ;;
      numeric_cols <- numeric_columns results columns ;;
      match numeric_cols with
      | [] => ret tt
      | _ :: _ =>
          insert_end ("• Numeric columns detected: " ++ join ", " numeric_cols ++ nl) ;;
          insert_end ("  Try using functions like SUM(), AVG(), MIN(), MAX() on these!" ++ nl)
      end ;;
      let date_cols := date_columns columns in
      match date_cols with
      | [] => ret tt
      | _ :: _ =>
          insert_end ("• Date columns: " ++ join ", " date_cols ++ nl) ;;
          insert_end ("  Try using date functions and ORDER BY for time-based analysis!" ++ nl)
      end ;;
      insert_end (nl ++ "🎯 Try these next:" ++ nl) ;;
      if Nat.ltb 1 (length results) then
        insert_end ("• Add WHERE clauses to filter specific data" ++ nl) ;;
        insert_end ("• Use ORDER BY to sort the results" ++ nl) ;;
        insert_end ("• Try GROUP BY for data aggregation" ++ nl)
      else ret tt
  end.

Definition display_query_results (query : str) (results : list row)
  : M unit :=
  delete_all ;;
  insert_end ("📝 Executed Query:" ++ nl ++ query ++ nl ++ nl) ;;
  match results with
  | [] =>
      insert_end ("📊 Results: No rows returned." ++ nl ++ nl) ;;
      insert_end ("💡 This might mean:" ++ nl) ;;
      insert_end ("   • The query conditions didn't match any data" ++ nl) ;;
      insert_end ("   • The table is empty" ++ nl) ;;
      insert_end ("   • There might be a logical error in the query" ++ nl)
  | _ :: _ =>
      insert_end ("📊 Results: " ++ str_of_nat (length results)
                  ++ " row(s) returned" ++ nl ++ nl) ;;
      r0 <- first results ;;
      let columns := keys r0 in
      col_widths <- column_widths results columns ;;
      header <- header_text col_widths columns ;;
      insert_end (header ++ nl) ;;
      insert_end (times "-" (len header) ++ nl) ;;
      for_each (take 100 results) (fun r =>
        text <- row_text col_widths columns r ;;
        insert_end (text ++ nl)) ;;
      (if Nat.ltb 100 (length results) then
         insert_end (nl ++ "... and " ++ str_of_nat (length results - 100)
                     ++ " more rows" ++ nl)
       else ret tt) ;;
      add_result_analysis results columns
  end.

(** What the user reads in the widget. *)
Definition shown (w : textbox) : str := concat w.

End SqlTutor.


(** ** Notions used to state the properties *)
Module Spec.
Import Py.

Definition is_prefix (p s : str) : Prop := ∃ t, s = p ++ t.
Definition is_suffix (p s : str) : Prop := ∃ a, s = a ++ p.
Definition is_substring (k s : str) : Prop := ∃ a b, s = a ++ k ++ b.

(** Every character of [s] satisfies [P]. *)
Fixpoint all_chars (P : N → bool) (s : str) : bool :=
  match s with
  | [] => true
  | c :: s' => P c && all_chars P s'
  end.

(** A text that is not empty and holds neither a space character nor a
    semicolon. *)
Definition plain (v : str) : bool :=
  negb (bool_decide (v = []))
  && all_chars (λ d, negb (isspace d) && negb (d =? 59)%N) v.

(** [m] is the greatest element of [xs]. *)
Definition is_greatest (m : nat) (xs : list nat) : Prop :=
  m ∈ xs ∧ ∀ x, x ∈ xs → x ≤ m.

(** *** The report, piece by piece

    A closed description of what [display_query_results] leaves in the
    widget, against which the method is compared below. *)

Import SqlTutor.

(** The text of the cell of row [r] under column [col]. *)
Definition cell_text (r : row) (col : str) : str :=
  py_str (get r col (VStr "")).

(** The cell lengths of a column over the first ten rows. *)
Definition sampled_lengths (results : list row) (col : str) : list nat :=
  map (λ r, len (cell_text r col)) (take 10 results).

Definition width_of (results : list row) (col : str) : nat :=
  Nat.min 20 (Nat.max (len col) (max_list (sampled_lengths results col))).

Definition header_line (W : str → nat) (columns : list str) : str :=
  join " | " (map (λ col, ljust col (W col)) columns).

Definition data_line (W : str → nat) (columns : list str) (r : row)
  : str :=
  join " | " (map (λ col, ljust (cell_text r col) (W col)) columns).

Definition echo (query : str) : str :=
  "📝 Executed Query:" ++ nl ++ query ++ nl ++ nl.

Definition count_line (n : nat) : str :=
  "📊 Results: " ++ str_of_nat n ++ " row(s) returned" ++ nl ++ nl.

Definition more_rows_line (n : nat) : str :=
  nl ++ "... and " ++ str_of_nat (n - 100) ++ " more rows" ++ nl.

Definition data_lines (W : str → nat) (columns : list str)
    (results : list row) : list str :=
  map (λ r, data_line W columns r ++ nl) (take 100 results).

Definition more_rows (n : nat) : list str :=
  if Nat.ltb 100 n then [more_rows_line n] else [].

Definition table (results : list row) (columns : list str) : list str :=
  let W := width_of results in
  [header_line W columns ++ nl;
   times "-" (len (header_line W columns)) ++ nl]
  ++ data_lines W columns results
  ++ more_rows (length results).

(** [float(v)] succeeds. *)
Definition parses_as_float (v : value) : Prop := py_float v = Ok tt.

Definition float_ok (v : value) : bool :=
  match py_float v with Ok _ => true | Raise _ => false end.

Definition numeric_of (r0 : row) (columns : list str) : list str :=
  filter (λ col, float_ok (get r0 col (VStr "")) = true) columns.

Definition numeric_listing (numeric_cols : list str) : str :=
  "• Numeric columns detected: " ++ join ", " numeric_cols ++ nl.

Definition numeric_part (numeric_cols : list str) : list str :=
  match numeric_cols with
  | [] => []
  | _ :: _ =>
      [numeric_listing numeric_cols;
       "  Try using functions like SUM(), AVG(), MIN(), MAX() on these!" ++ nl]
  end.

Definition date_listing (date_cols : list str) : str :=
  "• Date columns: " ++ join ", " date_cols ++ nl.

Definition date_part (date_cols : list str) : list str :=
  match date_cols with
  | [] => []
  | _ :: _ =>
      [date_listing date_cols;
       "  Try using date functions and ORDER BY for time-based analysis!" ++ nl]
  end.

Definition statistics (results : list row) (columns : list str)
  : list str :=
  [nl ++ times "=" 50 ++ nl;
   "📈 Result Analysis:" ++ nl ++ nl;
   "• Total rows: " ++ str_of_nat (length results) ++ nl;
   "• Columns: " ++ str_of_nat (length columns) ++ nl;
   "• Column names: " ++ join ", " columns ++ nl ++ nl].

Definition next_steps (n : nat) : list str :=
  (nl ++ "🎯 Try these next:" ++ nl) ::
  (if Nat.ltb 1 n then
     ["• Add WHERE clauses to filter specific data" ++ nl;
      "• Use ORDER BY to sort the results" ++ nl;
      "• Try GROUP BY for data aggregation" ++ nl]
   else []).

(** The analysis section for a result set whose first row is [r0]. *)
Definition analysis (r0 : row) (results : list row) (columns : list str)
  : list str :=
  statistics results columns
  ++ ["💡 Learning Notes:" ++ nl]
  ++ numeric_part (numeric_of r0 columns)
  ++ date_part (date_columns columns)
  ++ next_steps (length results).

Definition report (query : str) (r0 : row) (rest : list row) : list str :=
  [echo query; count_line (length (r0 :: rest))]
  ++ table (r0 :: rest) (keys r0)
  ++ analysis r0 (r0 :: rest) (keys r0).

Definition empty_report (query : str) : list str :=
  [echo query;
   "📊 Results: No rows returned." ++ nl ++ nl;
   "💡 This might mean:" ++ nl;
   "   • The query conditions didn't match any data" ++ nl;
   "   • The table is empty" ++ nl;
   "   • There might be a logical error in the query" ++ nl].

End Spec.

(** ** The rest of src/database/sql_engine.py *)
Module Engine.
Import Py.

(** One call of [cursor.execute]: the statement and, when they are
    passed, its parameters. *)
Record call : Type := Call {
  call_sql : str;
  call_params : option (list value)
}.

(** The SQLite connection as the engine sees it. Given the calls made so
    far and a new call, it answers with the fetched rows, each already a
    dictionary, or with [None] when anything in the [try] block raises. *)
Definition connection : Type := list call → call → option (list (dict value)).

(** [SQLEngine.execute_query]. The engine's state is the list of calls it
    has made on its connection, oldest first. Writing to the log file is
    left out. *)
Definition execute_query (conn : connection) (query : str)
    (params : option (list value)) (calls : list call)
  : list (dict value) * list call :=
  let c := match params with
           | Some (_ :: _) => Call query params
           | _ => Call query None
           end in
  match conn calls c with
  | Some results => (results, calls ++ [c])
  | None => ([], calls ++ [c])
  end.

(** [row[k]] *)
Fixpoint getitem (d : dict value) (k : str) : result value :=
  match d with
  | [] => Raise KeyError
  | (k', v) :: d' => if bool_decide (k' = k) then Ok v else getitem d' k
  end.

(** [bool(v)] *)
Definition truthy (v : value) : bool :=
  match v with
  | VNone => false
  | VInt n => negb (int64_val n =? 0)%Z
  | VFloat repr => negb (bool_decide (repr = "0.0") || bool_decide (repr = "-0.0"))
  | VStr s => negb (bool_decide (s = []))
  | VBytes b => negb (bool_decide (b = EmptyString))
  end.

(** An entry of the list [get_table_schema] returns. *)
Record column_info : Type := ColumnInfo {
  ci_column : value;
  ci_type : value;
  ci_not_null : bool;
  ci_primary_key : bool
}.

(** The list comprehension of [get_table_schema]; a missing key raises. *)
Fixpoint schema_entries (schema_info : list (dict value))
  : result (list column_info) :=
  match schema_info with
  | [] => Ok []
  | r :: rest =>
      match getitem r "name", getitem r "type",
            getitem r "notnull", getitem r "pk" with
      | Ok name, Ok ty, Ok notnull, Ok pk =>
          match schema_entries rest with
          | Ok entries =>
              Ok (ColumnInfo name ty (truthy notnull) (truthy pk) :: entries)
          | Raise e => Raise e
          end
      | Raise e, _, _, _ | _, Raise e, _, _
      | _, _, Raise e, _ | _, _, _, Raise e => Raise e
      end
  end.

(** [SQLEngine.get_table_schema] *)
Definition get_table_schema (conn : connection) (table_name : str)
    (calls : list call) : list column_info * list call :=
  let schema_query := "PRAGMA table_info(" ++ table_name ++ ")" in
  let '(schema_info, calls') := execute_query conn schema_query None calls in
  match schema_entries schema_info with
  | Ok entries => (entries, calls')
  | Raise _ => ([], calls')
  end.

Record example : Type := Example {
  ex_query : str;
  ex_explanation : str
}.

Record tutorial : Type := Tutorial {
  tut_id : str;
  tut_title : str;
  tut_description : str;
  tut_difficulty : str;
  tut_examples : list example
}.

Definition dq : str := [dquote].

(** [SQLEngine.get_sql_tutorials] *)
Definition get_sql_tutorials : list tutorial :=
  [{| tut_id := "basic_select";
     tut_title := "Basic SELECT Statements";
     tut_description := "Learn how to query data from tables";
     tut_difficulty := "Beginner";
     tut_examples :=
       [
        {| ex_query := "SELECT * FROM employees;";
           ex_explanation := "Select all columns from the employees table" |};
        {| ex_query := "SELECT first_name, last_name FROM employees;";
           ex_explanation := "Select specific columns" |};
        {| ex_query := "SELECT * FROM employees WHERE department = " ++ dq ++ "Engineering" ++ dq ++ ";";
           ex_explanation := "Filter rows with WHERE clause" |}
       ] |};
   {| tut_id := "filtering_sorting";
     tut_title := "Filtering and Sorting Data";
     tut_description := "Use WHERE, ORDER BY, and LIMIT clauses";
     tut_difficulty := "Beginner";
     tut_examples :=
       [
        {| ex_query := "SELECT * FROM employees WHERE salary > 80000;";
           ex_explanation := "Filter by numeric condition" |};
        {| ex_query := "SELECT * FROM employees ORDER BY salary DESC;";
           ex_explanation := "Sort by salary in descending order" |};
        {| ex_query := "SELECT * FROM employees ORDER BY hire_date LIMIT 5;";
           ex_explanation := "Get the 5 earliest hired employees" |}
       ] |};
   {| tut_id := "joins";
     tut_title := "JOIN Operations";
     tut_description := "Combine data from multiple tables";
     tut_difficulty := "Intermediate";
     tut_examples :=
       [
        {| ex_query := "SELECT e.first_name, e.last_name, s.product_name, s.sale_amount" ++ nl ++ "                                   FROM employees e" ++ nl ++ "                                   JOIN sales s ON e.employee_id = s.employee_id;";
           ex_explanation := "Inner join to get employee sales data" |};
        {| ex_query := "SELECT e.first_name, e.last_name, m.first_name as manager_name" ++ nl ++ "                                   FROM employees e" ++ nl ++ "                                   LEFT JOIN employees m ON e.manager_id = m.employee_id;";
           ex_explanation := "Self-join to get employee and manager names" |}
       ] |};
   {| tut_id := "aggregation";
     tut_title := "Aggregate Functions";
     tut_description := "Use COUNT, SUM, AVG, MIN, MAX";
     tut_difficulty := "Intermediate";
     tut_examples :=
       [
        {| ex_query := "SELECT COUNT(*) as total_employees FROM employees;";
           ex_explanation := "Count total number of employees" |};
        {| ex_query := "SELECT department, AVG(salary) as avg_salary FROM employees GROUP BY department;";
           ex_explanation := "Average salary by department" |};
        {| ex_query := "SELECT SUM(sale_amount) as total_sales FROM sales;";
           ex_explanation := "Total sales amount" |}
       ] |};
   {| tut_id := "advanced";
     tut_title := "Advanced Queries";
     tut_description := "Subqueries, window functions, and complex operations";
     tut_difficulty := "Advanced";
     tut_examples :=
       [
        {| ex_query := "SELECT * FROM employees " ++ nl ++ "                                   WHERE salary > (SELECT AVG(salary) FROM employees);";
           ex_explanation := "Employees with above-average salary using subquery" |};
        {| ex_query := "SELECT e.first_name, e.last_name, " ++ nl ++ "                                          COUNT(s.sale_id) as total_sales" ++ nl ++ "                                   FROM employees e" ++ nl ++ "                                   LEFT JOIN sales s ON e.employee_id = s.employee_id" ++ nl ++ "                                   GROUP BY e.employee_id" ++ nl ++ "                                   ORDER BY total_sales DESC;";
           ex_explanation := "Employee sales performance ranking" |}
       ] |}
  ].

End Engine.

(** ** The rest of src/gui/sql_tutor.py *)
Module Tutor.
Import Py.

(** A Tk text widget: its text, and whether its state is "disabled".
    Tk ignores [insert] and [delete] on a disabled text widget. *)
Record text_widget : Type := TextWidget {
  tw_content : str;
  tw_disabled : bool
}.

(** [w.delete("1.0", "end")] *)
Definition tw_delete_all (w : text_widget) : text_widget :=
  if tw_disabled w then w else TextWidget [] false.

(** [w.insert("1.0", text)] *)
Definition tw_insert_start (text : str) (w : text_widget) : text_widget :=
  if tw_disabled w then w else TextWidget (text ++ tw_content w) false.

(** [w.configure(state="disabled")] *)
Definition tw_disable (w : text_widget) : text_widget :=
  TextWidget (tw_content w) true.

(** [w.get("1.0", "end")]: Tk hands the text back with a final newline. *)
Definition tw_get (w : text_widget) : str := tw_content w ++ nl.

(** A call of [messagebox.showinfo] or [messagebox.showerror]. *)
Inductive dialog : Type :=
| ShowInfo (title message : str)
| ShowError (title message : str).

(** The fields of [SQLTutorWidget] the methods below read or write; [calls]
    is the state of [db_engine], [dialogs] the message boxes shown. *)
Record tutor : Type := TutorState {
  tutorials : list Engine.tutorial;
  current_tutorial : nat;
  current_lesson : nat;
  lesson_title : str;
  progress_label : str;
  lesson_description : text_widget;
  query_input : text_widget;
  validation_label : str;
  results_text : SqlTutor.textbox;
  calls : list Engine.call;
  dialogs : list dialog
}.

Definition set_position (tutorial_index lesson : nat) (s : tutor) : tutor :=
  TutorState (tutorials s) tutorial_index lesson (lesson_title s)
    (progress_label s) (lesson_description s) (query_input s)
    (validation_label s) (results_text s) (calls s) (dialogs s).

Definition set_lesson (lesson : nat) (s : tutor) : tutor :=
  set_position (current_tutorial s) lesson s.

Definition set_lesson_labels (title progress : str) (s : tutor) : tutor :=
  TutorState (tutorials s) (current_tutorial s) (current_lesson s) title
    progress (lesson_description s) (query_input s)
    (validation_label s) (results_text s) (calls s) (dialogs s).

Definition set_lesson_description (w : text_widget) (s : tutor) : tutor :=
  TutorState (tutorials s) (current_tutorial s) (current_lesson s)
    (lesson_title s) (progress_label s) w (query_input s)
    (validation_label s) (results_text s) (calls s) (dialogs s).

Definition set_query_input (w : text_widget) (s : tutor) : tutor :=
  TutorState (tutorials s) (current_tutorial s) (current_lesson s)
    (lesson_title s) (progress_label s) (lesson_description s) w
    (validation_label s) (results_text s) (calls s) (dialogs s).

Definition set_validation_label (text : str) (s : tutor) : tutor :=
  TutorState (tutorials s) (current_tutorial s) (current_lesson s)
    (lesson_title s) (progress_label s) (lesson_description s) (query_input s)
    text (results_text s) (calls s) (dialogs s).

Definition set_results_text (w : SqlTutor.textbox) (s : tutor) : tutor :=
  TutorState (tutorials s) (current_tutorial s) (current_lesson s)
    (lesson_title s) (progress_label s) (lesson_description s) (query_input s)
    (validation_label s) w (calls s) (dialogs s).

Definition set_calls (cs : list Engine.call) (s : tutor) : tutor :=
  TutorState (tutorials s) (current_tutorial s) (current_lesson s)
    (lesson_title s) (progress_label s) (lesson_description s) (query_input s)
    (validation_label s) (results_text s) cs (dialogs s).

Definition show_dialog (d : dialog) (s : tutor) : tutor :=
  TutorState (tutorials s) (current_tutorial s) (current_lesson s)
    (lesson_title s) (progress_label s) (lesson_description s) (query_input s)
    (validation_label s) (results_text s) (calls s) (dialogs s ++ [d]).

(** [SQLTutorWidget.load_tutorial]; the buttons call it with a position
    of the tutorial list, a natural number. *)
Definition load_tutorial (tutorial_index : nat) (s : tutor)
  : result unit * tutor :=
  if length (tutorials s) <=? tutorial_index then (Ok tt, s)
  else
    let s := set_position tutorial_index (current_lesson s) s in
    match tutorials s !! tutorial_index with
    | None => (Raise IndexError, s)
    | Some tutorial =>
        let s := set_lesson_labels
                   (Engine.tut_title tutorial)
                   ("Lesson " ++ str_of_nat (tutorial_index + 1) ++ " of "
                    ++ str_of_nat (length (tutorials s))) s in
        let description_text :=
          "Difficulty: " ++ Engine.tut_difficulty tutorial ++ nl ++ nl
          ++ Engine.tut_description tutorial ++ nl ++ nl
          ++ "Examples available: "
          ++ str_of_nat (length (Engine.tut_examples tutorial)) in
        let s := set_lesson_description
                   (tw_disable (tw_insert_start description_text
                      (tw_delete_all (lesson_description s)))) s in
        let s := set_results_text
                   ["📖 Tutorial loaded: " ++ Engine.tut_title tutorial
                    ++ nl ++ nl
                    ++ "Click 'Example' to see sample queries, or write your own SQL query below."
                    ++ nl ++ nl
                    ++ "Tip: Press Ctrl+Enter to execute queries quickly!"] s in
        (Ok tt, set_lesson 0 s)
    end.

(** [SQLTutorWidget.load_example_query] *)
Definition load_example_query (s : tutor) : result unit * tutor :=
  if length (tutorials s) <=? current_tutorial s then (Ok tt, s)
  else
    match tutorials s !! current_tutorial s with
    | None => (Raise IndexError, s)
    | Some tutorial =>
        let examples := Engine.tut_examples tutorial in
        match examples with
        | [] => (Ok tt, show_dialog (ShowInfo "No Examples"
                          "No examples available for this tutorial.") s)
        | _ :: _ =>
            match examples !! (current_lesson s mod length examples) with
            | None => (Raise IndexError, s)
            | Some example =>
                let s := set_query_input
                           (tw_insert_start (Engine.ex_query example)
                              (tw_delete_all (query_input s))) s in
                let s := set_validation_label
                           ("💡 Example: " ++ Engine.ex_explanation example) s in
                (Ok tt, set_lesson ((current_lesson s + 1) mod length examples) s)
            end
        end
    end.

(** [SQLTutorWidget.clear_query] *)
Definition clear_query (s : tutor) : result unit * tutor :=
  let s := set_query_input (tw_delete_all (query_input s)) s in
  (Ok tt, set_validation_label "✅ Query cleared - Ready for new input" s).

(** [f"{v:<{w}}"] for a cell of a row; [None] and [bytes] have no such
    format. *)
Definition format_left (v : value) (w : nat) : result str :=
  match v with
  | VNone | VBytes _ => Raise TypeError
  | _ => Ok (ljust (py_str v) w)
  end.

(** The line [show_table_schema] prints for one column. *)
Definition schema_line (col : Engine.column_info) : result str :=
  let pk_marker := if Engine.ci_primary_key col then "✓" else " " in
  let null_marker := if negb (Engine.ci_not_null col) then "✓" else " " in
  match format_left (Engine.ci_column col) 18,
        format_left (Engine.ci_type col) 12 with
  | Ok name, Ok ty =>
      Ok (name ++ " | " ++ ty ++ " | "
          ++ ljust null_marker 8
          ++ " | " ++ pk_marker ++ nl)
  | Raise e, _ | _, Raise e => Raise e
  end.

(** [w.insert("1.0", text)] on the results widget *)
Definition insert_start (text : str) : SqlTutor.M unit :=
  fun w => (Ok tt, text :: w).

(** What [show_table_schema] writes to the results widget. *)
Definition schema_report (table_name : str)
    (schema : list Engine.column_info) : SqlTutor.M unit :=
  SqlTutor.bind SqlTutor.delete_all (fun _ =>
  SqlTutor.bind (insert_start ("📋 Table Schema: " ++ table_name ++ nl ++ nl))
    (fun _ =>
  SqlTutor.bind (SqlTutor.insert_end
    ("Column Name        | Data Type    | Nullable | Primary Key" ++ nl))
    (fun _ =>
  SqlTutor.bind (SqlTutor.insert_end (times "-" 60 ++ nl)) (fun _ =>
  SqlTutor.bind (SqlTutor.for_each schema (fun col =>
    SqlTutor.bind (SqlTutor.lift (schema_line col)) SqlTutor.insert_end))
    (fun _ =>
  SqlTutor.insert_end
    (nl ++ "💡 Try this query to see sample data:" ++ nl
     ++ "SELECT * FROM " ++ table_name ++ " LIMIT 5;" ++ nl)))))).

Section methods.

(** The database behind [db_engine], and [str(e)] for an exception. *)
Variable conn : Engine.connection.
Variable str_exn : exn → str.

(** [SQLTutorWidget.execute_query] *)
Definition execute_query (s : tutor) : result unit * tutor :=
  let query := strip (tw_get (query_input s)) in
  match query with
  | [] =>
      (Ok tt, set_validation_label "⚠️ Please enter a SQL query" s)
  | _ :: _ =>
      let '(is_valid, validation_message) :=
        SqlEngine.validate_sql_query query in
      if negb is_valid
      then (Ok tt, set_validation_label ("❌ " ++ validation_message) s)
      else
        let s := set_validation_label "⏳ Executing query..." s in
        let '(results, cs) := Engine.execute_query conn query None (calls s) in
        let s := set_calls cs s in
        match SqlTutor.display_query_results query results (results_text s) with
        | (Ok _, w) =>
            let s := set_results_text w s in
            (Ok tt, set_validation_label
                      ("✅ Query executed successfully - "
                       ++ str_of_nat (length results) ++ " rows returned") s)
        | (Raise e, w) =>
            let s := set_results_text w s in
            let s := set_validation_label ("❌ Query error: " ++ str_exn e) s in
            (Ok tt, set_results_text
                      ["Query Error:" ++ nl ++ str_exn e ++ nl ++ nl
                       ++ "Please check your SQL syntax and try again."] s)
        end
  end.

(** [SQLTutorWidget.show_table_schema] *)
Definition show_table_schema (table_name : str) (s : tutor)
  : result unit * tutor :=
  let '(schema, cs) := Engine.get_table_schema conn table_name (calls s) in
  let s := set_calls cs s in
  match schema with
  | [] =>
      (Ok tt, show_dialog
                (ShowError "Error"
                   ("Could not retrieve schema for table: " ++ table_name)) s)
  | _ :: _ =>
      match schema_report table_name schema (results_text s) with
      | (Raise e, w) => (Raise e, set_results_text w s)
      | (Ok _, w) =>
          let s := set_results_text w s in
          (Ok tt, set_query_input
                    (tw_insert_start ("SELECT * FROM " ++ table_name ++ " LIMIT 5;")
                       (tw_delete_all (query_input s))) s)
      end
  end.

(** What the user can do with the widget. *)
Inductive action : Type :=
| Edit (text : str)
| PressExecute
| PressClear
| PressExample
| PressTutorial (tutorial_index : nat)
| PressTable (table_name : str).

(** The widget after one action. An exception that leaves a callback is
    reported by Tk and the event loop goes on. *)
Definition step (s : tutor) (a : action) : tutor :=
  match a with
  | Edit text => set_query_input (TextWidget text (tw_disabled (query_input s))) s
  | PressExecute => snd (execute_query s)
  | PressClear => snd (clear_query s)
  | PressExample => snd (load_example_query s)
  | PressTutorial i => snd (load_tutorial i s)
  | PressTable t => snd (show_table_schema t s)
  end.

Definition run (s : tutor) (actions : list action) : tutor :=
  foldl step s actions.

End methods.

End Tutor.

(** * Properties *)

(** ** Strings *)
Section strings.
Import Py Spec.

Lemma str_app_cons (c : N) (s t : str) : (c :: s) ++ t = c :: (s ++ t).
Proof. reflexivity. Qed.

Lemma str_app_nil_l (t : str) : "" ++ t = t.
Proof. reflexivity. Qed.

Lemma str_app_nil_r (s : str) : s ++ "" = s.
Proof. apply app_nil_r. Qed.

Lemma str_app_assoc (s t u : str) : (s ++ t) ++ u = s ++ t ++ u.
Proof. symmetry. apply app_assoc. Qed.

Lemma len_app s t : len (s ++ t) = (len s + len t)%nat.
Proof. apply length_app. Qed.

Lemma len_times (c : N) n : len (times [c] n) = n.
Proof. induction n as [|n IH]; simpl; [done|]. by f_equal. Qed.

Lemma startswith_spec p s : startswith p s = true ↔ is_prefix p s.
Proof.
  unfold is_prefix. revert s. induction p as [|a p IH]; intros s; simpl.
  - split; [intros _; by exists s|done].
  - destruct s as [|b s].
    + split; [done|]. intros [t Ht]. done.
    + rewrite andb_true_iff, N.eqb_eq, IH. split.
      * intros [-> [t ->]]. by exists t.
      * intros [t Ht]. injection Ht as -> ->. eauto.
Qed.

Lemma contains_spec k s : contains k s = true ↔ is_substring k s.
Proof.
  unfold is_substring. induction s as [|c s IH]; simpl.
  - rewrite orb_false_r, startswith_spec. split.
    + intros [t Ht]. by exists "", t.
    + intros (a & b & Hab). destruct a as [|? a]; [|done].
      by exists b.
  - rewrite orb_true_iff, startswith_spec, IH. split.
    + intros [[t Ht]|(a & b & ->)].
      * by exists "", t.
      * by exists (c :: a), b.
    + intros (a & b & Hab). destruct a as [|c' a].
      * left. by exists b.
      * right. injection Hab as -> ->. eauto.
Qed.

Lemma endswith_spec p s : endswith p s = true ↔ is_suffix p s.
Proof.
  unfold is_suffix. induction s as [|c s IH]; simpl.
  - rewrite orb_false_r, bool_decide_eq_true. split.
    + intros <-. by exists "".
    + intros [a Ha]. destruct a as [|? a]; [done|done].
  - rewrite orb_true_iff, bool_decide_eq_true, IH. split.
    + intros [<-|[a ->]]; [by exists ""|]. by exists (c :: a).
    + intros [a Ha]. destruct a as [|c' a]; [by left|].
      right. injection Ha as -> ->. eauto.
Qed.

Lemma rstrip_with_idem sp s : rstrip_with sp (rstrip_with sp s) = rstrip_with sp s.
Proof.
  induction s as [|c s IH]; [done|]. simpl.
  destruct (rstrip_with sp s) as [|d r] eqn:Hr.
  - destruct (sp c) eqn:Hc; [done|]. simpl. by rewrite Hc.
  - simpl. simpl in IH. by rewrite IH.
Qed.

Lemma rstrip_strip s : rstrip (strip s) = strip s.
Proof. apply rstrip_with_idem. Qed.

Lemma lstrip_with_blank sp s : all_chars sp s = true → lstrip_with sp s = "".
Proof.
  induction s as [|c s IH]; [done|]. simpl.
  intros [-> ?]%andb_true_iff. auto.
Qed.

Lemma strip_blank s : all_chars isspace s = true → strip s = "".
Proof. intros H. unfold strip, lstrip. by rewrite (lstrip_with_blank _ _ H). Qed.

(** The built-ins on text outside ASCII. *)

Example upper_outside_ascii :
  upper "ınsert ſelect é ß" = "INSERT SELECT É SS".
Proof. vm_compute. reflexivity. Qed.

Example lower_final_sigma : lower "ΟΔΟΣ ΣΟΦΟΣ Time" = "οδος σοφος time".
Proof. vm_compute. reflexivity. Qed.

Example strip_unicode_spaces :
  strip ([160; 8195] ++ "SELECT 1;" ++ [133; 12288])%N = "SELECT 1;".
Proof. vm_compute. reflexivity. Qed.

Example len_counts_characters :
  len "Zoë" = 3%nat ∧ len "naë" = 3%nat ∧ ljust "Zoë" 4 = "Zoë ".
Proof. vm_compute. done. Qed.

Example float_reads_any_decimal_digit :
  float_literal "١٢٣" = true ∧ float_literal "４２" = true ∧
  float_literal ([160] ++ "42" ++ [160])%N = true ∧
  float_literal "1_000.5e-3" = true ∧ float_literal "Infinity" = true ∧
  float_literal "4é" = false ∧ float_literal "" = false.
Proof. vm_compute. done. Qed.

End strings.

(** ** The query guard *)
Section query_guard.
Import Py Spec SqlEngine.

Lemma check_keywords_None kws qu :
  check_keywords kws qu = None ↔ ∀ k, k ∈ kws → ¬ is_substring k qu.
Proof.
  induction kws as [|kw kws IH]; simpl.
  - split; [|done]. intros _ k Hk. by apply elem_of_nil in Hk.
  - destruct (contains kw qu) eqn:Hc.
    + split; [done|]. intros H. exfalso. apply (H kw); [by left|].
      by apply contains_spec.
    + rewrite IH. split.
      * intros H k [->|Hk]%elem_of_cons; [|by apply H].
        rewrite <-contains_spec. by rewrite Hc.
      * intros H k Hk. apply H. by right.
Qed.

Lemma check_keywords_Some kws qu r :
  check_keywords kws qu = Some r →
  ∃ before keyword after,
    kws = before ++ keyword :: after ∧
    is_substring keyword qu ∧
    (∀ k, k ∈ before → ¬ is_substring k qu) ∧
    r = (false, "Query contains dangerous keyword: " ++ keyword).
Proof.
  induction kws as [|kw kws IH]; simpl; [done|].
  destruct (contains kw qu) eqn:Hc.
  - intros [= <-]. exists [], kw, kws. split_and!; [done| |..|done].
    + by apply contains_spec.
    + intros k Hk. by apply elem_of_nil in Hk.
  - intros (before & keyword & after & -> & Hin & Hnot & ->)%IH.
    exists (kw :: before), keyword, after. split_and!; [done..| |done].
    intros k [->|Hk]%elem_of_cons; [|by apply Hnot].
    rewrite <-contains_spec. by rewrite Hc.
Qed.

(** C1. A query whose trimmed, upper-cased text contains a keyword of the
    deny list is rejected with the message naming the first keyword, in the
    order of the list, that occurs in it. Nothing is asked of the SELECT
    prefix or of the final semicolon: the keywords are looked at first. *)
Theorem dangerous_keyword_rejected (query : str) :
  (∃ k, k ∈ dangerous_keywords ∧ is_substring k (upper (strip query))) →
  ∃ before keyword after,
    dangerous_keywords = before ++ keyword :: after ∧
    is_substring keyword (upper (strip query)) ∧
    (∀ k, k ∈ before → ¬ is_substring k (upper (strip query))) ∧
    validate_sql_query query =
      (false, "Query contains dangerous keyword: " ++ keyword).
Proof.
  intros (k & Hk & Hsub). unfold validate_sql_query.
  destruct (check_keywords dangerous_keywords (upper (strip query)))
    as [r|] eqn:Hck.
  - destruct (check_keywords_Some _ _ _ Hck)
      as (before & keyword & after & ? & ? & ? & ->).
    by exists before, keyword, after.
  - exfalso. by apply (proj1 (check_keywords_None _ _) Hck k).
Qed.

Lemma dangerous_keyword_rejected_witness :
  ∃ before keyword after,
    dangerous_keywords = before ++ keyword :: after ∧
    is_substring keyword (upper (strip "select * from ınsert_log;")) ∧
    (∀ k, k ∈ before → ¬ is_substring k (upper (strip "select * from ınsert_log;"))) ∧
    validate_sql_query "select * from ınsert_log;" =
      (false, "Query contains dangerous keyword: " ++ keyword).
Proof.
  apply (dangerous_keyword_rejected "select * from ınsert_log;").
  exists "INSERT". split.
  - unfold dangerous_keywords. do 3 right. left.
  - exists "SELECT * FROM ", "_LOG;". vm_compute. reflexivity.
Defined.

(** C2. The verdict is "allowed" exactly when the trimmed, upper-cased text
    contains no keyword of the deny list and starts with SELECT and the
    trimmed text ends with a semicolon. With no keyword in it, a text that
    does not start with SELECT gets the "Only SELECT" message, and one that
    starts with SELECT but lacks the final semicolon gets the "semicolon"
    message. *)
Theorem validate_allowed_iff (query : str) :
  let q := strip query in
  let qu := upper q in
  let clean := ∀ k, k ∈ dangerous_keywords → ¬ is_substring k qu in
  (validate_sql_query query = (true, "Query validation passed") ↔
     clean ∧ is_prefix "SELECT" qu ∧ is_suffix ";" q) ∧
  (fst (validate_sql_query query) = true ↔
     clean ∧ is_prefix "SELECT" qu ∧ is_suffix ";" q) ∧
  (clean → ¬ is_prefix "SELECT" qu →
     validate_sql_query query =
       (false, "Only SELECT queries are allowed in learning mode")) ∧
  (clean → is_prefix "SELECT" qu → ¬ is_suffix ";" q →
     validate_sql_query query =
       (false, "Query should end with a semicolon (;)")).
Proof.
  intros q qu clean. unfold validate_sql_query. rewrite rstrip_strip.
  change (strip query) with q. change (upper q) with qu.
  destruct (check_keywords dangerous_keywords qu) as [r|] eqn:Hck.
  - destruct (check_keywords_Some _ _ _ Hck)
      as (before & keyword & after & Hkws & Hsub & _ & ->).
    assert (¬ clean) as Hdirty.
    { intros Hclean. apply (Hclean keyword); [|done].
      rewrite Hkws. apply elem_of_app. right. by left. }
    split_and!; simpl; try (split; [done|tauto]); tauto.
  - assert clean as Hclean by exact (proj1 (check_keywords_None _ _) Hck).
    assert (if startswith "SELECT" qu then is_prefix "SELECT" qu
            else ¬ is_prefix "SELECT" qu) as Hpre.
    { destruct (startswith "SELECT" qu) eqn:E.
      - by apply startswith_spec.
      - rewrite <-startswith_spec. by rewrite E. }
    assert (if endswith ";" q then is_suffix ";" q else ¬ is_suffix ";" q)
      as Hsuf.
    { destruct (endswith ";" q) eqn:E.
      - by apply endswith_spec.
      - rewrite <-endswith_spec. by rewrite E. }
    destruct (startswith "SELECT" qu), (endswith ";" q); simpl;
      split_and!; try split; try done; try tauto;
      try (intros [_ [Hp Hs]]; tauto); try (intros [= ]).
Qed.

Lemma validate_allowed_iff_witness :
  validate_sql_query "ſelect * from employees;" = (true, "Query validation passed") ∧
  validate_sql_query "SHOW TABLES;" =
    (false, "Only SELECT queries are allowed in learning mode") ∧
  validate_sql_query "SELECT * FROM employees" =
    (false, "Query should end with a semicolon (;)").
Proof.
  assert (∀ s, (∀ k, k ∈ dangerous_keywords → contains k s = false) →
               ∀ k, k ∈ dangerous_keywords → ¬ is_substring k s) as Hclean.
  { intros s H k Hk Hs%contains_spec. by rewrite (H k Hk) in Hs. }
  assert (∀ s, Forall (λ k, contains k s = false) dangerous_keywords →
               ∀ k, k ∈ dangerous_keywords → contains k s = false) as Hall.
  { intros s H. by apply Forall_forall. }
  split_and!.
  - apply (proj1 (validate_allowed_iff "ſelect * from employees;")).
    split_and!.
    + apply Hclean, Hall. repeat constructor.
    + by exists " * FROM EMPLOYEES;".
    + by exists "ſelect * from employees".
  - apply (proj1 (proj2 (proj2 (validate_allowed_iff "SHOW TABLES;")))).
    + apply Hclean, Hall. repeat constructor.
    + intros Hp%startswith_spec. discriminate Hp.
  - apply (proj2 (proj2 (proj2 (validate_allowed_iff "SELECT * FROM employees")))).
    + apply Hclean, Hall. repeat constructor.
    + by exists " * FROM EMPLOYEES".
    + intros Hp%endswith_spec. discriminate Hp.
Defined.

(** C9. Every input gets a verdict, and its message is one of the fixed
    ones: the function has no failing path. The empty text, a text of
    blanks only and a lone semicolon are turned down by the SELECT check. *)
Theorem validate_always_verdict (query : str) :
  (validate_sql_query query = (true, "Query validation passed") ∨
   validate_sql_query query =
     (false, "Only SELECT queries are allowed in learning mode") ∨
   validate_sql_query query =
     (false, "Query should end with a semicolon (;)") ∨
   ∃ k, k ∈ dangerous_keywords ∧
        validate_sql_query query =
          (false, "Query contains dangerous keyword: " ++ k)) ∧
  validate_sql_query "" =
    (false, "Only SELECT queries are allowed in learning mode") ∧
  validate_sql_query ";" =
    (false, "Only SELECT queries are allowed in learning mode") ∧
  (all_chars isspace query = true →
   validate_sql_query query =
     (false, "Only SELECT queries are allowed in learning mode")).
Proof.
  split_and!; [|done|done|].
  - unfold validate_sql_query.
    destruct (check_keywords _ _) as [r|] eqn:Hck.
    + destruct (check_keywords_Some _ _ _ Hck)
        as (before & keyword & after & Hkws & _ & _ & ->).
      do 3 right. exists keyword. split; [|done].
      rewrite Hkws. apply elem_of_app. right. by left.
    + destruct (startswith _ _); simpl; [|by auto].
      destruct (endswith _ _); simpl; auto.
  - intros Hb. unfold validate_sql_query. by rewrite (strip_blank _ Hb).
Qed.

Lemma validate_always_verdict_witness :
  validate_sql_query [9; 160; 12288]%N =
    (false, "Only SELECT queries are allowed in learning mode").
Proof.
  apply (proj2 (proj2 (proj2 (validate_always_verdict
           [9; 160; 12288]%N)))).
  reflexivity.
Defined.

End query_guard.

(** ** The result display *)
Section result_display.
Import Py Spec SqlTutor.

Lemma bind_Ok {A B} (c : M A) (k : A → M B) w a w' :
  c w = (Ok a, w') → (x <- c ;; k x) w = k a w'.
Proof. intros H. unfold bind. by rewrite H. Qed.

Lemma bind_insert_end {B} s (k : unit → M B) w :
  (x <- insert_end s ;; k x) w = k tt (w ++ [s]).
Proof. reflexivity. Qed.

Lemma bind_ret {A B} (a : A) (k : A → M B) w : (x <- ret a ;; k x) w = k a w.
Proof. reflexivity. Qed.

Lemma foldl_max_max_list x xs : foldl Nat.max x xs = max_list (x :: xs).
Proof.
  revert x. induction xs as [|y ys IH]; intros x; simpl.
  - lia.
  - rewrite IH. simpl. lia.
Qed.

Lemma max_list_greatest xs : xs ≠ [] → is_greatest (max_list xs) xs.
Proof.
  intros Hne. split.
  - induction xs as [|x xs IH]; [done|]. simpl.
    destruct xs as [|y ys].
    + simpl. rewrite Nat.max_0_r. by left.
    + destruct (Nat.max_spec x (max_list (y :: ys))) as [[_ ->]|[_ ->]].
      * right. by apply IH.
      * by left.
  - intros x Hx. by apply max_list_elem_of_le.
Qed.

Lemma sampled_lengths_nonempty r0 rest col : sampled_lengths (r0 :: rest) col ≠ [].
Proof. done. Qed.

Lemma py_max_sampled r0 rest col :
  py_max (sampled_lengths (r0 :: rest) col)
  = Ok (max_list (sampled_lengths (r0 :: rest) col)).
Proof.
  unfold sampled_lengths. simpl take. simpl map. unfold py_max.
  by rewrite foldl_max_max_list.
Qed.

(** The width loop, started from any dictionary [acc]: every column of the
    list ends up with its width, the other entries of [acc] are kept. *)
Lemma column_widths_from (r0 : row) (rest : list row) (columns : list str)
    (acc : gmap str nat) (w : textbox) :
  ∃ cw,
    for_fold columns acc (λ col_widths col,
      longest <- lift (py_max (map (λ r, len (py_str (get r col (VStr ""))))
                                   (take 10 (r0 :: rest)))) ;;
      let col_widths := <[col := Nat.max (len col) longest]> col_widths in
      w <- getitem col_widths col ;;
      ret (<[col := Nat.min w 20]> col_widths)) w = (Ok cw, w) ∧
    ∀ col, cw !! col = if decide (col ∈ columns)
                       then Some (width_of (r0 :: rest) col)
                       else acc !! col.
Proof.
  revert acc. induction columns as [|c columns IH]; intros acc.
  - exists acc. split; [done|]. intros col. by rewrite decide_False by set_solver.
  - cbn [for_fold].
    set (body := λ (col_widths : gmap str nat) (col : str), _) in *.
    assert (body acc c w
            = (Ok (<[c := width_of (r0 :: rest) c]> acc), w)) as Hbody.
    { unfold body.
      change (map _ (take 10 (r0 :: rest))) with (sampled_lengths (r0 :: rest) c).
      rewrite py_max_sampled. unfold lift, bind, getitem.
      rewrite lookup_insert_eq. unfold ret. rewrite insert_insert_eq.
      unfold width_of. by rewrite Nat.min_comm. }
    rewrite (bind_Ok _ _ _ _ _ Hbody).
    destruct (IH (<[c := width_of (r0 :: rest) c]> acc)) as (cw & Hrun & Hcw).
    exists cw. split; [done|]. intros col. rewrite Hcw.
    destruct (decide (col = c)) as [->|Hne].
    + rewrite (decide_True (P := c ∈ c :: columns)) by set_solver.
      destruct (decide (c ∈ columns)); [done|]. by rewrite lookup_insert_eq.
    + rewrite lookup_insert_ne by done.
      destruct (decide (col ∈ columns)).
      * rewrite decide_True; [done|]. by right.
      * rewrite decide_False; [done|]. by intros [?|?]%elem_of_cons.
Qed.

Lemma column_widths_run r0 rest columns w :
  ∃ cw, column_widths (r0 :: rest) columns w = (Ok cw, w) ∧
        ∀ col, col ∈ columns → cw !! col = Some (width_of (r0 :: rest) col).
Proof.
  destruct (column_widths_from r0 rest columns ∅ w) as (cw & Hrun & Hcw).
  exists cw. split; [exact Hrun|]. intros col Hcol.
  by rewrite Hcw, decide_True.
Qed.

(** A generator that looks every column up in the width dictionary. *)
Lemma gen_cells (cw : gmap str nat) (W : str → nat)
    (f : str → nat → str) columns w :
  (∀ col, col ∈ columns → cw !! col = Some (W col)) →
  gen (λ col, n <- getitem cw col ;; ret (f col n)) columns w
  = (Ok (map (λ col, f col (W col)) columns), w).
Proof.
  induction columns as [|c columns IH]; intros Hcw; [done|].
  cbn [gen].
  assert ((n <- getitem cw c ;; ret (f c n)) w = (Ok (f c (W c)), w)) as Hc.
  { unfold bind, getitem. rewrite (Hcw c) by set_solver. done. }
  rewrite (bind_Ok _ _ _ _ _ Hc).
  rewrite (bind_Ok _ _ _ _ _ (IH ltac:(intros; apply Hcw; set_solver))).
  done.
Qed.

Lemma header_text_run cw W columns w :
  (∀ col, col ∈ columns → cw !! col = Some (W col)) →
  header_text cw columns w = (Ok (header_line W columns), w).
Proof.
  intros Hcw. unfold header_text.
  by rewrite (bind_Ok _ _ _ _ _ (gen_cells cw W (λ col n, ljust col n) columns w Hcw)).
Qed.

Lemma row_text_run cw W columns r w :
  (∀ col, col ∈ columns → cw !! col = Some (W col)) →
  row_text cw columns r w = (Ok (data_line W columns r), w).
Proof.
  intros Hcw. unfold row_text.
  by rewrite (bind_Ok _ _ _ _ _
    (gen_cells cw W (λ col n, ljust (py_str (get r col (VStr ""))) n) columns w Hcw)).
Qed.

Lemma data_rows_run cw W columns rows w :
  (∀ col, col ∈ columns → cw !! col = Some (W col)) →
  for_each rows (λ r, text <- row_text cw columns r ;; insert_end (text ++ nl)) w
  = (Ok tt, w ++ map (λ r, data_line W columns r ++ nl) rows).
Proof.
  intros Hcw. revert w. induction rows as [|r rows IH]; intros w.
  - simpl. by rewrite app_nil_r.
  - cbn [for_each]. unfold bind at 1.
    rewrite (bind_Ok _ _ _ _ _ (row_text_run cw W columns r w Hcw)).
    unfold insert_end at 1. rewrite IH. simpl. by rewrite <-app_assoc.
Qed.

(** [float()] raises nothing but what the analysis catches. *)
Lemma py_float_cases v :
  py_float v = Ok tt ∨ py_float v = Raise ValueError ∨ py_float v = Raise TypeError.
Proof.
  destruct v; simpl; try destruct (float_literal _);
    try destruct (float_ascii _); auto.
Qed.

Lemma numeric_columns_from r0 rest columns acc w :
  for_fold columns acc (λ numeric_cols col,
    try_except
      (r <- first (r0 :: rest) ;;
       lift (py_float (get r col (VStr ""))) ;;
       ret (numeric_cols ++ [col]))
      (ret numeric_cols)) w
  = (Ok (acc ++ numeric_of r0 columns), w).
Proof.
  revert acc. induction columns as [|c columns IH]; intros acc.
  - simpl. by rewrite app_nil_r.
  - cbn [for_fold].
    set (body := λ (numeric_cols : list str) (col : str), _) in *.
    assert (body acc c w
            = (Ok (if float_ok (get r0 c (VStr "")) then acc ++ [c] else acc), w))
      as Hbody.
    { unfold body, try_except, bind, first, ret, lift, float_ok.
      destruct (py_float_cases (get r0 c (VStr ""))) as [->|[->| ->]]; done. }
    rewrite (bind_Ok _ _ _ _ _ Hbody), IH. do 2 f_equal.
    unfold numeric_of. rewrite filter_cons.
    destruct (float_ok (get r0 c (VStr ""))) eqn:Hf.
    + rewrite decide_True by done. by rewrite <-app_assoc.
    + by rewrite decide_False by done.
Qed.

Lemma numeric_columns_run r0 rest columns w :
  numeric_columns (r0 :: rest) columns w = (Ok (numeric_of r0 columns), w).
Proof. apply (numeric_columns_from r0 rest columns []). Qed.

Lemma add_result_analysis_run r0 rest columns w :
  add_result_analysis (r0 :: rest) columns w
  = (Ok tt, w ++ analysis r0 (r0 :: rest) columns).
Proof.
  unfold add_result_analysis. rewrite !bind_insert_end.
  rewrite (bind_Ok _ _ _ _ _ (numeric_columns_run r0 rest columns _)).
  unfold analysis, statistics, numeric_part, date_part, next_steps.
  destruct (numeric_of r0 columns) as [|n ns];
    destruct (date_columns columns) as [|d ds];
    destruct (Nat.ltb 1 (length (r0 :: rest)));
    cbv [bind insert_end ret]; rewrite <-?app_assoc; reflexivity.
Qed.

(** The method and the closed description agree. *)
Lemma display_query_results_run query r0 rest w0 :
  display_query_results query (r0 :: rest) w0 = (Ok tt, report query r0 rest).
Proof.
  unfold display_query_results.
  unfold bind at 1. unfold delete_all at 1.
  rewrite !bind_insert_end. unfold first. rewrite bind_ret.
  destruct (column_widths_run r0 rest (keys r0)
              ([] ++ [echo query] ++ [count_line (length (r0 :: rest))]))
    as (cw & Hcw & Hlk).
  rewrite (bind_Ok _ _ _ _ _ Hcw).
  rewrite (bind_Ok _ _ _ _ _ (header_text_run cw _ _ _ Hlk)).
  rewrite !bind_insert_end.
  rewrite (bind_Ok _ _ _ _ _ (data_rows_run cw _ _ _ _ Hlk)).
  assert (∀ w, (if Nat.ltb 100 (length (r0 :: rest))
                then insert_end (more_rows_line (length (r0 :: rest)))
                else ret tt) w = (Ok tt, w ++ more_rows (length (r0 :: rest))))
    as Hmore.
  { intros w. unfold more_rows. destruct (Nat.ltb _ _); [done|].
    unfold ret. by rewrite app_nil_r. }
  rewrite (bind_Ok _ _ _ _ _ (Hmore _)).
  rewrite add_result_analysis_run. unfold report, table, data_lines.
  rewrite <-!app_assoc. reflexivity.
Qed.

Lemma gen_ext {A B} (f g : A → M B) xs w :
  (∀ x w', f x w' = g x w') → gen f xs w = gen g xs w.
Proof.
  intros Hfg. revert w. induction xs as [|x xs IH]; intros w; [done|].
  cbn [gen]. unfold bind. rewrite Hfg. destruct (g x w) as [[y|e] w']; [|done].
  by rewrite IH.
Qed.

Lemma get_missing_key (r : row) col c :
  col ∉ keys r → get (r ++ [(col, VStr "")]) c (VStr "") = get r c (VStr "").
Proof.
  unfold keys. induction r as [|[k v] r IH]; intros Hcol; simpl.
  - by destruct (bool_decide (col = c)).
  - destruct (bool_decide (k = c)); [done|]. apply IH.
    intros Hin. apply Hcol. simpl. by right.
Qed.

Lemma get_absent (r : row) col : col ∉ keys r → get r col (VStr "") = VStr "".
Proof.
  unfold keys. induction r as [|[k v] r IH]; intros Hcol; simpl; [done|].
  rewrite bool_decide_eq_false_2.
  - apply IH. intros Hin. apply Hcol. simpl. by right.
  - intros ->. apply Hcol. simpl. by left.
Qed.

Lemma display_empty_run query w0 :
  display_query_results query [] w0 = (Ok tt, empty_report query).
Proof. reflexivity. Qed.

(** C3. The display returns normally for every query text and every list
    of rows, the empty list, rows that lack keys, rows with keys of their
    own and first-row values that [float()] refuses included. A row that
    lacks a column is drawn exactly as if it held the empty str there,
    so its cell starts with the empty text. *)
Theorem display_never_raises (query : str) (results : list row) (w0 : textbox) :
  (∃ w, display_query_results query results w0 = (Ok tt, w)) ∧
  (∀ cw columns (r : row) col w,
     col ∉ keys r →
     row_text cw columns r w = row_text cw columns (r ++ [(col, VStr "")]) w) ∧
  (∀ (r : row) col n, col ∉ keys r → ljust (cell_text r col) n = times " " n).
Proof.
  split_and!.
  - destruct results as [|r0 rest].
    + exists (empty_report query). apply display_empty_run.
    + exists (report query r0 rest). apply display_query_results_run.
  - intros cw columns r col w Hcol. unfold row_text, bind.
    rewrite (gen_ext _
      (λ c, n <- getitem cw c ;;
            ret (ljust (py_str (get (r ++ [(col, VStr "")]) c (VStr ""))) n)));
      [done|].
    intros c w'. by rewrite (get_missing_key r col c Hcol).
  - intros r col n Hcol. unfold cell_text. rewrite (get_absent r col Hcol).
    unfold ljust. simpl. by rewrite Nat.sub_0_r.
Qed.

Lemma display_never_raises_witness :
  (∃ w, display_query_results "SELECT * FROM t;"
          [[("id", VNone); ("note", VStr "abc"); ("raw", VBytes "1e")];
           [];
           [("extra", VInt (Int64 7 eq_refl))]] ["stale"] = (Ok tt, w)) ∧
  row_text {[ "id" := 2%nat; "name" := 5%nat ]} ["id"; "name"]
           [("id", VStr "7")] []
  = (Ok "7  |      ", []).
Proof.
  split.
  - apply (proj1 (display_never_raises "SELECT * FROM t;"
             [[("id", VNone); ("note", VStr "abc"); ("raw", VBytes "1e")];
              [];
              [("extra", VInt (Int64 7 eq_refl))]] ["stale"])).
  - rewrite (proj1 (proj2 (display_never_raises "" [] []))
               {[ "id" := 2%nat; "name" := 5%nat ]} ["id"; "name"]
               [("id", VStr "7")] "name" []).
    + reflexivity.
    + unfold keys. simpl. intros [=]%list_elem_of_singleton.
Defined.

(** C4, as the code has it. For an empty result set the widget holds the
    echoed query, the line "Results: No rows returned.", the line
    "This might mean:" and the three fixed hints, and nothing more: no
    header, no data line and no analysis section. The words
    "0 row(s) returned" are not printed. *)
Theorem empty_result_report (query : str) (w0 : textbox) :
  display_query_results query [] w0 =
    (Ok tt,
     ["📝 Executed Query:" ++ nl ++ query ++ nl ++ nl;
      "📊 Results: No rows returned." ++ nl ++ nl;
      "💡 This might mean:" ++ nl;
      "   • The query conditions didn't match any data" ++ nl;
      "   • The table is empty" ++ nl;
      "   • There might be a logical error in the query" ++ nl]).
Proof. reflexivity. Qed.

(** C4, as stated, fails: the report of an empty result set does not
    contain the words "0 row(s) returned". *)
Lemma empty_result_no_row_count :
  contains "0 row(s) returned"
    (shown (snd (display_query_results "SELECT * FROM employees WHERE salary < 0;" [] [])))
  = false.
Proof. vm_compute. reflexivity. Qed.

(** C5. For a result set of [N] rows, [N] at least one, the four opening
    pieces (query, row count, header, rule) are followed by one data line
    per row of the first hundred, in the order of the rows, that is by
    [min 100 N] lines. When [N] exceeds 100 the next piece is a blank line
    and "... and <N-100> more rows"; otherwise the analysis section comes
    right after the data lines. *)
Theorem data_lines_capped (query : str) (r0 : row) (rest : list row)
    (w0 : textbox) :
  let results := r0 :: rest in
  let N := length results in
  let W := width_of results in
  ∃ lines more,
    display_query_results query results w0 =
      (Ok tt,
       [echo query; count_line N;
        header_line W (keys r0) ++ nl;
        times "-" (len (header_line W (keys r0))) ++ nl]
       ++ lines ++ more ++ analysis r0 results (keys r0)) ∧
    lines = map (λ r, data_line W (keys r0) r ++ nl) (take 100 results) ∧
    length lines = Nat.min 100 N ∧
    (100 < N →
     more = [nl ++ "... and " ++ str_of_nat (N - 100) ++ " more rows" ++ nl]) ∧
    (N ≤ 100 → more = []).
Proof.
  intros results N W.
  exists (data_lines W (keys r0) results), (more_rows N).
  split_and!.
  - unfold results. rewrite display_query_results_run. unfold report, table.
    fold results. fold N. fold W. by rewrite <-!app_assoc.
  - done.
  - unfold data_lines. rewrite length_map, length_take. fold N. lia.
  - intros HN. unfold more_rows.
    by rewrite (proj2 (Nat.ltb_lt 100 N) HN).
  - intros HN. unfold more_rows.
    by rewrite (proj2 (Nat.ltb_ge 100 N) HN).
Qed.

(** One hundred and fifty rows: a hundred data lines, then the line that
    counts the fifty left out. *)
Lemma data_lines_capped_witness :
  ∃ lines tail,
    snd (display_query_results "SELECT name FROM t;"
           (replicate 150 [("name", VStr "Zoë")]) []) =
      [echo "SELECT name FROM t;"; count_line 150;
       "name" ++ nl; "----" ++ nl]
      ++ lines
      ++ [nl ++ "... and 50 more rows" ++ nl]
      ++ tail ∧
    lines = replicate 100 ("Zoë " ++ nl).
Proof.
  destruct (data_lines_capped "SELECT name FROM t;" [("name", VStr "Zoë")]
              (replicate 149 [("name", VStr "Zoë")]) [])
    as (lines & more & Hrun & Hlines & _ & Hmore & _).
  exists lines, (analysis [("name", VStr "Zoë")]
                   (replicate 150 [("name", VStr "Zoë")]) ["name"]).
  split.
  - apply (f_equal snd) in Hrun. etrans; [exact Hrun|].
    cbn [snd]. rewrite Hmore.
    + reflexivity.
    + apply Nat.ltb_lt. vm_compute. reflexivity.
  - rewrite Hlines. vm_compute. reflexivity.
Defined.

(** C6. The width loop gives every column the width
    [min 20 (max (len name) longest)], where [longest] is the greatest
    length of the column's cell texts over the first ten rows (all rows
    when there are fewer). Any list of rows with the same first ten rows
    gets the same widths. *)
Theorem column_width_formula (r0 : row) (rest : list row)
    (columns : list str) (w : textbox) :
  ∃ cw,
    column_widths (r0 :: rest) columns w = (Ok cw, w) ∧
    (∀ col, col ∈ columns →
       ∃ longest,
         is_greatest longest (sampled_lengths (r0 :: rest) col) ∧
         cw !! col = Some (Nat.min 20 (Nat.max (len col) longest))) ∧
    (∀ results',
       take 10 results' = take 10 (r0 :: rest) →
       column_widths results' columns w = (Ok cw, w)).
Proof.
  destruct (column_widths_run r0 rest columns w) as (cw & Hrun & Hcw).
  exists cw. split_and!; [done| |].
  - intros col Hcol. exists (max_list (sampled_lengths (r0 :: rest) col)).
    split; [by apply max_list_greatest|]. by apply Hcw.
  - intros results' Htake. rewrite <-Hrun. unfold column_widths.
    by rewrite Htake.
Qed.

(** Twelve rows whose last two hold a long value: the width stays at that
    of the first ten. *)
Lemma column_width_formula_witness :
  ∃ cw,
    column_widths (replicate 10 [("naë", VStr "Zoë")]
                   ++ replicate 2 [("naë", VStr "abcdefghijkl")]) ["naë"] []
      = (Ok cw, []) ∧
    cw !! "naë" = Some 3%nat.
Proof.
  destruct (column_width_formula [("naë", VStr "Zoë")]
              (replicate 9 [("naë", VStr "Zoë")]) ["naë"] [])
    as (cw & _ & _ & Hsame).
  exists cw. split.
  - apply Hsame. reflexivity.
  - specialize (Hsame (replicate 10 [("naë", VStr "Zoë")]) eq_refl).
    vm_compute in Hsame. injection Hsame as <-. vm_compute. reflexivity.
Defined.

Lemma len_ljust s n : len (ljust s n) = Nat.max (len s) n.
Proof. unfold ljust. rewrite len_app, len_times. lia. Qed.

Lemma len_join_eq sep (xs ys : list str) :
  Forall2 (λ x y, len x = len y) xs ys → len (join sep xs) = len (join sep ys).
Proof.
  induction 1 as [|x y xs ys Hxy Hrest IH]; [done|].
  destruct Hrest as [|x' y' xs ys Hxy' Hrest]; [done|].
  change (len (x ++ sep ++ join sep (x' :: xs))
          = len (y ++ sep ++ join sep (y' :: ys))).
  rewrite !len_app. by rewrite Hxy, IH.
Qed.

(** C7, as the code has it. The header and every data line are the cells
    of the columns joined by " | ". A cell is its text followed by blanks
    up to the column's width; a text longer than the width is kept whole,
    so the cell is [max (len text) width] characters long. The rule under
    the header is one '-' per character of the header. A data line is as
    long as the header when every column name and every cell text of the
    row fits the column's width. *)
Theorem cells_padded_to_width (query : str) (r0 : row) (rest : list row)
    (w0 : textbox) :
  let results := r0 :: rest in
  let columns := keys r0 in
  let W := width_of results in
  let header := join " | " (map (λ col, ljust col (W col)) columns) in
  let line := λ r, join " | " (map (λ col, ljust (cell_text r col) (W col)) columns) in
  (∃ tail,
     display_query_results query results w0 =
       (Ok tt,
        [echo query; count_line (length results);
         header ++ nl; times "-" (len header) ++ nl]
        ++ map (λ r, line r ++ nl) (take 100 results) ++ tail)) ∧
  (∀ text n, ljust text n = text ++ times " " (n - len text) ∧
             len (ljust text n) = Nat.max (len text) n) ∧
  (∀ r, (∀ col, col ∈ columns →
                len col ≤ W col ∧ len (cell_text r col) ≤ W col) →
        len (line r) = len header).
Proof.
  intros results columns W header line. split_and!.
  - exists (more_rows (length results) ++ analysis r0 results columns).
    unfold results. rewrite display_query_results_run.
    unfold report, table, data_lines. rewrite <-?app_assoc; reflexivity.
  - intros text n. split; [done|apply len_ljust].
  - intros r Hfit. apply len_join_eq. apply Forall2_fmap.
    apply Forall_Forall2_diag, Forall_forall. intros col Hcol.
    destruct (Hfit col Hcol) as [Hname Hcell]. rewrite !len_ljust. lia.
Qed.

Lemma cells_padded_to_width_witness :
  len (join " | " (map (λ col, ljust (cell_text [("id", VStr "7")] col)
                                 (width_of [[("id", VStr "7"); ("name", VStr "Zoë")]] col))
                       ["id"; "name"]))
  = len (join " | " (map (λ col, ljust col
                                   (width_of [[("id", VStr "7"); ("name", VStr "Zoë")]] col))
                         ["id"; "name"])).
Proof.
  apply (proj2 (proj2 (cells_padded_to_width ""
           [("id", VStr "7"); ("name", VStr "Zoë")] [] []))
           [("id", VStr "7")]).
  intros col Hcol. apply list_elem_of_In in Hcol.
  destruct Hcol as [<-|[<-|[]]]; vm_compute; split; lia.
Defined.

(** C7, as stated, fails: a value of 37 characters in a column of width 20
    is printed whole, and its line is longer than the header. *)
Lemma long_cell_not_truncated :
  snd (display_query_results "SELECT name FROM employees;"
         [[("name", VStr "Bob the very long named person indeed")]] [])
    !! 2%nat = Some ("name                " ++ nl) ∧
  snd (display_query_results "SELECT name FROM employees;"
         [[("name", VStr "Bob the very long named person indeed")]] [])
    !! 4%nat = Some ("Bob the very long named person indeed" ++ nl) ∧
  width_of [[("name", VStr "Bob the very long named person indeed")]] "name"
    = 20%nat ∧
  len "Bob the very long named person indeed" = 37%nat ∧
  len "Bob the very long named person indeed" ≠ len "name                ".
Proof. vm_compute. split_and!; done. Qed.

(** C8. The numeric columns named in the report are the columns of the
    first row whose first-row value [float()] accepts, in column order;
    they are listed when there is at least one. Later rows play no part:
    "42" in the first row lists the column, "abc" does not. *)
Theorem numeric_columns_first_row (query : str) (r0 : row) (rest : list row)
    (w0 : textbox) :
  let results := r0 :: rest in
  (∃ numeric_cols,
     display_query_results query results w0 =
       (Ok tt,
        [echo query; count_line (length results)]
        ++ table results (keys r0)
        ++ statistics results (keys r0)
        ++ ["💡 Learning Notes:" ++ nl]
        ++ match numeric_cols with
           | [] => []
           | _ :: _ =>
               ["• Numeric columns detected: " ++ join ", " numeric_cols ++ nl;
                "  Try using functions like SUM(), AVG(), MIN(), MAX() on these!" ++ nl]
           end
        ++ date_part (date_columns (keys r0))
        ++ next_steps (length results)) ∧
     numeric_columns results (keys r0) [] = (Ok numeric_cols, []) ∧
     numeric_cols `sublist_of` keys r0 ∧
     ∀ col, col ∈ numeric_cols ↔
            col ∈ keys r0 ∧ parses_as_float (get r0 col (VStr ""))) ∧
  parses_as_float (VStr "42") ∧ ¬ parses_as_float (VStr "abc").
Proof.
  intros results. split_and!; [|done|done].
  exists (numeric_of r0 (keys r0)). split_and!.
  - unfold results. rewrite display_query_results_run.
    unfold report, analysis. rewrite <-?app_assoc; reflexivity.
  - apply numeric_columns_run.
  - apply sublist_filter.
  - intros col. unfold numeric_of, parses_as_float, float_ok.
    rewrite list_elem_of_filter.
    destruct (py_float (get r0 col (VStr ""))) as [[]|e];
      split; intros [? ?]; by try split.
Qed.

Lemma numeric_columns_first_row_witness :
  numeric_columns [[("a", VStr "١٢٣"); ("b", VStr "abc")];
                   [("a", VStr "abc"); ("b", VStr "42")]] ["a"; "b"] []
  = (Ok ["a"], []).
Proof.
  destruct (proj1 (numeric_columns_first_row ""
              [("a", VStr "١٢٣"); ("b", VStr "abc")]
              [[("a", VStr "abc"); ("b", VStr "42")]] []))
    as (numeric_cols & _ & Hrun & _ & _).
  etrans; [exact Hrun|]. vm_compute in Hrun. by injection Hrun as <-.
Defined.

(** C10. A column of the first row whose name holds "date" or "time", in
    any letter case, and whose first-row value [float()] accepts is named
    in the numeric listing and in the date listing of the same report. *)
Theorem numeric_and_date_listed (query : str) (r0 : row) (rest : list row)
    (w0 : textbox) (col : str) :
  col ∈ keys r0 →
  is_substring "date" (lower col) ∨ is_substring "time" (lower col) →
  parses_as_float (get r0 col (VStr "")) →
  ∃ pre numeric_cols date_cols post,
    display_query_results query (r0 :: rest) w0 =
      (Ok tt,
       pre
       ++ ["• Numeric columns detected: " ++ join ", " numeric_cols ++ nl;
           "  Try using functions like SUM(), AVG(), MIN(), MAX() on these!" ++ nl]
       ++ ["• Date columns: " ++ join ", " date_cols ++ nl;
           "  Try using date functions and ORDER BY for time-based analysis!" ++ nl]
       ++ post) ∧
    col ∈ numeric_cols ∧ col ∈ date_cols.
Proof.
  intros Hcol Hname Hfloat.
  assert (col ∈ numeric_of r0 (keys r0)) as Hnum.
  { unfold numeric_of. apply list_elem_of_filter. split; [|done].
    unfold float_ok. unfold parses_as_float in Hfloat. by rewrite Hfloat. }
  assert (col ∈ date_columns (keys r0)) as Hdate.
  { unfold date_columns. apply list_elem_of_filter. split; [|done].
    apply orb_true_iff. rewrite !contains_spec. done. }
  exists ([echo query; count_line (length (r0 :: rest))]
          ++ table (r0 :: rest) (keys r0)
          ++ statistics (r0 :: rest) (keys r0)
          ++ ["💡 Learning Notes:" ++ nl]),
    (numeric_of r0 (keys r0)), (date_columns (keys r0)),
    (next_steps (length (r0 :: rest))).
  split_and!; [|done|done].
  rewrite display_query_results_run. unfold report, analysis.
  destruct (numeric_of r0 (keys r0)) as [|n ns]; [by apply elem_of_nil in Hnum|].
  destruct (date_columns (keys r0)) as [|d ds]; [by apply elem_of_nil in Hdate|].
  unfold numeric_part, date_part, numeric_listing, date_listing.
  rewrite <-?app_assoc; reflexivity.
Qed.

Lemma numeric_and_date_listed_witness :
  ∃ pre numeric_cols date_cols post,
    display_query_results "SELECT * FROM log;"
      [[("id", VStr "x"); ("Order_Time", VStr "４２")]] [] =
      (Ok tt,
       pre
       ++ ["• Numeric columns detected: " ++ join ", " numeric_cols ++ nl;
           "  Try using functions like SUM(), AVG(), MIN(), MAX() on these!" ++ nl]
       ++ ["• Date columns: " ++ join ", " date_cols ++ nl;
           "  Try using date functions and ORDER BY for time-based analysis!" ++ nl]
       ++ post) ∧
    "Order_Time" ∈ numeric_cols ∧ "Order_Time" ∈ date_cols.
Proof.
  apply (numeric_and_date_listed "SELECT * FROM log;"
           [("id", VStr "x"); ("Order_Time", VStr "４２")] [] []
           "Order_Time").
  - unfold keys. simpl. right. left.
  - right. exists "order_", "". reflexivity.
  - reflexivity.
Defined.

End result_display.

(** ** More on the query guard *)
Section query_guard_more.
Import Py Spec SqlEngine.
Local Open Scope N_scope.

Lemma upper_app s t : upper (s ++ t) = upper s ++ upper t.
Proof.
  induction s as [|c s IH]; [done|].
  rewrite str_app_cons. cbn [upper]. by rewrite IH, str_app_assoc.
Qed.

Lemma lookup_sorted_elem {A} c (table : list (N * A)) v :
  lookup_sorted c table = Some v → (c, v) ∈ table.
Proof.
  induction table as [|[k x] table IH]; [done|]. cbn [lookup_sorted].
  destruct (N.eqb_spec c k) as [->|_].
  - intros [= ->]. by left.
  - destruct (c <? k); [done|]. intros H. right. by apply IH.
Qed.

Lemma all_chars_weaken (P Q : N → bool) s :
  (∀ c, P c = true → Q c = true) →
  all_chars P s = true → all_chars Q s = true.
Proof.
  intros HPQ. induction s as [|c s IH]; [done|]. cbn [all_chars].
  intros [Hc Hs]%andb_true_iff. by rewrite (HPQ c Hc), IH.
Qed.

(** The upper-case forms listed in the table are plain. *)
Lemma upper_table_plain c v : (c, v) ∈ Unicode.upper_table → plain v = true.
Proof.
  assert (forallb (λ e, plain e.2) Unicode.upper_table = true) as Hall
    by (vm_compute; reflexivity).
  intros Hin. apply list_elem_of_In in Hin.
  exact (proj1 (forallb_forall _ _) Hall _ Hin).
Qed.

(** A space character is its own upper-case form. *)
Lemma upper_char_space c : isspace c = true → upper_char c = [c].
Proof.
  assert (forallb (λ c, bool_decide (upper_char c = [c])) Unicode.whitespace
          = true) as Hall by (vm_compute; reflexivity).
  intros Hc. apply bool_decide_eq_true in Hc. apply list_elem_of_In in Hc.
  exact (proj1 (bool_decide_eq_true _)
           (proj1 (forallb_forall _ _) Hall _ Hc)).
Qed.

Lemma not_space_upper_ascii c :
  between 97 122 c = true → isspace (c - 32) = false.
Proof.
  unfold between. intros [Hlo Hhi]%andb_true_iff.
  apply N.leb_le in Hlo. apply N.leb_le in Hhi.
  apply bool_decide_eq_false. unfold Unicode.whitespace. intros Hin.
  repeat (apply elem_of_cons in Hin as [Hin|Hin]; [lia|]).
  by apply elem_of_nil in Hin.
Qed.

(** The upper-case form of any other character is not empty and holds no
    space character. *)
Lemma upper_char_solid c :
  isspace c = false →
  ∃ d v, upper_char c = d :: v ∧
         all_chars (λ x, negb (isspace x)) (d :: v) = true.
Proof.
  intros Hc. unfold upper_char.
  destruct (between 97 122 c) eqn:Hb.
  { exists (c - 32), []. split; [done|].
    cbn [all_chars]. by rewrite (not_space_upper_ascii c Hb). }
  destruct (c <? 128).
  { exists c, []. split; [done|]. cbn [all_chars]. by rewrite Hc. }
  destruct (lookup_sorted c Unicode.upper_table) as [v|] eqn:Hv; simpl.
  - apply lookup_sorted_elem, upper_table_plain in Hv.
    unfold plain in Hv. apply andb_true_iff in Hv as [Hne Hall].
    destruct v as [|d v]; [discriminate Hne|]. exists d, v. split; [reflexivity|].
    change (all_chars (λ x, negb (isspace x)) (d :: v) = true).
    revert Hall. apply all_chars_weaken. by intros x [-> _]%andb_true_iff.
  - exists c, []. split; [done|]. cbn [all_chars]. by rewrite Hc.
Qed.

Lemma upper_char_not_nil c : upper_char c ≠ [].
Proof.
  destruct (isspace c) eqn:Hc.
  - by rewrite (upper_char_space c Hc).
  - by destruct (upper_char_solid c Hc) as (d & v & -> & _).
Qed.

Lemma upper_nil_inv s : upper s = "" → s = "".
Proof.
  destruct s as [|c s]; [done|]. cbn [upper].
  intros [H _]%app_eq_nil. by apply upper_char_not_nil in H.
Qed.

Lemma lstrip_solid v t :
  v ≠ [] → all_chars (λ x, negb (isspace x)) v = true →
  lstrip (v ++ t) = v ++ t.
Proof.
  destruct v as [|d v]; [done|]. intros _ H. cbn [all_chars] in H.
  apply andb_true_iff in H as [Hd _]. unfold lstrip.
  rewrite str_app_cons. cbn [lstrip_with]. by destruct (isspace d).
Qed.

Lemma lstrip_upper s : lstrip (upper s) = upper (lstrip s).
Proof.
  induction s as [|c s IH]; [done|]. cbn [upper].
  unfold lstrip at 2. cbn [lstrip_with].
  destruct (isspace c) eqn:Hc.
  - rewrite (upper_char_space c Hc). unfold lstrip at 1.
    rewrite str_app_cons. cbn [lstrip_with]. rewrite Hc. exact IH.
  - destruct (upper_char_solid c Hc) as (d & v & Hup & Hsolid).
    cbn [upper]. rewrite Hup. by apply lstrip_solid.
Qed.

Lemma rstrip_app s t :
  rstrip (s ++ t) = match rstrip t with
                    | [] => rstrip s
                    | _ :: _ => s ++ rstrip t
                    end.
Proof.
  unfold rstrip. induction s as [|c s IH].
  - rewrite str_app_nil_l. by destruct (rstrip_with isspace t).
  - rewrite str_app_cons. cbn [rstrip_with]. rewrite IH.
    destruct (rstrip_with isspace t) as [|d r]; [done|].
    by destruct s.
Qed.

Lemma rstrip_solid_id v :
  all_chars (λ x, negb (isspace x)) v = true → rstrip v = v.
Proof.
  unfold rstrip. induction v as [|d v IH]; [done|]. intros H.
  cbn [all_chars] in H. apply andb_true_iff in H as [Hd Hv].
  cbn [rstrip_with]. rewrite (IH Hv). destruct v; [|done].
  by destruct (isspace d).
Qed.

Lemma rstrip_cons c s :
  rstrip (c :: s) = match rstrip s with
                    | [] => if isspace c then [] else [c]
                    | d :: r => c :: d :: r
                    end.
Proof. reflexivity. Qed.

Lemma rstrip_upper s : rstrip (upper s) = upper (rstrip s).
Proof.
  induction s as [|c s IH]; [done|]. cbn [upper].
  rewrite rstrip_app, IH, rstrip_cons.
  destruct (rstrip s) as [|d r] eqn:Hr.
  - cbn [upper]. destruct (isspace c) eqn:Hc.
    + rewrite (upper_char_space c Hc), rstrip_cons. by rewrite Hc.
    + destruct (upper_char_solid c Hc) as (x & v & Hup & Hsolid).
      cbn [upper]. rewrite str_app_nil_r, Hup. by apply rstrip_solid_id.
  - destruct (upper (d :: r)) as [|x u] eqn:Hu.
    + by apply upper_nil_inv in Hu.
    + cbn [upper]. cbn [upper] in Hu. by rewrite Hu.
Qed.

Lemma strip_upper s : strip (upper s) = upper (strip s).
Proof. unfold strip. by rewrite lstrip_upper, rstrip_upper. Qed.

Lemma endswith_last (x : N) s : endswith [x] s = true ↔ last s = Some x.
Proof.
  rewrite endswith_spec. unfold is_suffix. split.
  - intros [a ->]. by rewrite last_snoc.
  - intros H. destruct s as [|c s _] using rev_ind; [done|].
    rewrite last_snoc in H. injection H as ->. by exists s.
Qed.

(** Only a semicolon has an upper-case form that ends with a semicolon. *)
Lemma upper_char_semicolon c : last (upper_char c) = Some 59 ↔ c = 59.
Proof.
  split; [|by intros ->]. unfold upper_char.
  destruct (between 97 122 c) eqn:Hb.
  { unfold between in Hb. apply andb_true_iff in Hb as [Hlo Hhi].
    apply N.leb_le in Hlo. apply N.leb_le in Hhi.
    cbn [last]. intros [= H]. lia. }
  destruct (N.ltb_spec c 128) as [_|Hc]; [by intros [= ->]|].
  destruct (lookup_sorted c Unicode.upper_table) as [v|] eqn:Hv; simpl.
  - apply lookup_sorted_elem, upper_table_plain in Hv.
    unfold plain in Hv. apply andb_true_iff in Hv as [_ Hall].
    intros Hlast. exfalso. clear Hc.
    induction v as [|x v IH]; [done|]. cbn [all_chars] in Hall.
    apply andb_true_iff in Hall as [Hx Hv].
    destruct v as [|y v].
    + injection Hlast as ->. by rewrite andb_false_r in Hx.
    + by apply IH.
  - by intros [= ->].
Qed.

Lemma last_upper s : last (upper s) = Some 59 ↔ last s = Some 59.
Proof.
  induction s as [|c s IH]; [done|]. cbn [upper].
  destruct s as [|d s].
  - cbn [upper]. rewrite str_app_nil_r, upper_char_semicolon.
    split; [by intros ->|by intros [= ->]].
  - rewrite last_cons_cons, <-IH.
    destruct (upper (d :: s)) as [|x u] eqn:Hu.
    + by apply upper_nil_inv in Hu.
    + by rewrite last_app_cons.
Qed.

Lemma endswith_semicolon_upper s : endswith ";" (upper s) = endswith ";" s.
Proof.
  apply eq_true_iff_eq. by rewrite !(endswith_last 59), last_upper.
Qed.

(** X1. Two texts that are equal once upper-cased get the same verdict and
    the same message: the guard does not look at letter case. *)
Theorem validate_ignores_case (q1 q2 : str) :
  upper q1 = upper q2 → validate_sql_query q1 = validate_sql_query q2.
Proof.
  intros Hup.
  assert (upper (strip q1) = upper (strip q2)) as Hstrip.
  { by rewrite <-!strip_upper, Hup. }
  unfold validate_sql_query. rewrite !rstrip_strip, Hstrip.
  by rewrite <-(endswith_semicolon_upper (strip q1)), Hstrip,
    endswith_semicolon_upper.
Qed.

Lemma validate_ignores_case_witness :
  validate_sql_query "ſelect * From Employeeß;"
  = validate_sql_query "sELECT * fROM eMPLOYEESS;".
Proof. apply validate_ignores_case. vm_compute. reflexivity. Defined.

Lemma lstrip_app_blank a s : all_chars isspace a = true → lstrip (a ++ s) = lstrip s.
Proof.
  unfold lstrip. induction a as [|c a IH]; [done|].
  intros H. cbn [all_chars] in H. apply andb_true_iff in H as [Hc Ha].
  rewrite str_app_cons. cbn [lstrip_with]. rewrite Hc. auto.
Qed.

Lemma rstrip_blank b : all_chars isspace b = true → rstrip b = "".
Proof.
  unfold rstrip. induction b as [|c b IH]; [done|].
  intros H. cbn [all_chars] in H. apply andb_true_iff in H as [Hc Hb].
  cbn [rstrip_with]. by rewrite (IH Hb), Hc.
Qed.

Lemma rstrip_app_blank s b : all_chars isspace b = true → rstrip (s ++ b) = rstrip s.
Proof.
  intros Hb. unfold rstrip. induction s as [|c s IH].
  - rewrite str_app_nil_l. by apply rstrip_blank.
  - rewrite str_app_cons. cbn [rstrip_with]. by rewrite IH.
Qed.

Lemma lstrip_app s t :
  lstrip (s ++ t) = if all_chars isspace s then lstrip t else lstrip s ++ t.
Proof.
  unfold lstrip. induction s as [|c s IH]; [done|].
  rewrite str_app_cons. cbn [lstrip_with all_chars].
  destruct (isspace c); [exact IH|done].
Qed.

Lemma strip_app_blank_r s b : all_chars isspace b = true → strip (s ++ b) = strip s.
Proof.
  intros Hb. unfold strip. rewrite lstrip_app.
  destruct (all_chars isspace s) eqn:Hs.
  - unfold lstrip.
    by rewrite (lstrip_with_blank _ _ Hb), (lstrip_with_blank _ _ Hs).
  - by apply rstrip_app_blank.
Qed.

(** X2. Blanks around a text change neither the verdict nor the message. *)
Theorem validate_ignores_blanks (a q b : str) :
  all_chars isspace a = true → all_chars isspace b = true →
  validate_sql_query (a ++ q ++ b) = validate_sql_query q.
Proof.
  intros Ha Hb.
  assert (strip (a ++ q ++ b) = strip q) as Hstrip.
  { unfold strip at 1. rewrite (lstrip_app_blank _ _ Ha).
    by apply strip_app_blank_r. }
  unfold validate_sql_query. by rewrite Hstrip.
Qed.

Lemma validate_ignores_blanks_witness :
  validate_sql_query ([32; 160; 10] ++ "SELECT 1;" ++ [133; 9; 12288])
  = validate_sql_query "SELECT 1;".
Proof. apply validate_ignores_blanks; vm_compute; reflexivity. Defined.

Lemma is_substring_app k a q b : is_substring k q → is_substring k (a ++ q ++ b).
Proof.
  intros (x & y & ->). exists (a ++ x), (y ++ b).
  by rewrite !str_app_assoc.
Qed.

Lemma lstrip_keeps k s :
  k ≠ "" → all_chars (λ c, negb (isspace c)) k = true →
  is_substring k s → is_substring k (lstrip s).
Proof.
  intros Hne Hk (x & y & ->). rewrite lstrip_app.
  destruct (all_chars isspace x).
  - destruct k as [|c k]; [done|]. cbn [all_chars] in Hk.
    apply andb_true_iff in Hk as [Hc _]. rewrite str_app_cons.
    unfold lstrip. cbn [lstrip_with].
    destruct (isspace c); [done|]. exists "", y. by rewrite str_app_cons.
  - by exists (lstrip x), y.
Qed.

Lemma rstrip_solid k y :
  all_chars (λ c, negb (isspace c)) k = true →
  ∃ y', rstrip (k ++ y) = k ++ y'.
Proof.
  intros Hk. unfold rstrip. induction k as [|c k IH].
  - by exists (rstrip_with isspace y).
  - cbn [all_chars] in Hk. apply andb_true_iff in Hk as [Hc Hk].
    destruct (IH Hk) as [y' Hy']. rewrite str_app_cons. cbn [rstrip_with].
    rewrite Hy'. destruct (k ++ y') as [|d r] eqn:Hr.
    + destruct k; [|done]. rewrite str_app_nil_l in Hr. subst y'.
      destruct (isspace c); [done|]. by exists "".
    + exists y'. by rewrite str_app_cons, Hr.
Qed.

Lemma rstrip_keeps k s :
  k ≠ "" → all_chars (λ c, negb (isspace c)) k = true →
  is_substring k s → is_substring k (rstrip s).
Proof.
  intros Hne Hk (x & y & ->). induction x as [|c x IH].
  - rewrite str_app_nil_l. destruct (rstrip_solid k y Hk) as [y' ->].
    by exists "", y'.
  - destruct IH as (a & b & Hab). rewrite str_app_cons.
    unfold rstrip in *. cbn [rstrip_with]. rewrite Hab.
    destruct (a ++ k ++ b) as [|d r] eqn:Hr.
    + destruct a; [|done]. rewrite str_app_nil_l in Hr. by destruct k.
    + exists (c :: a), b. by rewrite str_app_cons, Hr.
Qed.

Lemma dangerous_keywords_solid k :
  k ∈ dangerous_keywords →
  k ≠ "" ∧ all_chars (λ c, negb (isspace c)) k = true.
Proof.
  unfold dangerous_keywords. intros Hk.
  repeat (apply elem_of_cons in Hk as [->|Hk]; [by split|]).
  by apply elem_of_nil in Hk.
Qed.

(** X3. A text that holds a keyword of the deny list, in any letter case,
    stays rejected for a dangerous keyword whatever is written before and
    after it. *)
Theorem dangerous_keyword_persists (a q b : str) :
  (∃ k, k ∈ dangerous_keywords ∧ is_substring k (upper q)) →
  ∃ k', k' ∈ dangerous_keywords ∧
        validate_sql_query (a ++ q ++ b) =
          (false, "Query contains dangerous keyword: " ++ k').
Proof.
  intros (k & Hk & Hsub).
  destruct (dangerous_keywords_solid k Hk) as [Hne Hsolid].
  assert (is_substring k (upper (strip (a ++ q ++ b)))) as Hin.
  { rewrite <-strip_upper. unfold strip.
    apply rstrip_keeps, lstrip_keeps; [done..|].
    rewrite !upper_app. by apply is_substring_app. }
  unfold validate_sql_query.
  destruct (check_keywords dangerous_keywords _) as [r|] eqn:Hck.
  - destruct (check_keywords_Some _ _ _ Hck)
      as (before & k' & after & Hkws & _ & _ & ->).
    exists k'. split; [|done]. rewrite Hkws. apply elem_of_app. right. by left.
  - exfalso. by apply (proj1 (check_keywords_None _ _) Hck k).
Qed.

Lemma dangerous_keyword_persists_witness :
  ∃ k', k' ∈ dangerous_keywords ∧
        validate_sql_query ("SELECT * FROM t; " ++ "drop table t" ++ ";") =
          (false, "Query contains dangerous keyword: " ++ k').
Proof.
  apply (dangerous_keyword_persists "SELECT * FROM t; " "drop table t" ";").
  exists "DROP". split.
  - unfold dangerous_keywords. left.
  - exists "", " TABLE T". reflexivity.
Defined.

End query_guard_more.

(** ** The tutor widget *)
Section tutor_widget.
Import Py Spec SqlEngine SqlTutor Engine Tutor.

Lemma lstrip_solid_start c s : isspace c = false → lstrip (c :: s) = c :: s.
Proof. intros Hc. unfold lstrip. cbn [lstrip_with]. by rewrite Hc. Qed.

Lemma lstrip_rstrip_lstrip s : lstrip (rstrip (lstrip s)) = rstrip (lstrip s).
Proof.
  unfold lstrip, rstrip. induction s as [|c s IH]; [done|].
  cbn [lstrip_with]. destruct (isspace c) eqn:Hc; [exact IH|].
  cbn [rstrip_with]. destruct (rstrip_with isspace s) as [|d r];
    rewrite ?Hc; cbn [lstrip_with]; by rewrite Hc.
Qed.

Lemma strip_idem s : strip (strip s) = strip s.
Proof.
  unfold strip. rewrite lstrip_rstrip_lstrip. apply rstrip_with_idem.
Qed.

Lemma validate_strip s : validate_sql_query (strip s) = validate_sql_query s.
Proof. unfold validate_sql_query. by rewrite strip_idem. Qed.

Lemma strip_tw_get w : strip (tw_get w) = strip (tw_content w).
Proof. unfold tw_get. by apply strip_app_blank_r. Qed.

(** X4. When the guard turns the text of the query box down, or the box
    holds blanks only, pressing Execute changes the validation label and
    nothing else: no statement goes to the database and the results stay
    as they were. *)
Theorem rejected_input_not_executed (conn : connection) (str_exn : exn → str)
    (s : tutor) :
  fst (validate_sql_query (tw_content (query_input s))) = false →
  execute_query conn str_exn s =
    (Ok tt,
     set_validation_label
       (if bool_decide (strip (tw_content (query_input s)) = "")
        then "⚠️ Please enter a SQL query"
        else "❌ " ++ snd (validate_sql_query (tw_content (query_input s))))
       s).
Proof.
  intros Hrej. unfold execute_query. rewrite strip_tw_get.
  destruct (strip (tw_content (query_input s))) as [|c q] eqn:Hq; [done|].
  rewrite <-Hq, validate_strip.
  destruct (validate_sql_query (tw_content (query_input s))) as [b msg].
  simpl in Hrej. subst b. simpl. by rewrite Hq.
Qed.

Lemma rejected_input_not_executed_witness :
  execute_query (λ _ _, None) (λ _, "")
    (TutorState [] 0 0 "" "" (TextWidget "" false)
       (TextWidget "select * from ınsert_log;" false) "" ["old"] [] [])
  = (Ok tt,
     TutorState [] 0 0 "" "" (TextWidget "" false)
       (TextWidget "select * from ınsert_log;" false)
       "❌ Query contains dangerous keyword: INSERT" ["old"] [] []) ∧
  execute_query (λ _ _, None) (λ _, "")
    (TutorState [] 0 0 "" "" (TextWidget "" false)
       (TextWidget [160; 8195]%N false) "" ["old"] [] [])
  = (Ok tt,
     TutorState [] 0 0 "" "" (TextWidget "" false)
       (TextWidget [160; 8195]%N false)
       "⚠️ Please enter a SQL query" ["old"] [] []).
Proof.
  split; rewrite rejected_input_not_executed; vm_compute; reflexivity.
Defined.

Lemma accepted_not_blank s :
  fst (validate_sql_query s) = true → strip s ≠ "".
Proof.
  intros Hok Hs. rewrite <-validate_strip, Hs in Hok. discriminate Hok.
Qed.

Lemma display_any_run query results w :
  display_query_results query results w =
    (Ok tt, match results with
            | [] => empty_report query
            | r0 :: rest => report query r0 rest
            end).
Proof.
  destruct results as [|r0 rest].
  - apply display_empty_run.
  - apply display_query_results_run.
Qed.

(** Pressing Execute on an accepted text, step by step. *)
Lemma execute_query_accepted (conn : connection) (str_exn : exn → str)
    (s : tutor) :
  fst (validate_sql_query (tw_content (query_input s))) = true →
  let query := strip (tw_content (query_input s)) in
  let results := default [] (conn (calls s) (Call query None)) in
  execute_query conn str_exn s =
    (Ok tt,
     set_validation_label
       ("✅ Query executed successfully - "
        ++ str_of_nat (length results) ++ " rows returned")
       (set_results_text
          (match results with
           | [] => empty_report query
           | r0 :: rest => report query r0 rest
           end)
          (set_calls (calls s ++ [Call query None]) s))).
Proof.
  intros Hok query results. pose proof (accepted_not_blank _ Hok) as Hne.
  unfold execute_query. rewrite strip_tw_get. fold query. fold query in Hne.
  destruct query as [|c q] eqn:Hq; [done|]. rewrite <-Hq.
  assert (validate_sql_query query = validate_sql_query (tw_content (query_input s)))
    as Hv by apply validate_strip.
  subst query. rewrite Hv.
  destruct (validate_sql_query (tw_content (query_input s))) as [b msg].
  simpl in Hok. subst b. cbn [negb]. cbv iota.
  unfold Engine.execute_query. rewrite Hq in *.
  assert (calls (set_validation_label "⏳ Executing query..." s) = calls s)
    as -> by done.
  subst results.
  destruct (conn (calls s) (Call (c :: q) None)) as [rows|];
    cbn [default]; rewrite display_any_run; by destruct s.
Qed.

(** X5. When the guard accepts the text of the query box, pressing Execute
    sends exactly one statement to the database, the trimmed text, without
    parameters; the results widget then holds the report of the rows the
    database answered, and the label reads success with their number. When
    the database fails, the rows are none: the label still reads success,
    with 0 rows, over the report of an empty result. *)
Theorem accepted_query_outcome (conn : connection) (str_exn : exn → str)
    (s : tutor) :
  fst (validate_sql_query (tw_content (query_input s))) = true →
  let query := strip (tw_content (query_input s)) in
  let results := default [] (conn (calls s) (Call query None)) in
  execute_query conn str_exn s =
    (Ok tt,
     set_validation_label
       ("✅ Query executed successfully - "
        ++ str_of_nat (length results) ++ " rows returned")
       (set_results_text
          (match results with
           | [] => empty_report query
           | r0 :: rest => report query r0 rest
           end)
          (set_calls (calls s ++ [Call query None]) s))).
Proof. apply execute_query_accepted. Qed.

Lemma accepted_query_outcome_witness :
  execute_query (λ _ _, None) (λ _, "")
    (TutorState [] 0 0 "" "" (TextWidget "" false)
       (TextWidget ([160; 32]%N ++ "ſelect * FROM nowhere;" ++ nl) false) "" ["old"] [] [])
  = (Ok tt,
     TutorState [] 0 0 "" "" (TextWidget "" false)
       (TextWidget ([160; 32]%N ++ "ſelect * FROM nowhere;" ++ nl) false)
       "✅ Query executed successfully - 0 rows returned"
       (empty_report "ſelect * FROM nowhere;")
       [Call "ſelect * FROM nowhere;" None] []).
Proof.
  rewrite accepted_query_outcome; vm_compute; reflexivity.
Defined.

(** X6. Pressing Execute always returns normally, and what it does never
    depends on the text of an exception: the "Query error" branch of the
    method is not reachable, since the engine answers a failing statement
    with no rows and the display of rows does not raise. *)
Theorem query_error_branch_unreachable (conn : connection)
    (str_exn str_exn' : exn → str) (s : tutor) :
  fst (execute_query conn str_exn s) = Ok tt ∧
  execute_query conn str_exn s = execute_query conn str_exn' s.
Proof.
  unfold execute_query.
  destruct (strip (tw_get (query_input s))) as [|c q]; [done|].
  destruct (validate_sql_query (c :: q)) as [[] msg]; [|done].
  cbn [negb]. cbv iota. destruct (Engine.execute_query _ _ _ _) as [rows cs].
  by rewrite display_any_run.
Qed.

Lemma load_tutorial_calls i s : calls (snd (load_tutorial i s)) = calls s.
Proof.
  unfold load_tutorial. destruct (_ <=? _); [done|].
  cbn. by destruct (tutorials s !! i).
Qed.

Lemma load_example_query_calls s : calls (snd (load_example_query s)) = calls s.
Proof.
  unfold load_example_query. destruct (_ <=? _); [done|].
  destruct (tutorials s !! current_tutorial s) as [tut|]; [|done].
  destruct (tut_examples tut) as [|e es]; [done|].
  by destruct (_ !! _).
Qed.

Lemma execute_query_calls conn str_exn s :
  calls (snd (execute_query conn str_exn s)) = calls s ∨
  ∃ query, calls (snd (execute_query conn str_exn s)) = calls s ++ [Call query None] ∧
           fst (validate_sql_query query) = true.
Proof.
  unfold execute_query.
  destruct (strip (tw_get (query_input s))) as [|c q]; [by left|].
  destruct (validate_sql_query (c :: q)) as [[] msg] eqn:Hv; [|by left].
  right. exists (c :: q). rewrite Hv. split; [|done].
  cbn [negb]. cbv iota. unfold Engine.execute_query.
  destruct (conn _ _); rewrite display_any_run; done.
Qed.

Lemma get_table_schema_calls conn t cs :
  snd (get_table_schema conn t cs)
  = cs ++ [Call ("PRAGMA table_info(" ++ t ++ ")") None].
Proof.
  unfold get_table_schema, Engine.execute_query.
  destruct (conn _ _) as [rows|]; by destruct (schema_entries _).
Qed.

Lemma show_table_schema_calls conn t s :
  calls (snd (show_table_schema conn t s))
  = calls s ++ [Call ("PRAGMA table_info(" ++ t ++ ")") None].
Proof.
  unfold show_table_schema.
  pose proof (get_table_schema_calls conn t (calls s)) as Hcs.
  destruct (get_table_schema conn t (calls s)) as [schema cs]. simpl in Hcs.
  destruct schema as [|col schema]; [done|].
  by destruct (schema_report _ _ _) as [[[]|e] w].
Qed.

(** X7. Whatever the user does, in any order, the statements that reach
    the database are added at the end of the engine's list, carry no
    parameters, and each of them is either a text the guard accepts or the
    schema request of a table button. *)
Theorem only_guarded_statements_sent (conn : connection) (str_exn : exn → str)
    (actions : list action) (s : tutor) :
  ∃ sent,
    calls (run conn str_exn s actions) = calls s ++ sent ∧
    Forall (λ c, call_params c = None ∧
                 (fst (validate_sql_query (call_sql c)) = true ∨
                  ∃ t, call_sql c = "PRAGMA table_info(" ++ t ++ ")"))
           sent.
Proof.
  revert s. induction actions as [|a actions IH]; intros s.
  - exists []. split; [by rewrite app_nil_r|done].
  - assert (∃ sent,
              calls (step conn str_exn s a) = calls s ++ sent ∧
              Forall (λ c, call_params c = None ∧
                           (fst (validate_sql_query (call_sql c)) = true ∨
                            ∃ t, call_sql c = "PRAGMA table_info(" ++ t ++ ")"))
                     sent) as (sent1 & Hstep & Hsent1).
    { destruct a as [text| | | |i|t]; cbn [step].
      - exists []. by rewrite app_nil_r.
      - destruct (execute_query_calls conn str_exn s) as [->|(q & -> & Hq)].
        + exists []. by rewrite app_nil_r.
        + exists [Call q None]. split; [done|].
          apply Forall_singleton. split; [done|by left].
      - exists []. by rewrite app_nil_r.
      - exists []. by rewrite load_example_query_calls, app_nil_r.
      - exists []. by rewrite load_tutorial_calls, app_nil_r.
      - exists [Call ("PRAGMA table_info(" ++ t ++ ")") None].
        split; [apply show_table_schema_calls|].
        apply Forall_singleton. split; [done|]. right. by exists t. }
    destruct (IH (step conn str_exn s a)) as (sent2 & Hrun & Hsent2).
    exists (sent1 ++ sent2). split.
    + change (run conn str_exn s (a :: actions))
        with (run conn str_exn (step conn str_exn s a) actions).
      by rewrite Hrun, Hstep, <-app_assoc.
    + by apply Forall_app.
Qed.

Lemma tw_frozen w text :
  tw_disabled w = true → tw_disable (tw_insert_start text (tw_delete_all w)) = w.
Proof. destruct w as [c []]; [done|discriminate]. Qed.

Lemma step_keeps_disabled_description conn str_exn s a :
  tw_disabled (lesson_description s) = true →
  lesson_description (step conn str_exn s a) = lesson_description s.
Proof.
  intros Hdis. destruct a as [text| | | |i|t]; cbn [step]; [done| |done| | |].
  - unfold execute_query.
    destruct (strip _); [done|]. destruct (validate_sql_query _) as [[] msg];
      [|done].
    cbn [negb]. cbv iota. destruct (Engine.execute_query _ _ _ _).
    by rewrite display_any_run.
  - unfold load_example_query. destruct (_ <=? _); [done|].
    destruct (tutorials s !! current_tutorial s) as [tut|]; [|done].
    destruct (tut_examples tut) as [|e es]; [done|]. by destruct (_ !! _).
  - unfold load_tutorial. destruct (_ <=? _); [done|]. cbn.
    destruct (tutorials s !! i); [|done]. cbn. by apply tw_frozen.
  - unfold show_table_schema. destruct (get_table_schema _ _ _) as [schema cs].
    destruct schema; [done|]. by destruct (schema_report _ _ _) as [[[]|e] w].
Qed.

Lemma load_tutorial_valid i s tut :
  tutorials s !! i = Some tut →
  tutorials (snd (load_tutorial i s)) = tutorials s ∧
  lesson_title (snd (load_tutorial i s)) = tut_title tut ∧
  tw_disabled (lesson_description (snd (load_tutorial i s))) = true ∧
  current_tutorial (snd (load_tutorial i s)) = i ∧
  current_lesson (snd (load_tutorial i s)) = 0 ∧
  query_input (snd (load_tutorial i s)) = query_input s.
Proof.
  intros Hi. unfold load_tutorial.
  assert ((length (tutorials s) <=? i) = false) as ->.
  { apply Nat.leb_gt. by apply lookup_lt_Some in Hi. }
  cbn. by rewrite Hi.
Qed.

Lemma run_keeps_disabled_description conn str_exn actions s :
  tw_disabled (lesson_description s) = true →
  lesson_description (run conn str_exn s actions) = lesson_description s.
Proof.
  revert s. induction actions as [|a actions IH]; intros s Hdis; [done|].
  change (run conn str_exn s (a :: actions))
    with (run conn str_exn (step conn str_exn s a) actions).
  pose proof (step_keeps_disabled_description conn str_exn s a Hdis) as Hstep.
  rewrite IH; [done|]. by rewrite Hstep.
Qed.

(** X8. Loading a tutorial leaves the description box disabled, and a
    disabled box takes no text: after the first tutorial is loaded, no
    action changes the description again, while the title follows every
    tutorial that is loaded later. *)
Theorem lesson_description_frozen (conn : connection) (str_exn : exn → str)
    (s : tutor) (i : nat) (tut : tutorial) :
  tutorials s !! i = Some tut →
  tw_disabled (lesson_description (step conn str_exn s (PressTutorial i))) = true ∧
  (∀ actions,
     lesson_description
       (run conn str_exn (step conn str_exn s (PressTutorial i)) actions)
     = lesson_description (step conn str_exn s (PressTutorial i))) ∧
  (∀ j tut', tutorials s !! j = Some tut' →
     lesson_title
       (step conn str_exn (step conn str_exn s (PressTutorial i)) (PressTutorial j))
     = tut_title tut').
Proof.
  intros Hi. cbn [step].
  destruct (load_tutorial_valid i s tut Hi) as (Htuts & _ & Hdis & _).
  split_and!; [done| |].
  - intros actions. by apply run_keeps_disabled_description.
  - intros j tut' Hj. rewrite <-Htuts in Hj.
    by destruct (load_tutorial_valid j _ tut' Hj) as (_ & -> & _).
Qed.

Lemma lesson_description_frozen_witness :
  tw_content (lesson_description
    (run (λ _ _, None) (λ _, "")
       (step (λ _ _, None) (λ _, "")
          (TutorState get_sql_tutorials 0 0 "" "" (TextWidget "" false)
             (TextWidget "" false) "" [] [] [])
          (PressTutorial 0))
       [PressTutorial 2; PressExample; PressTutorial 4]))
  = "Difficulty: Beginner" ++ nl ++ nl
    ++ "Learn how to query data from tables" ++ nl ++ nl
    ++ "Examples available: 3".
Proof.
  rewrite (proj1 (proj2 (lesson_description_frozen (λ _ _, None) (λ _, "")
             (TutorState get_sql_tutorials 0 0 "" "" (TextWidget "" false)
                (TextWidget "" false) "" [] [] [])
             0 _ eq_refl))).
  reflexivity.
Defined.

(** X9. Loading a tutorial and loading an example never raise: the list
    positions they read are always in range. *)
Theorem tutorial_buttons_never_raise (i : nat) (s : tutor) :
  fst (load_tutorial i s) = Ok tt ∧ fst (load_example_query s) = Ok tt.
Proof.
  split.
  - unfold load_tutorial. destruct (_ <=? _) eqn:Hlen; [done|].
    apply Nat.leb_gt in Hlen. cbn.
    destruct (lookup_lt_is_Some_2 (tutorials s) i Hlen) as [tut ->]. done.
  - unfold load_example_query. destruct (_ <=? _) eqn:Hlen; [done|].
    apply Nat.leb_gt in Hlen.
    destruct (lookup_lt_is_Some_2 _ _ Hlen) as [tut ->].
    destruct (tut_examples tut) as [|e es] eqn:Hex; [done|].
    assert (current_lesson s mod length (e :: es) < length (e :: es)) as Hmod.
    { apply Nat.mod_upper_bound. done. }
    destruct (lookup_lt_is_Some_2 _ _ Hmod) as [ex ->]. done.
Qed.

Lemma load_example_query_valid s tut ex :
  tutorials s !! current_tutorial s = Some tut →
  tut_examples tut !! (current_lesson s mod length (tut_examples tut)) = Some ex →
  tw_disabled (query_input s) = false →
  snd (load_example_query s) =
    set_lesson ((current_lesson s + 1) mod length (tut_examples tut))
      (set_validation_label ("💡 Example: " ++ ex_explanation ex)
         (set_query_input (TextWidget (ex_query ex) false) s)).
Proof.
  intros Htut Hex Hen. unfold load_example_query.
  assert ((length (tutorials s) <=? current_tutorial s) = false) as ->.
  { apply Nat.leb_gt. by apply lookup_lt_Some in Htut. }
  rewrite Htut. destruct (tut_examples tut) as [|e es] eqn:Hes; [done|].
  rewrite Hex. cbn. unfold tw_insert_start, tw_delete_all. rewrite Hen. cbn.
  by rewrite str_app_nil_r.
Qed.

(** X10. The Example button walks through the examples of the current
    tutorial in order and starts again after the last: pressed [k + 1]
    times from lesson position [p], it leaves example [(p + k) mod n] in
    the query box, its explanation in the label, and position
    [(p + k + 1) mod n]. *)
Theorem example_button_cycles (conn : connection) (str_exn : exn → str)
    (k : nat) (s : tutor) (tut : tutorial) :
  tutorials s !! current_tutorial s = Some tut →
  tut_examples tut ≠ [] →
  tw_disabled (query_input s) = false →
  ∃ ex,
    tut_examples tut !! ((current_lesson s + k) mod length (tut_examples tut))
      = Some ex ∧
    query_input (run conn str_exn s (replicate (S k) PressExample))
      = TextWidget (ex_query ex) false ∧
    validation_label (run conn str_exn s (replicate (S k) PressExample))
      = "💡 Example: " ++ ex_explanation ex ∧
    current_lesson (run conn str_exn s (replicate (S k) PressExample))
      = (current_lesson s + S k) mod length (tut_examples tut).
Proof.
  intros Htut Hne. revert s Htut.
  assert (0 < length (tut_examples tut)) as Hn.
  { destruct (tut_examples tut); [done|]. simpl. lia. }
  induction k as [|k IH]; intros s Htut Hen.
  - assert (current_lesson s mod length (tut_examples tut)
            < length (tut_examples tut)) as Hlt.
    { apply Nat.mod_upper_bound. lia. }
    destruct (lookup_lt_is_Some_2 _ _ Hlt) as [ex Hex].
    exists ex. rewrite Nat.add_0_r. split; [done|].
    change (run conn str_exn s (replicate 1 PressExample))
      with (snd (load_example_query s)).
    rewrite (load_example_query_valid s tut ex Htut Hex Hen). done.
  - assert (current_lesson s mod length (tut_examples tut)
            < length (tut_examples tut)) as Hlt.
    { apply Nat.mod_upper_bound. lia. }
    destruct (lookup_lt_is_Some_2 _ _ Hlt) as [ex0 Hex0].
    change (run conn str_exn s (replicate (S (S k)) PressExample))
      with (run conn str_exn (snd (load_example_query s))
              (replicate (S k) PressExample)).
    pose proof (load_example_query_valid s tut ex0 Htut Hex0 Hen) as Hstep.
    destruct (IH (snd (load_example_query s))) as (ex & Hex & Hq & Hl & Hpos).
    { by rewrite Hstep. }
    { by rewrite Hstep. }
    exists ex. rewrite Hq, Hl, Hpos. rewrite Hstep in Hex |- *. cbn in Hex |- *.
    rewrite Nat.Div0.add_mod_idemp_l in Hex |- *.
    replace (current_lesson s + 1 + k) with (current_lesson s + S k) in Hex by lia.
    replace (current_lesson s + 1 + S k) with (current_lesson s + S (S k)) by lia.
    done.
Qed.

Lemma example_button_cycles_witness :
  ∃ ex,
    tut_examples (Tutorial "t" "T" "d" "Beginner"
                    [Example "SELECT 1;" "one"; Example "SELECT 2;" "two"])
      !! ((1 + 3) mod 2) = Some ex ∧
    query_input
      (run (λ _ _, None) (λ _, "")
         (TutorState [Tutorial "t" "T" "d" "Beginner"
                        [Example "SELECT 1;" "one"; Example "SELECT 2;" "two"]]
            0 1 "" "" (TextWidget "" false) (TextWidget "" false) "" [] [] [])
         (replicate 4 PressExample))
      = TextWidget (ex_query ex) false ∧
    ex = Example "SELECT 1;" "one".
Proof.
  destruct (example_button_cycles (λ _ _, None) (λ _, "") 3
              (TutorState [Tutorial "t" "T" "d" "Beginner"
                             [Example "SELECT 1;" "one"; Example "SELECT 2;" "two"]]
                 0 1 "" "" (TextWidget "" false) (TextWidget "" false) "" [] [] [])
              (Tutorial "t" "T" "d" "Beginner"
                 [Example "SELECT 1;" "one"; Example "SELECT 2;" "two"])
              eq_refl ltac:(discriminate) eq_refl)
    as (ex & Hex & Hq & _).
  exists ex. split_and!; [exact Hex|exact Hq|].
  cbn in Hex. by injection Hex as <-.
Defined.




Lemma str_app_eq_app (a b c d : str) :
  a ++ b = c ++ d →
  (∃ e, c = a ++ e ∧ b = e ++ d) ∨ (∃ e, a = c ++ e ∧ d = e ++ b).
Proof.
  revert c. induction a as [|x a IH]; intros c Heq.
  - left. exists c. by rewrite !str_app_nil_l in *.
  - destruct c as [|y c].
    + right. exists (x :: a). by rewrite !str_app_nil_l in *.
    + rewrite !str_app_cons in Heq. injection Heq as -> Heq.
      destruct (IH c Heq) as [(e & -> & ->)|(e & -> & ->)].
      * left. exists e. by rewrite str_app_cons.
      * right. exists e. by rewrite str_app_cons.
Qed.

Lemma all_chars_app P s t :
  all_chars P (s ++ t) = all_chars P s && all_chars P t.
Proof.
  induction s as [|c s IH]; [done|].
  rewrite str_app_cons. cbn [all_chars]. by rewrite IH, andb_assoc.
Qed.

(** A word without blanks that occurs in a text with a blank in it lies on
    one side of the blank. *)
Lemma substring_beside_blank k x sp y :
  k ≠ "" → all_chars (λ c, negb (isspace c)) k = true → isspace sp = true →
  is_substring k (x ++ (sp :: y)) → is_substring k x ∨ is_substring k y.
Proof.
  intros Hne Hk Hsp (a & b & Heq).
  destruct (str_app_eq_app _ _ _ _ Heq) as [(e & -> & He)|(e & -> & He)].
  - destruct e as [|c e].
    + rewrite str_app_nil_l in He. destruct k as [|c k]; [done|].
      rewrite str_app_cons in He. injection He as <- _.
      cbn [all_chars] in Hk. by rewrite Hsp in Hk.
    + rewrite str_app_cons in He. injection He as <- ->. right. by exists e, b.
  - destruct (str_app_eq_app _ _ _ _ He) as [(e' & -> & Hb)|(e' & -> & Hb)].
    + left. by exists a, e'.
    + destruct e' as [|c e'].
      * left. exists a, "". by rewrite !str_app_nil_r.
      * rewrite str_app_cons in Hb. injection Hb as <- _.
        rewrite all_chars_app in Hk. cbn [all_chars] in Hk.
        rewrite Hsp in Hk. cbn in Hk. by rewrite andb_false_r in Hk.
Qed.

Lemma rstrip_end_solid u d :
  isspace d = false → rstrip (u ++ [d]) = u ++ [d].
Proof.
  intros Hd. unfold rstrip. induction u as [|c u IH].
  - rewrite str_app_nil_l. cbn [rstrip_with]. by rewrite Hd.
  - rewrite str_app_cons. cbn [rstrip_with]. rewrite IH.
    destruct u; by rewrite ?str_app_cons.
Qed.

Lemma sample_query_strip t :
  strip ("SELECT * FROM " ++ t ++ " LIMIT 5;")
  = "SELECT * FROM " ++ t ++ " LIMIT 5;".
Proof.
  unfold strip.
  assert (lstrip ("SELECT * FROM " ++ t ++ " LIMIT 5;")
          = "SELECT * FROM " ++ t ++ " LIMIT 5;") as -> by reflexivity.
  change (" LIMIT 5;") with (" LIMIT 5" ++ ";").
  rewrite <-!str_app_assoc. by apply rstrip_end_solid.
Qed.

Lemma sample_query_keywords k t :
  k ∈ dangerous_keywords →
  is_substring k (upper ("SELECT * FROM " ++ t ++ " LIMIT 5;")) ↔
  is_substring k (upper t).
Proof.
  intros Hk. destruct (dangerous_keywords_solid k Hk) as [Hne Hsolid].
  rewrite !upper_app. split; [|apply is_substring_app].
  change (upper "SELECT * FROM ") with ("SELECT * FROM" ++ " ").
  change (upper " LIMIT 5;") with (32%N :: "LIMIT 5;").
  rewrite str_app_assoc. change (" " ++ ?x) with (32%N :: x).
  intros Hin.
  assert (∀ w, contains k w = false → ¬ is_substring k w) as Hno.
  { intros w Hw Hsub%contains_spec. by rewrite Hw in Hsub. }
  assert (contains k "SELECT * FROM" = false ∧ contains k "LIMIT 5;" = false)
    as [Hleft Hright].
  { clear -Hk. unfold dangerous_keywords in Hk.
    repeat (apply elem_of_cons in Hk as [->|Hk]; [by vm_compute|]).
    by apply elem_of_nil in Hk. }
  destruct (substring_beside_blank k "SELECT * FROM" 32%N
              (upper t ++ " LIMIT 5;") Hne Hsolid eq_refl Hin) as [Hin1|Hin1].
  { by apply Hno in Hin1. }
  destruct (substring_beside_blank k (upper t) 32%N "LIMIT 5;"
              Hne Hsolid eq_refl Hin1) as [Hin2|Hin2].
  - done.
  - by apply Hno in Hin2.
Qed.

(** X12. The sample query a table button leaves in the query box,
    "SELECT * FROM <table> LIMIT 5;", is accepted by the guard exactly when
    the table's name, upper-cased, holds no keyword of the deny list. The
    words around the name never trigger the guard, and a table whose name
    has such a keyword in it cannot be sampled. *)
Theorem sample_query_accepted_iff (table_name : str) :
  validate_sql_query ("SELECT * FROM " ++ table_name ++ " LIMIT 5;")
    = (true, "Query validation passed") ↔
  ∀ k, k ∈ dangerous_keywords → ¬ is_substring k (upper table_name).
Proof.
  unfold validate_sql_query. rewrite rstrip_strip, sample_query_strip.
  assert (startswith "SELECT"
            (upper ("SELECT * FROM " ++ table_name ++ " LIMIT 5;")) = true)
    as ->.
  { by rewrite upper_app. }
  assert (endswith ";" ("SELECT * FROM " ++ table_name ++ " LIMIT 5;") = true)
    as ->.
  { apply endswith_spec. exists ("SELECT * FROM " ++ table_name ++ " LIMIT 5").
    by rewrite !str_app_assoc. }
  cbn [negb]. cbv iota.
  destruct (check_keywords dangerous_keywords _) as [r|] eqn:Hck.
  - destruct (check_keywords_Some _ _ _ Hck)
      as (before & k & after & Hkws & Hsub & _ & ->).
    assert (k ∈ dangerous_keywords) as Hk.
    { rewrite Hkws. apply elem_of_app. right. by left. }
    split; [done|]. intros Hclean. exfalso. apply (Hclean k Hk).
    by apply (sample_query_keywords k table_name Hk).
  - split; [|done]. intros _ k Hk Hsub.
    apply (proj1 (check_keywords_None _ _) Hck k Hk).
    by apply (sample_query_keywords k table_name Hk).
Qed.

Lemma sample_query_accepted_iff_witness :
  validate_sql_query ("SELECT * FROM " ++ "employees" ++ " LIMIT 5;")
    = (true, "Query validation passed").
Proof.
  apply (proj2 (sample_query_accepted_iff "employees")).
  intros k Hk Hsub%contains_spec. revert Hsub.
  unfold dangerous_keywords in Hk.
  repeat (apply elem_of_cons in Hk as [->|Hk]; [by vm_compute|]).
  by apply elem_of_nil in Hk.
Defined.

Lemma len_ljust_fits s w : len s ≤ w → len (ljust s w) = w.
Proof.
  intros H. unfold ljust. rewrite len_app, (len_times 32). lia.
Qed.

Lemma schema_line_text name ty nn pk :
  ∃ line, schema_line (ColumnInfo (VStr name) (VStr ty) nn pk) = Ok line ∧
          (len name ≤ 18 → len ty ≤ 12 → len line = 49).
Proof.
  eexists. split; [reflexivity|]. intros Hname Hty.
  cbn [ci_primary_key ci_not_null ci_column ci_type py_str].
  rewrite !len_app, (len_ljust_fits name), (len_ljust_fits ty) by done.
  rewrite len_ljust_fits by (destruct nn; cbn; lia).
  change (len " | ") with 3. change (len nl) with 1.
  destruct pk; [change (len "✓") with 1|change (len " ") with 1]; lia.
Qed.

Lemma schema_lines_run (schema : list column_info) lines w :
  Forall2 (λ col line, schema_line col = Ok line) schema lines →
  SqlTutor.for_each schema
    (λ col, SqlTutor.bind (SqlTutor.lift (schema_line col)) SqlTutor.insert_end) w
  = (Ok tt, w ++ lines).
Proof.
  intros Hall. revert w.
  induction Hall as [|col line schema lines Hline _ IH]; intros w.
  - cbn. by rewrite app_nil_r.
  - cbn [SqlTutor.for_each]. unfold SqlTutor.bind at 1. unfold SqlTutor.bind at 1.
    unfold SqlTutor.lift. rewrite Hline. unfold SqlTutor.insert_end at 1.
    rewrite IH. by rewrite <-app_assoc.
Qed.

(** X13. For a schema with at least one column whose names and types are
    text, as SQLite reports them, a table button returns normally: the
    results widget holds the title, the column header, a rule of 60
    dashes, one line per column in order and the hint, and the query box
    holds the sample query. A line has 49 characters, the newline
    included, when the name has at most 18 and the type at most 12. *)
Theorem table_button_outcome (conn : connection) (table_name : str)
    (s : tutor) (schema : list column_info) (cs : list call) :
  get_table_schema conn table_name (calls s) = (schema, cs) →
  schema ≠ [] →
  Forall (λ col, ∃ name ty, ci_column col = VStr name ∧ ci_type col = VStr ty)
         schema →
  tw_disabled (query_input s) = false →
  ∃ lines,
    show_table_schema conn table_name s =
      (Ok tt,
       set_query_input
         (TextWidget ("SELECT * FROM " ++ table_name ++ " LIMIT 5;") false)
         (set_results_text
            (["📋 Table Schema: " ++ table_name ++ nl ++ nl;
              "Column Name        | Data Type    | Nullable | Primary Key" ++ nl;
              times "-" 60 ++ nl]
             ++ lines
             ++ [nl ++ "💡 Try this query to see sample data:" ++ nl
                 ++ "SELECT * FROM " ++ table_name ++ " LIMIT 5;" ++ nl])
            (set_calls cs s))) ∧
    Forall2 (λ col line,
               schema_line col = Ok line ∧
               ∀ name ty, ci_column col = VStr name → ci_type col = VStr ty →
                          len name ≤ 18 → len ty ≤ 12 → len line = 49)
            schema lines.
Proof.
  intros Hschema Hne Htext Hen.
  assert (∃ lines,
            Forall2 (λ col line,
               schema_line col = Ok line ∧
               ∀ name ty, ci_column col = VStr name → ci_type col = VStr ty →
                          len name ≤ 18 → len ty ≤ 12 → len line = 49)
              schema lines) as [lines Hlines].
  { clear -Htext. induction Htext as [|col schema Hcol _ [lines IH]].
    - by exists [].
    - destruct Hcol as (name & ty & Hn & Ht). destruct col as [c t nn pk].
      cbn in Hn, Ht. subst c t.
      destruct (schema_line_text name ty nn pk) as (line & Hline & Hlen).
      exists (line :: lines). constructor; [|done]. split; [done|].
      intros name' ty' [= <-] [= <-]. exact Hlen. }
  exists lines. split; [|done].
  unfold show_table_schema. rewrite Hschema.
  destruct schema as [|col schema]; [done|].
  unfold schema_report.
  unfold SqlTutor.bind at 1. unfold SqlTutor.delete_all at 1.
  unfold SqlTutor.bind at 1. unfold insert_start at 1.
  rewrite !bind_insert_end.
  erewrite bind_Ok; last first.
  { apply schema_lines_run. eapply Forall2_impl; [exact Hlines|].
    by intros col' line' [? _]. }
  unfold SqlTutor.insert_end. cbn [snd fst].
  unfold tw_insert_start, tw_delete_all. cbn. rewrite Hen. cbn.
  by rewrite str_app_nil_r.
Qed.

Lemma table_button_outcome_witness :
  ∃ lines,
    show_table_schema
      (λ _ _, Some [[("cid", VInt (Int64 0 eq_refl)); ("name", VStr "employee_id");
                     ("type", VStr "INTEGER"); ("notnull", VInt (Int64 0 eq_refl));
                     ("dflt_value", VNone); ("pk", VInt (Int64 1 eq_refl))]])
      "employees"
      (TutorState [] 0 0 "" "" (TextWidget "" false) (TextWidget "old" false)
         "" ["old"] [] []) =
      (Ok tt,
       set_query_input
         (TextWidget ("SELECT * FROM " ++ "employees" ++ " LIMIT 5;") false)
         (set_results_text
            (["📋 Table Schema: " ++ "employees" ++ nl ++ nl;
              "Column Name        | Data Type    | Nullable | Primary Key" ++ nl;
              times "-" 60 ++ nl]
             ++ lines
             ++ [nl ++ "💡 Try this query to see sample data:" ++ nl
                 ++ "SELECT * FROM " ++ "employees" ++ " LIMIT 5;" ++ nl])
            (set_calls [Call "PRAGMA table_info(employees)" None]
               (TutorState [] 0 0 "" "" (TextWidget "" false)
                  (TextWidget "old" false) "" ["old"] [] [])))) ∧
    Forall2 (λ col line,
               schema_line col = Ok line ∧
               ∀ name ty, ci_column col = VStr name → ci_type col = VStr ty →
                          len name ≤ 18 → len ty ≤ 12 → len line = 49)
            [ColumnInfo (VStr "employee_id") (VStr "INTEGER") false true] lines.
Proof.
  apply (table_button_outcome
           (λ _ _, Some [[("cid", VInt (Int64 0 eq_refl)); ("name", VStr "employee_id");
                          ("type", VStr "INTEGER"); ("notnull", VInt (Int64 0 eq_refl));
                          ("dflt_value", VNone); ("pk", VInt (Int64 1 eq_refl))]])
           "employees"
           (TutorState [] 0 0 "" "" (TextWidget "" false) (TextWidget "old" false)
              "" ["old"] [] [])).
  - reflexivity.
  - discriminate.
  - apply Forall_singleton. by exists "employee_id", "INTEGER".
  - reflexivity.
Defined.

Lemma getitem_missing (r : dict value) k : k ∉ keys r → getitem r k = Raise KeyError.
Proof.
  unfold keys. induction r as [|[k' v] r IH]; intros Hk; [done|].
  cbn [getitem]. rewrite bool_decide_eq_false_2.
  - apply IH. intros Hin. apply Hk. cbn. by right.
  - intros ->. apply Hk. cbn. by left.
Qed.

Lemma schema_entries_missing rows r key :
  r ∈ rows → key ∈ ["name"; "type"; "notnull"; "pk"] → key ∉ keys r →
  ∃ e, schema_entries rows = Raise e.
Proof.
  intros Hr Hkey Hmiss. induction rows as [|r0 rows IH].
  - by apply elem_of_nil in Hr.
  - cbn [schema_entries]. apply elem_of_cons in Hr as [<-|Hr].
    + pose proof (getitem_missing r key Hmiss) as Hget.
      repeat (apply elem_of_cons in Hkey as [->|Hkey];
              [rewrite Hget;
               repeat match goal with
                      | |- context [getitem r ?k] => destruct (getitem r k)
                      end; eauto|]).
      by apply elem_of_nil in Hkey.
    + destruct (IH Hr) as [e ->].
      repeat match goal with
             | |- context [getitem r0 ?k] => destruct (getitem r0 k)
             end; eauto.
Qed.

(** X14. When the schema request fails, or is answered with no rows, or
    with a row that lacks one of the keys name, type, notnull and pk, a
    table button only records the request and shows the error box: the
    results widget and the query box are left as they were. *)
Theorem table_button_failure (conn : connection) (table_name : str)
    (s : tutor) :
  (conn (calls s) (Call ("PRAGMA table_info(" ++ table_name ++ ")") None) = None ∨
   conn (calls s) (Call ("PRAGMA table_info(" ++ table_name ++ ")") None) = Some [] ∨
   ∃ rows r key,
     conn (calls s) (Call ("PRAGMA table_info(" ++ table_name ++ ")") None)
       = Some rows ∧
     r ∈ rows ∧ key ∈ ["name"; "type"; "notnull"; "pk"] ∧ key ∉ keys r) →
  show_table_schema conn table_name s =
    (Ok tt,
     show_dialog
       (ShowError "Error" ("Could not retrieve schema for table: " ++ table_name))
       (set_calls
          (calls s ++ [Call ("PRAGMA table_info(" ++ table_name ++ ")") None])
          s)).
Proof.
  intros Hfail. unfold show_table_schema, get_table_schema, Engine.execute_query.
  destruct Hfail as [->|[->|(rows & r & key & -> & Hr & Hkey & Hmiss)]];
    [done|done|].
  by destruct (schema_entries_missing rows r key Hr Hkey Hmiss) as [e ->].
Qed.

Lemma table_button_failure_witness :
  show_table_schema
    (λ _ _, Some [[("name", VStr "id"); ("type", VStr "INTEGER"); ("pk", VStr "1")]])
    "t"
    (TutorState [] 0 0 "" "" (TextWidget "" false) (TextWidget "old" false)
       "" ["old"] [] []) =
    (Ok tt,
     TutorState [] 0 0 "" "" (TextWidget "" false) (TextWidget "old" false)
       "" ["old"] [Call "PRAGMA table_info(t)" None]
       [ShowError "Error" "Could not retrieve schema for table: t"]).
Proof.
  rewrite table_button_failure; [reflexivity|].
  right. right.
  exists [[("name", VStr "id"); ("type", VStr "INTEGER"); ("pk", VStr "1")]],
    [("name", VStr "id"); ("type", VStr "INTEGER"); ("pk", VStr "1")], "notnull".
  split_and!; [reflexivity|by left|by do 2 right; left|].
  unfold keys. cbn. intros Hin.
  repeat (apply elem_of_cons in Hin as [[=]|Hin]). by apply elem_of_nil in Hin.
Defined.

End tutor_widget.

